(** * Authentication and token lifecycle of the FitnessAI backend

    A shallow embedding of the request handlers under
    [src/api/v1/endpoints/auth] (login, register, refresh, logout), of the
    request authenticator [src/core/dependencies.py] and of the two tables
    of [src/database/models.py] they touch ([users], [token_blacklist]).

    Handlers are Python functions that raise exceptions and talk to an ORM
    session; they are embedded in a state-and-exception monad over the
    session.  The functions of [src.core.security], the clock, the UUID
    generator and the UUID parsers are collaborators whose code is not part
    of the handlers: they are the fields of the interface [Env]. *)

From Stdlib Require Import Ascii String.
From stdpp Require Import base strings numbers option list gmap pretty.

Local Open Scope string_scope.
Local Open Scope Z_scope.

(** ** HTTP status codes ([fastapi.status]) *)

Module status.
Definition HTTP_200_OK : Z := 200.
Definition HTTP_201_CREATED : Z := 201.
Definition HTTP_400_BAD_REQUEST : Z := 400.
Definition HTTP_401_UNAUTHORIZED : Z := 401.
Definition HTTP_403_FORBIDDEN : Z := 403.
Definition HTTP_500_INTERNAL_SERVER_ERROR : Z := 500.
End status.

(** ** Exceptions

    [HTTPException] is what the handlers raise themselves; [IntegrityError]
    and [DataError] are what the session raises from [commit] when the store
    refuses a row, [InvalidRequestError] what [db.refresh] raises on an
    object that has no row, [ValueError] what the database driver raises
    when it is given a string it cannot send to the store.  No handler
    catches any of them. *)

Inductive exn : Type :=
| HTTPException (status_code : Z) (detail : string)
                (headers : list (string * string))
| IntegrityError (constraint : string)
| DataError (message : string)
| InvalidRequestError (message : string)
| ValueError (message : string).

Inductive outcome (A : Type) : Type :=
| Return (a : A)
| Raise (e : exn).
Arguments Return {A} a.
Arguments Raise {A} e.

(** The status line the framework sends: the route's own code on a normal
    return, the exception's code for an [HTTPException], 500 for any other
    exception that leaves the handler. *)
Definition status_code_of {A} (success : Z) (r : outcome A) : Z :=
  match r with
  | Return _ => success
  | Raise (HTTPException c _ _) => c
  | Raise _ => status.HTTP_500_INTERNAL_SERVER_ERROR
  end.

(** ** Request and response schemas ([src/schemas/auth.py]) *)

Module LoginRequest.
Record t : Type := mk { email : string; password : string }.
End LoginRequest.

Module RegisterRequest.
Record t : Type := mk {
  email : string;
  username : string;
  password : string;
  full_name : option string
}.
End RegisterRequest.

Module TokenResponse.
Record t : Type := mk {
  access_token : string;
  refresh_token : string;
  token_type : string
}.
End TokenResponse.

Module RefreshTokenRequest.
Record t : Type := mk { refresh_token : string }.
End RefreshTokenRequest.

Module LogoutRequest.
Record t : Type := mk { access_token : string; refresh_token : string }.
End LogoutRequest.

Module UserResponse.
Record t : Type := mk {
  id : string;
  email : string;
  username : string;
  full_name : option string;
  is_active : bool;
  created_at : option string
}.
End UserResponse.

(** ** Token payload

    Modelled from the spec: the claims of a decoded token.  The codec that
    builds and parses tokens, [src/core/security.py], is not among the
    sources; the spec gives the payload as [sub], [type], [jti] and [exp]
    (section 4.1).  This is the dict [decode_token] returns.  The handlers
    read the four claims with [payload.get]; a claim that is absent reads as
    [None].  [sub], [type] and [jti] are strings and [exp] is a number of
    seconds, as a signed token carries them.  [others] holds the names of any
    further claims: they only matter for the truth value of the dict. *)

Module Payload.
Record t : Type := mk {
  sub : option string;
  type : option string;
  jti : option string;
  exp : option Z;
  others : list string
}.

(** [{}], the only dict that is false in a condition. *)
Definition is_empty (p : t) : bool :=
  match sub p, type p, jti p, exp p, others p with
  | None, None, None, None, [] => true
  | _, _, _, _, _ => false
  end.
End Payload.

(** ** Python truth values and [or] *)

(** [bool(v)] for an optional string: [None] and [""] are false. *)
Definition truthy (v : option string) : bool :=
  match v with
  | Some (String _ _) => true
  | _ => false
  end.

(** [a or b]: [a] when it is true, [b] otherwise. *)
Definition py_or (a b : option string) : option string :=
  if truthy a then a else b.

(** [bool(payload)] for the result of [decode_token]: [None] and [{}] are
    false.  Returns the dict when it is true. *)
Definition nonempty (payload : option Payload.t) : option Payload.t :=
  match payload with
  | Some p => if Payload.is_empty p then None else Some p
  | None => None
  end.

(** ** Strings the driver refuses

    A text value of the store holds no NUL character, and the driver does
    not send a string that holds one: binding it, in the filter of a query
    as in the values of an INSERT or UPDATE, raises [ValueError] before
    the statement reaches the store.  The schemas of the requests put no
    such restriction on a [str] field; an [EmailStr] holds no NUL. *)
Fixpoint has_nul (s : string) : bool :=
  match s with
  | EmptyString => false
  | String c s => Ascii.eqb c "000"%char || has_nul s
  end.

Definition has_nul_opt (s : option string) : bool :=
  match s with
  | Some s => has_nul s
  | None => false
  end.

Definition NUL_refused : exn :=
  ValueError "A string literal cannot contain NUL (0x00) characters.".

(** ** Tables ([src/database/models.py]) *)

(** A UUID value, as its 128-bit integer. *)
Definition uuid : Type := N.

Module User.
(** The columns of [users] the handlers read or write.  [id] and
    [created_at] are filled from the column defaults ([uuid.uuid4],
    [func.now()]). *)
Record t : Type := mk {
  id : uuid;
  email : string;
  username : string;
  full_name : option string;
  hashed_password : string;
  is_active : bool;
  is_verified : bool;
  created_at : option Z;
  last_login : option Z
}.

Definition set_last_login (at_ : Z) (u : t) : t :=
  mk (id u) (email u) (username u) (full_name u) (hashed_password u)
     (is_active u) (is_verified u) (created_at u) (Some at_).
End User.

Module TokenBlacklist.
(** A row of [token_blacklist] as the logout handler constructs it.
    [user_id] is the string the handler passes for the UUID column;
    [expires_at] is the timestamp given to [datetime.fromtimestamp]. *)
Record t : Type := mk {
  jti : string;
  user_id : string;
  token_type : string;
  expires_at : Z;
  reason : string
}.
End TokenBlacklist.

(** The persistent store.  [users] is kept in insertion order.
    [token_blacklist.jti] is declared [unique=True], so the table is a map
    from jti to row. *)
Record Store : Type := mkStore {
  users : list User.t;
  token_blacklist : gmap string TokenBlacklist.t
}.

Definition empty_store : Store := mkStore [] ∅.

(** [isRevoked(jti)]: the ledger has an entry for the token identifier. *)
Definition is_revoked (db : Store) (jti : string) : bool :=
  match token_blacklist db !! jti with
  | Some _ => true
  | None => false
  end.

(** ** The ORM session

    What a handler has asked the session to write and has not committed
    yet: new objects given to [db.add], and the attribute assignment of
    [login] on a loaded row. *)
Inductive change : Type :=
| Insert_User (u : User.t)
| Insert_TokenBlacklist (e : TokenBlacklist.t)
| Update_last_login (id : uuid) (at_ : Z).

Record Session : Type := mkSession {
  bind : Store;
  pending : list change
}.

(** ** Collaborators

    [World] stands for what a request reads from outside its arguments and
    the store: the clock and the random source.  The codec of
    [src.core.security] reads both (expiry check, fresh [jti], salt), so its
    functions take the world of the request. *)
Class Env : Type := {
  World : Type;
  (** [datetime.utcnow()] as seconds; [func.now()] of the store; the value
      [uuid.uuid4()] gives the row inserted by the request. *)
  utcnow : World → Z;
  func_now : World → Z;
  uuid4 : World → uuid;
  (** [src.core.security] *)
  decode_token : World → string → option Payload.t;
  get_jti_from_token : World → string → option string;
  create_access_token : World → list (string * string) → string;
  create_refresh_token : World → list (string * string) → string;
  verify_password : string → string → bool;
  get_password_hash : World → string → string;
  (** [uuid.UUID(hex)], [None] for [ValueError]; [str(u)]; the store's
      reading of a string bound to a UUID column; [datetime.isoformat]. *)
  UUID : string → option uuid;
  str : uuid → string;
  uuid_in : string → option uuid;
  isoformat : Z → string
}.

(** ** The handler monad: session state and exceptions *)

Definition M (A : Type) : Type := Session → outcome A * Session.

#[export] Instance M_ret : MRet M := λ A a s, (Return a, s).

#[export] Instance M_bind : MBind M := λ A B f m s,
  match m s with
  | (Return a, s') => f a s'
  | (Raise e, s') => (Raise e, s')
  end.

Definition raise {A} (e : exn) : M A := λ s, (Raise e, s).

(** [db.query(User).filter(p).first()] for a filter that binds a value the
    driver always accepts: the [EmailStr] of a request. *)
Definition query_first (p : User.t → bool) : M (option User.t) :=
  λ s, (Return (find p (users (bind s))), s).

(** [db.query(User).filter(column == value).first()] for a [value] the
    schema leaves free.  The driver refuses a [value] that holds a NUL: the
    query raises [ValueError].  No stored text holds a NUL, so a value that
    some row carries is one the driver accepts; the refusal is therefore
    the answer of the query when [value] holds a NUL and no row matches. *)
Definition query_first_where (value : string) (p : User.t → bool)
  : M (option User.t) :=
  λ s, match find p (users (bind s)) with
       | Some u => (Return (Some u), s)
       | None =>
           if has_nul value then (Raise NUL_refused, s) else (Return None, s)
       end.

(** [db.add(obj)] and an attribute assignment on a loaded object: both are
    only recorded until the next commit. *)
Definition add (c : change) : M unit :=
  λ s, (Return (), mkSession (bind s) (pending s ++ [c])).

Section Handlers.
Context {E : Env}.

(** *** Flush: the store's constraints *)

Definition has_user (db : Store) (id : uuid) : bool :=
  existsb (λ u, N.eqb (User.id u) id) (users db).

Definition has_email (db : Store) (email : string) : bool :=
  existsb (λ u, String.eqb (User.email u) email) (users db).

Definition has_username (db : Store) (username : string) : bool :=
  existsb (λ u, String.eqb (User.username u) username) (users db).

(** The strings an INSERT into [users] binds. *)
Definition user_has_nul (u : User.t) : bool :=
  has_nul (User.email u) || has_nul (User.username u)
  || has_nul_opt (User.full_name u) || has_nul (User.hashed_password u).

(** One statement of the flush.  [users]: the driver sends no string with
    a NUL; primary key, [email] and [username] unique.  [token_blacklist]:
    [user_id] must read as a UUID, [jti] unique, [user_id] a foreign key to
    [users.id]. *)
Definition flush_change (db : Store) (c : change) : outcome Store :=
  match c with
  | Insert_User u =>
      if user_has_nul u then Raise NUL_refused
      else if has_user db (User.id u) then Raise (IntegrityError "users_pkey")
      else if has_email db (User.email u)
      then Raise (IntegrityError "ix_users_email")
      else if has_username db (User.username u)
      then Raise (IntegrityError "ix_users_username")
      else Return (mkStore (users db ++ [u]) (token_blacklist db))
  | Insert_TokenBlacklist e =>
      match uuid_in (TokenBlacklist.user_id e) with
      | None => Raise (DataError "invalid input syntax for type uuid")
      | Some uid =>
          if is_revoked db (TokenBlacklist.jti e)
          then Raise (IntegrityError "ix_token_blacklist_jti")
          else if negb (has_user db uid)
          then Raise (IntegrityError "token_blacklist_user_id_fkey")
          else Return (mkStore (users db)
                         (<[TokenBlacklist.jti e := e]> (token_blacklist db)))
      end
  | Update_last_login id at_ =>
      Return (mkStore
                (map (λ u, if N.eqb (User.id u) id
                           then User.set_last_login at_ u else u)
                     (users db))
                (token_blacklist db))
  end.

Fixpoint flush (db : Store) (cs : list change) : outcome Store :=
  match cs with
  | [] => Return db
  | c :: cs =>
      match flush_change db c with
      | Return db' => flush db' cs
      | Raise e => Raise e
      end
  end.

(** [db.commit()]: all pending changes or none.  When the store refuses
    one, the transaction is rolled back and the exception propagates. *)
Definition commit : M unit := λ s,
  match flush (bind s) (pending s) with
  | Return db' => (Return (), mkSession db' [])
  | Raise e => (Raise e, mkSession (bind s) [])
  end.

(** [db.refresh(obj)]: read the row of [obj] again. *)
Definition refresh (u : User.t) : M User.t := λ s,
  match find (λ v, N.eqb (User.id v) (User.id u)) (users (bind s)) with
  | Some v => (Return v, s)
  | None => (Raise (InvalidRequestError "Could not refresh instance"), s)
  end.

(** A request: [get_db] opens a session on the store, the handler runs,
    the session is closed.  What was not committed is lost. *)
Definition run {A} (handler : M A) (db : Store) : outcome A * Store :=
  let (r, s) := handler (mkSession db []) in (r, bind s).

(** What the query of [login] denotes on a store. *)
Definition user_by_email (db : Store) (email : string) : option User.t :=
  find (λ u, String.eqb (User.email u) email) (users db).

(** *** POST /login ([login.py]) *)

Definition login (w : World) (login_data : LoginRequest.t)
  : M TokenResponse.t :=
  (* Find user by email *)
  user ← query_first
    (λ u, String.eqb (User.email u) (LoginRequest.email login_data));
  match user with
  | None =>
      raise (HTTPException status.HTTP_401_UNAUTHORIZED
               "Invalid email or password" [])
  | Some user =>
      (* Verify password *)
      if negb (verify_password (LoginRequest.password login_data)
                 (User.hashed_password user))
      then raise (HTTPException status.HTTP_401_UNAUTHORIZED
                    "Invalid email or password" [])
      (* Check if user is active *)
      else if negb (User.is_active user)
      then raise (HTTPException status.HTTP_403_FORBIDDEN
                    "User account is disabled" [])
      else
        (* Generate tokens *)
        let access_token :=
          create_access_token w [("sub", str (User.id user))] in
        let refresh_token :=
          create_refresh_token w [("sub", str (User.id user))] in
        (* Update last login *)
        add (Update_last_login (User.id user) (utcnow w));;
        commit;;
        mret (TokenResponse.mk access_token refresh_token "bearer")
  end.

(** *** POST /register ([register.py]), status 201 on return *)

Definition register (w : World) (register_data : RegisterRequest.t)
  : M UserResponse.t :=
  (* Check if email already exists *)
  existing_user ← query_first
    (λ u, String.eqb (User.email u) (RegisterRequest.email register_data));
  match existing_user with
  | Some _ =>
      raise (HTTPException status.HTTP_400_BAD_REQUEST
               "Email already registered" [])
  | None =>
      (* Check if username already exists *)
      existing_username ← query_first_where
        (RegisterRequest.username register_data)
        (λ u, String.eqb (User.username u)
                (RegisterRequest.username register_data));
      match existing_username with
      | Some _ =>
          raise (HTTPException status.HTTP_400_BAD_REQUEST
                   "Username already taken" [])
      | None =>
          (* Create new user *)
          let hashed_password :=
            get_password_hash w (RegisterRequest.password register_data) in
          let new_user :=
            User.mk (uuid4 w)
              (RegisterRequest.email register_data)
              (RegisterRequest.username register_data)
              (RegisterRequest.full_name register_data)
              hashed_password
              true
              false
              (Some (func_now w))
              None in
          add (Insert_User new_user);;
          commit;;
          new_user ← refresh new_user;
          mret (UserResponse.mk
                  (str (User.id new_user))
                  (User.email new_user)
                  (User.username new_user)
                  (User.full_name new_user)
                  (User.is_active new_user)
                  (isoformat <$> User.created_at new_user))
      end
  end.

(** The row [register] hands to the session for a request. *)
Definition new_user (w : World) (rq : RegisterRequest.t) : User.t :=
  User.mk (uuid4 w) (RegisterRequest.email rq) (RegisterRequest.username rq)
    (RegisterRequest.full_name rq)
    (get_password_hash w (RegisterRequest.password rq))
    true false (Some (func_now w)) None.

(** The summary [register] returns for a request. *)
Definition user_summary (w : World) (rq : RegisterRequest.t)
  : UserResponse.t :=
  UserResponse.mk
    (str (uuid4 w))
    (RegisterRequest.email rq)
    (RegisterRequest.username rq)
    (RegisterRequest.full_name rq)
    true
    (Some (isoformat (func_now w))).

(** *** POST /refresh ([refresh.py]) *)

Definition refresh_token (w : World) (refresh_data : RefreshTokenRequest.t)
  : M TokenResponse.t :=
  (* Decode refresh token *)
  let payload :=
    decode_token w (RefreshTokenRequest.refresh_token refresh_data) in
  match nonempty payload with
  | None =>
      raise (HTTPException status.HTTP_401_UNAUTHORIZED
               "Invalid refresh token" [])
  | Some payload =>
      (* Check token type *)
      if negb (bool_decide (Payload.type payload = Some "refresh"))
      then raise (HTTPException status.HTTP_401_UNAUTHORIZED
                    "Invalid token type" [])
      else
        (* Get user ID *)
        match Payload.sub payload with
        | Some (String _ _ as user_id) =>
            (* the blacklist lookup is commented out in the source *)
            (* Generate new access token *)
            let access_token := create_access_token w [("sub", user_id)] in
            mret (TokenResponse.mk
                    access_token
                    (RefreshTokenRequest.refresh_token refresh_data)
                    "bearer")
        | _ =>
            raise (HTTPException status.HTTP_401_UNAUTHORIZED
                     "Invalid token payload" [])
        end
  end.

(** *** POST /logout ([logout.py]) *)

(** The row built by one of the two blocks "Blacklist access token" /
    "Blacklist refresh token", if any:
    [jti = get_jti_from_token(token) or payload.get("jti")], and a row is
    built when [jti] is true. *)
Definition blacklist_entry (w : World) (token : string)
    (payload : Payload.t) (user_id : string) (token_type : string)
  : option TokenBlacklist.t :=
  match py_or (get_jti_from_token w token) (Payload.jti payload) with
  | Some (String _ _ as jti) =>
      Some (TokenBlacklist.mk jti user_id token_type
              (default 0 (Payload.exp payload))
              "logout")
  | _ => None
  end.

Definition blacklist (w : World) (token : string) (payload : Payload.t)
    (user_id : string) (token_type : string) : M unit :=
  match blacklist_entry w token payload user_id token_type with
  | Some entry => add (Insert_TokenBlacklist entry)
  | None => mret ()
  end.

Definition logout (w : World) (logout_data : LogoutRequest.t)
  : M (list (string * string)) :=
  (* Decode tokens to get expiration and user info *)
  let access_payload :=
    decode_token w (LogoutRequest.access_token logout_data) in
  let refresh_payload :=
    decode_token w (LogoutRequest.refresh_token logout_data) in
  match nonempty access_payload, nonempty refresh_payload with
  | Some access_payload, Some refresh_payload =>
      match py_or (Payload.sub access_payload)
              (Payload.sub refresh_payload) with
      | Some (String _ _ as user_id) =>
          (* Blacklist access token *)
          blacklist w (LogoutRequest.access_token logout_data)
            access_payload user_id "access";;
          (* Blacklist refresh token *)
          blacklist w (LogoutRequest.refresh_token logout_data)
            refresh_payload user_id "refresh";;
          commit;;
          mret [("message", "Successfully logged out")]
      | _ =>
          raise (HTTPException status.HTTP_400_BAD_REQUEST
                   "Invalid token payload" [])
      end
  | _, _ =>
      raise (HTTPException status.HTTP_400_BAD_REQUEST "Invalid tokens" [])
  end.

(** The rows one logout call hands to the session, in order. *)
Definition logout_entries (w : World) (rq : LogoutRequest.t)
    (access_payload refresh_payload : Payload.t) (user_id : string)
  : list TokenBlacklist.t :=
  option_list (blacklist_entry w (LogoutRequest.access_token rq)
                 access_payload user_id "access")
  ++ option_list (blacklist_entry w (LogoutRequest.refresh_token rq)
                    refresh_payload user_id "refresh").

(** *** Request authenticator ([dependencies.py]) *)

Definition get_current_user_id (w : World) (credentials : string)
  : M uuid :=
  let token := credentials in
  let payload := decode_token w token in
  match nonempty payload with
  | None =>
      raise (HTTPException status.HTTP_401_UNAUTHORIZED "Invalid token"
               [("WWW-Authenticate", "Bearer")])
  | Some payload =>
      match Payload.sub payload with
      | Some (String _ _ as user_id) =>
          match UUID user_id with
          | Some id => mret id
          | None =>
              raise (HTTPException status.HTTP_401_UNAUTHORIZED
                       "Invalid user ID in token"
                       [("WWW-Authenticate", "Bearer")])
          end
      | _ =>
          raise (HTTPException status.HTTP_401_UNAUTHORIZED
                   "Invalid token payload"
                   [("WWW-Authenticate", "Bearer")])
      end
  end.

End Handlers.

(** ** A concrete environment

    A small instance of [Env] on which the handlers run by computation: the
    world is the clock, tokens are looked up in a table and rejected once
    expired, UUID strings are 32 hexadecimal digits with optional dashes. *)

Module Demo.

Definition hex_digit (c : ascii) : option N :=
  let n := N_of_ascii c in
  if ((48 <=? n) && (n <=? 57))%N then Some (n - 48)%N
  else if ((97 <=? n) && (n <=? 102))%N then Some (n - 87)%N
  else if ((65 <=? n) && (n <=? 70))%N then Some (n - 55)%N
  else None.

Fixpoint hex_value (acc : N) (s : string) : option N :=
  match s with
  | EmptyString => Some acc
  | String c s =>
      match hex_digit c with
      | Some d => hex_value (16 * acc + d)%N s
      | None => None
      end
  end.

Fixpoint remove_dashes (s : string) : string :=
  match s with
  | EmptyString => EmptyString
  | String c s =>
      if Ascii.eqb c "-"%char then remove_dashes s
      else String c (remove_dashes s)
  end.

Definition parse_uuid (s : string) : option uuid :=
  let hex := remove_dashes s in
  if Nat.eqb (String.length hex) 32 then hex_value 0%N hex else None.

Definition hex_char (d : N) : ascii :=
  ascii_of_N (if (d <? 10)%N then d + 48 else d + 87)%N.

(** The [n] low hexadecimal digits of [v], most significant first. *)
Fixpoint hex_digits (n : nat) (v : N) (tail : string) : string :=
  match n with
  | O => tail
  | S n => hex_digits n (v / 16)%N (String (hex_char (v mod 16)%N) tail)
  end.

Definition print_uuid (u : uuid) : string :=
  let h := hex_digits 32 u "" in
  substring 0 8 h ++ "-" ++ substring 8 4 h ++ "-" ++ substring 12 4 h
    ++ "-" ++ substring 16 4 h ++ "-" ++ substring 20 12 h.

Definition alice_id : string := "00000000-0000-0000-0000-0000000000a1".
Definition bob_id : string := "00000000-0000-0000-0000-0000000000b2".

(** The tokens the demo codec knows, with their claims. *)
Definition tokens : list (string * Payload.t) :=
  [ ("alice.access",
     Payload.mk (Some alice_id) (Some "access") (Some "jti-a1") (Some 1800) []);
    ("alice.refresh",
     Payload.mk (Some alice_id) (Some "refresh") (Some "jti-r1")
       (Some 604800) []);
    ("bob.refresh",
     Payload.mk (Some bob_id) (Some "refresh") (Some "jti-r2")
       (Some 604800) []);
    ("blank.access",
     Payload.mk (Some "") (Some "access") (Some "jti-a3") (Some 1800) []);
    ("blank.refresh",
     Payload.mk (Some "") (Some "refresh") (Some "jti-r3") (Some 604800) []);
    ("nosub.access",
     Payload.mk None (Some "access") (Some "jti-a4") (Some 1800) []);
    ("badsub.access",
     Payload.mk (Some "alice") (Some "access") (Some "jti-a5") (Some 1800) [])
  ].

Fixpoint assoc {A} (k : string) (l : list (string * A)) : option A :=
  match l with
  | [] => None
  | (k', v) :: l => if String.eqb k k' then Some v else assoc k l
  end.

Definition decode (now : Z) (token : string) : option Payload.t :=
  match assoc token tokens with
  | Some p => if (default 0 (Payload.exp p) <? now) then None else Some p
  | None => None
  end.

Definition issue (kind : string) (now : Z) (data : list (string * string))
  : string :=
  default "" (assoc "sub" data) ++ "." ++ kind.

Definition env : Env := {|
  World := Z;
  utcnow := λ now, now;
  func_now := λ now, now;
  uuid4 := λ now, Z.to_N now;
  decode_token := decode;
  get_jti_from_token := λ now token, decode now token ≫= Payload.jti;
  create_access_token := issue "access";
  create_refresh_token := issue "refresh";
  verify_password := λ plain hashed, String.eqb ("hash:" ++ plain) hashed;
  get_password_hash := λ now plain, "hash:" ++ plain;
  UUID := parse_uuid;
  str := print_uuid;
  uuid_in := parse_uuid;
  isoformat := λ t, pretty t
|}.

Definition alice : User.t :=
  User.mk 161%N "a@x.com" "alice" None "hash:password123" true false
    (Some 0) None.

Definition bob : User.t :=
  User.mk 178%N "b@x.com" "bob" (Some "Bob") "hash:hunter2hunter2" false
    false (Some 0) None.

Definition db0 : Store := mkStore [alice; bob] ∅.

Definition alice_pair : LogoutRequest.t :=
  LogoutRequest.mk "alice.access" "alice.refresh".

Definition logged_out : list (string * string) :=
  [("message", "Successfully logged out")].

(** Alice's access token with bob's refresh token. *)
Definition mixed_pair : LogoutRequest.t :=
  LogoutRequest.mk "alice.access" "bob.refresh".

Definition alice_access : Payload.t :=
  Payload.mk (Some alice_id) (Some "access") (Some "jti-a1") (Some 1800) [].

Definition bob_refresh : Payload.t :=
  Payload.mk (Some bob_id) (Some "refresh") (Some "jti-r2") (Some 604800) [].

(** [db0] after a logout with [mixed_pair]. *)
Definition db_mixed : Store :=
  mkStore [alice; bob]
    (<["jti-r2" := TokenBlacklist.mk "jti-r2" alice_id "refresh" 604800
                     "logout"]>
       (<["jti-a1" := TokenBlacklist.mk "jti-a1" alice_id "access" 1800
                        "logout"]> ∅)).

Definition carol : RegisterRequest.t :=
  RegisterRequest.mk "c@x.com" "carol" "password123" None.

(** A request the schema accepts: the username has six characters, the
    third of which is NUL. *)
Definition carol_nul : RegisterRequest.t :=
  RegisterRequest.mk "c@x.com" ("ca" ++ String "000"%char "rol")
    "password123" None.

(** [db0] after alice has logged out with her token pair. *)
Definition db1 : Store :=
  mkStore [alice; bob]
    (<["jti-r1" := TokenBlacklist.mk "jti-r1" alice_id "refresh" 604800
                     "logout"]>
       (<["jti-a1" := TokenBlacklist.mk "jti-a1" alice_id "access" 1800
                        "logout"]> ∅)).

End Demo.

(** ** Well-formed stores

    What the three unique indexes of [users] say of a store: no two rows
    share a primary key, an email or a username. *)
Definition unique_users (db : Store) : Prop :=
  NoDup (map User.id (users db))
  ∧ NoDup (map User.email (users db))
  ∧ NoDup (map User.username (users db)).

(** ** A second concrete environment

    An instance of [Env] whose codec parses what it prints: a token is its
    kind, a bar and the subject it was issued for, and it expires with the
    clock like the tokens of [Demo]. *)

Module Codec.

Definition issue (kind : string) (now : Z) (data : list (string * string))
  : string :=
  kind ++ "|" ++ default "" (Demo.assoc "sub" data).

Definition lifetime (kind : string) : Z :=
  if String.eqb kind "access" then 1800 else 604800.

Definition parse (kind : string) (now : Z) (token : string)
  : option Payload.t :=
  if String.prefix (kind ++ "|") token
  then
    let sub := substring (S (String.length kind))
                 (String.length token - S (String.length kind)) token in
    Some (Payload.mk (Some sub) (Some kind) (Some ("jti-" ++ token))
            (Some (now + lifetime kind)) [])
  else None.

Definition decode (now : Z) (token : string) : option Payload.t :=
  match parse "access" now token with
  | Some p => Some p
  | None => parse "refresh" now token
  end.

Definition env : Env := {|
  World := Z;
  utcnow := λ now, now;
  func_now := λ now, now;
  uuid4 := λ now, Z.to_N now;
  decode_token := decode;
  get_jti_from_token := λ now token, decode now token ≫= Payload.jti;
  create_access_token := issue "access";
  create_refresh_token := issue "refresh";
  verify_password := λ plain hashed, String.eqb ("hash:" ++ plain) hashed;
  get_password_hash := λ now plain, "hash:" ++ plain;
  UUID := Demo.parse_uuid;
  str := Demo.print_uuid;
  uuid_in := Demo.parse_uuid;
  isoformat := λ t, pretty t
|}.

End Codec.

(** ** A third concrete environment

    The environment of [Demo] with a codec whose tokens carry no [jti]
    claim. *)

Module Bare.

Definition tokens : list (string * Payload.t) :=
  [ ("alice.access",
     Payload.mk (Some Demo.alice_id) (Some "access") None (Some 1800) []);
    ("alice.refresh",
     Payload.mk (Some Demo.alice_id) (Some "refresh") None (Some 604800) [])
  ].

Definition decode (now : Z) (token : string) : option Payload.t :=
  match Demo.assoc token tokens with
  | Some p => if (default 0 (Payload.exp p) <? now) then None else Some p
  | None => None
  end.

Definition env : Env := {|
  World := Z;
  utcnow := λ now, now;
  func_now := λ now, now;
  uuid4 := λ now, Z.to_N now;
  decode_token := decode;
  get_jti_from_token := λ now token, decode now token ≫= Payload.jti;
  create_access_token := Demo.issue "access";
  create_refresh_token := Demo.issue "refresh";
  verify_password := λ plain hashed, String.eqb ("hash:" ++ plain) hashed;
  get_password_hash := λ now plain, "hash:" ++ plain;
  UUID := Demo.parse_uuid;
  str := Demo.print_uuid;
  uuid_in := Demo.parse_uuid;
  isoformat := λ t, pretty t
|}.

End Bare.

(** * Push tokens ([src/api/v1/endpoints/push_tokens.py])

    The two handlers that depend on the request authenticator, with the
    table [push_tokens] they work on. *)

(** ** Schemas ([src/schemas/push_tokens.py]) *)

Module PushTokenRegister.
Record t : Type := mk {
  token : string;
  platform : string;
  device_id : option string
}.
End PushTokenRegister.

Module PushTokenResponse.
Record t : Type := mk {
  id : string;
  token : string;
  platform : string;
  is_active : bool
}.
End PushTokenResponse.

(** ** JSON values

    The body of the deactivation request is declared [dict]: any JSON
    object.  Numbers are integers here; a number with a fraction behaves as
    an integer with the same truth value. *)
#[local] Set Warnings "-register-all".
Inductive json : Type :=
| JNull
| JBool (b : bool)
| JNumber (n : Z)
| JString (s : string)
| JArray (items : list json)
| JObject (members : list (string * json)).

(** [bool(v)] for a value read from the body. *)
Definition json_truthy (v : json) : bool :=
  match v with
  | JNull => false
  | JBool b => b
  | JNumber n => negb (n =? 0)
  | JString s => negb (String.eqb s "")
  | JArray items => match items with [] => false | _ => true end
  | JObject members => match members with [] => false | _ => true end
  end.

(** ** The table ([PushToken] in [src/database/models.py]) *)

Module PushToken.
Record t : Type := mk {
  id : uuid;
  user_id : uuid;
  token : string;
  platform : string;
  device_id : option string;
  is_active : bool;
  created_at : Z;
  updated_at : Z;
  last_used_at : option Z
}.

Definition set_is_active (b : bool) (at_ : Z) (r : t) : t :=
  mk (id r) (user_id r) (token r) (platform r) (device_id r) b
     (created_at r) at_ (last_used_at r).

Definition set_last_used_at (used : Z) (at_ : Z) (r : t) : t :=
  mk (id r) (user_id r) (token r) (platform r) (device_id r) (is_active r)
     (created_at r) at_ (Some used).
End PushToken.

(** The persistent store with its third table, rows in insertion order. *)
Record Database : Type := mkDatabase {
  store : Store;
  push_tokens : list PushToken.t
}.

(** What the indexes and the foreign key of [push_tokens] say of a store:
    no two rows share a primary key or a token, and every row belongs to a
    user of the store. *)
Definition push_tokens_wf (db : Database) : Prop :=
  NoDup (map PushToken.id (push_tokens db))
  ∧ NoDup (map PushToken.token (push_tokens db))
  ∧ ∀ r, r ∈ push_tokens db →
         ∃ u, u ∈ users (store db) ∧ User.id u = PushToken.user_id r.

(** ** Column lengths

    [String(n)] is [VARCHAR(n)]: a longer value is an error of the store,
    unless all the characters in excess are spaces, in which case the value
    is cut to [n] characters.  A string is read as a sequence of
    characters. *)
Fixpoint only_spaces (s : string) : bool :=
  match s with
  | EmptyString => true
  | String c s => Ascii.eqb c " "%char && only_spaces s
  end.

Definition varchar (n : nat) (s : string) : option string :=
  if Nat.leb (String.length s) n then Some s
  else if only_spaces (substring n (String.length s - n) s)
  then Some (substring 0 n s)
  else None.

(** ** The session over the three tables

    The changes the push token code asks of the session: a new row, the
    five assignments of a repeated registration, the deactivation of a row,
    and the time stamp the notification service puts on a row. *)
Inductive push_change : Type :=
| Insert_PushToken (r : PushToken.t)
| Update_registration (id : uuid) (user_id : uuid) (platform : string)
    (device_id : option string) (updated_at : Z)
| Update_is_active (id : uuid) (is_active : bool)
| Update_last_used_at (id : uuid) (last_used_at : Z).

Record PushSession : Type := mkPushSession {
  session : Session;
  push_bind : list PushToken.t;
  push_pending : list push_change
}.

(** What a push token handler ends with: a value, one of the exceptions of
    the auth handlers, or an error of the database driver on a statement it
    cannot run ([sqlalchemy.exc.DBAPIError]). *)
Inductive reply (A : Type) : Type :=
| Returns (a : A)
| Raises (e : exn)
| DBAPIError (statement : string).
Arguments Returns {A} a.
Arguments Raises {A} e.
Arguments DBAPIError {A} statement.

Definition reply_status {A} (success : Z) (r : reply A) : Z :=
  match r with
  | Returns _ => success
  | Raises (HTTPException c _ _) => c
  | Raises _ => status.HTTP_500_INTERNAL_SERVER_ERROR
  | DBAPIError _ => status.HTTP_500_INTERNAL_SERVER_ERROR
  end.

Definition MP (A : Type) : Type := PushSession → reply A * PushSession.

#[export] Instance MP_ret : MRet MP := λ A a s, (Returns a, s).

#[export] Instance MP_bind : MBind MP := λ A B f m s,
  match m s with
  | (Returns a, s') => f a s'
  | (Raises e, s') => (Raises e, s')
  | (DBAPIError q, s') => (DBAPIError q, s')
  end.

Definition praise {A} (e : exn) : MP A := λ s, (Raises e, s).

Definition dbapi_error {A} (statement : string) : MP A :=
  λ s, (DBAPIError statement, s).

(** [db.query(User).filter(User.id == user_id).first()]: the filter binds
    a UUID. *)
Definition query_user (p : User.t → bool) : MP (option User.t) :=
  λ s, (Returns (find p (users (bind (session s)))), s).

(** [db.query(PushToken).filter(PushToken.token == token).first()] of the
    registration.  The driver refuses a token that holds a NUL at this
    query already.  No row carries such a token, and the handler binds the
    token again in the INSERT it goes on to when no row matches: the
    refusal is raised there, by [push_flush_change].  The request ends
    the same way, with [ValueError] and nothing written, unless a value is
    too long as well (see [push_flush_change]). *)
Definition query_push_token (p : PushToken.t → bool)
  : MP (option PushToken.t) :=
  λ s, (Returns (find p (push_bind s)), s).

(** [db.query(PushToken).filter(PushToken.token == value, ...).first()]
    of the deactivation, for the string [value] of the body, which the
    driver refuses when it holds a NUL.  As for [query_first_where], a
    value that a row carries holds none. *)
Definition query_push_token_where (value : string) (p : PushToken.t → bool)
  : MP (option PushToken.t) :=
  λ s, match find p (push_bind s) with
       | Some r => (Returns (Some r), s)
       | None =>
           if has_nul value then (Raises NUL_refused, s)
           else (Returns None, s)
       end.

Definition push_add (c : push_change) : MP unit :=
  λ s, (Returns (),
        mkPushSession (session s) (push_bind s) (push_pending s ++ [c])).

Section PushTokens.
Context {E : Env}.

(** *** Flush of [push_tokens] *)

Definition has_push_id (rows : list PushToken.t) (id : uuid) : bool :=
  existsb (λ r, N.eqb (PushToken.id r) id) rows.

Definition has_push_token (rows : list PushToken.t) (token : string) : bool :=
  existsb (λ r, String.eqb (PushToken.token r) token) rows.

(** The row a repeated registration leaves.  The handler assigns
    [user_id], [platform], [device_id], [is_active] and [updated_at]; the
    ORM writes the columns whose value changed, and fills [updated_at] from
    [onupdate=func.now()] when it writes a row without that column.
    [platform] and [device_id] are the values assigned, [stored_platform]
    and [stored_device_id] what the columns hold of them. *)
Definition reregistered (w : World) (user_id : uuid) (platform : string)
    (device_id : option string) (updated_at : Z)
    (stored_platform : string) (stored_device_id : option string)
    (r : PushToken.t) : PushToken.t :=
  let same_platform := String.eqb (PushToken.platform r) platform in
  let same_device_id := bool_decide (PushToken.device_id r = device_id) in
  let others_changed :=
    negb (N.eqb (PushToken.user_id r) user_id
          && same_platform && same_device_id
          && Bool.eqb (PushToken.is_active r) true) in
  let stamp :=
    if Z.eqb (PushToken.updated_at r) updated_at
    then (if others_changed then func_now w else PushToken.updated_at r)
    else updated_at in
  PushToken.mk (PushToken.id r) user_id (PushToken.token r)
    (if same_platform then PushToken.platform r else stored_platform)
    (if same_device_id then PushToken.device_id r else stored_device_id)
    true (PushToken.created_at r) stamp (PushToken.last_used_at r).

(** An assignment that changes nothing writes nothing; one that does also
    refreshes [updated_at]. *)
Definition deactivated (w : World) (b : bool) (r : PushToken.t)
  : PushToken.t :=
  if Bool.eqb (PushToken.is_active r) b then r
  else PushToken.set_is_active b (func_now w) r.

Definition used (w : World) (at_ : Z) (r : PushToken.t) : PushToken.t :=
  if bool_decide (PushToken.last_used_at r = Some at_) then r
  else PushToken.set_last_used_at at_ (func_now w) r.

Definition update_rows (id : uuid) (f : PushToken.t → PushToken.t)
    (rows : list PushToken.t) : list PushToken.t :=
  map (λ r, if N.eqb (PushToken.id r) id then f r else r) rows.

Definition varchar_opt (n : nat) (s : option string)
  : option (option string) :=
  match s with
  | None => Some None
  | Some s => Some <$> varchar n s
  end.

(** One statement of the flush.  [push_tokens]: [token], [platform] and
    [device_id] are [String(500)], [String(20)] and [String(255)]; the
    driver sends no string with a NUL; primary key and [token] unique;
    [user_id] a foreign key to [users.id].  A statement with a value that
    is too long and a value that holds a NUL is refused and nothing is
    written; it is reported here as too long, where the driver, which sees
    the values first, raises [ValueError]. *)
Definition push_flush_change (w : World) (db : Store)
    (rows : list PushToken.t) (c : push_change)
  : outcome (list PushToken.t) :=
  match c with
  | Insert_PushToken r =>
      match varchar 500 (PushToken.token r),
            varchar 20 (PushToken.platform r),
            varchar_opt 255 (PushToken.device_id r) with
      | Some token, Some platform, Some device_id =>
          if has_nul (PushToken.token r) || has_nul (PushToken.platform r)
             || has_nul_opt (PushToken.device_id r)
          then Raise NUL_refused
          else if has_push_id rows (PushToken.id r)
          then Raise (IntegrityError "push_tokens_pkey")
          else if has_push_token rows token
          then Raise (IntegrityError "ix_push_tokens_token")
          else if negb (has_user db (PushToken.user_id r))
          then Raise (IntegrityError "push_tokens_user_id_fkey")
          else Return (rows ++
                         [PushToken.mk (PushToken.id r) (PushToken.user_id r)
                            token platform device_id (PushToken.is_active r)
                            (PushToken.created_at r) (PushToken.updated_at r)
                            (PushToken.last_used_at r)])%list
      | _, _, _ => Raise (DataError "value too long for type character varying")
      end
  | Update_registration id user_id platform device_id updated_at =>
      match varchar 20 platform, varchar_opt 255 device_id with
      | Some stored_platform, Some stored_device_id =>
          if has_nul platform || has_nul_opt device_id
          then Raise NUL_refused
          else if negb (has_user db user_id)
          then Raise (IntegrityError "push_tokens_user_id_fkey")
          else Return (update_rows id
                         (reregistered w user_id platform device_id updated_at
                            stored_platform stored_device_id)
                         rows)
      | _, _ => Raise (DataError "value too long for type character varying")
      end
  | Update_is_active id b =>
      Return (update_rows id (deactivated w b) rows)
  | Update_last_used_at id at_ =>
      Return (update_rows id (used w at_) rows)
  end.

Fixpoint push_flush (w : World) (db : Store) (rows : list PushToken.t)
    (cs : list push_change) : outcome (list PushToken.t) :=
  match cs with
  | [] => Return rows
  | c :: cs =>
      match push_flush_change w db rows c with
      | Return rows' => push_flush w db rows' cs
      | Raise e => Raise e
      end
  end.

(** [db.commit()] on the session over the three tables: all pending
    changes or none. *)
Definition push_commit (w : World) : MP unit := λ s,
  let rolled_back :=
    mkPushSession (mkSession (bind (session s)) []) (push_bind s) [] in
  match flush (bind (session s)) (pending (session s)) with
  | Raise e => (Raises e, rolled_back)
  | Return db' =>
      match push_flush w db' (push_bind s) (push_pending s) with
      | Raise e => (Raises e, rolled_back)
      | Return rows' =>
          (Returns (), mkPushSession (mkSession db' []) rows' [])
      end
  end.

(** [db.refresh(obj)] for a push token. *)
Definition push_refresh (r : PushToken.t) : MP PushToken.t := λ s,
  match find (λ v, N.eqb (PushToken.id v) (PushToken.id r)) (push_bind s) with
  | Some v => (Returns v, s)
  | None => (Raises (InvalidRequestError "Could not refresh instance"), s)
  end.

Definition run_push {A} (handler : MP A) (db : Database)
  : reply A * Database :=
  let (r, s) := handler (mkPushSession (mkSession (store db) [])
                           (push_tokens db) []) in
  (r, mkDatabase (bind (session s)) (push_bind s)).

(** *** POST /push-tokens/register, status 201 on return *)

Definition register_push_token (w : World)
    (token_data : PushTokenRegister.t) (user_id : uuid)
  : MP PushTokenResponse.t :=
  (* Check if user exists *)
  user ← query_user (λ u, N.eqb (User.id u) user_id);
  match user with
  | None => praise (HTTPException 404 "User not found" [])
  | Some _ =>
      (* Check if token already exists *)
      existing_token ← query_push_token
        (λ r, String.eqb (PushToken.token r)
                (PushTokenRegister.token token_data));
      match existing_token with
      | Some existing_token =>
          (* Update existing token *)
          push_add (Update_registration (PushToken.id existing_token)
                      user_id
                      (PushTokenRegister.platform token_data)
                      (PushTokenRegister.device_id token_data)
                      (utcnow w));;
          push_commit w;;
          existing_token ← push_refresh existing_token;
          mret (PushTokenResponse.mk
                  (str (PushToken.id existing_token))
                  (PushToken.token existing_token)
                  (PushToken.platform existing_token)
                  (PushToken.is_active existing_token))
      | None =>
          (* Create new token *)
          let new_token :=
            PushToken.mk (uuid4 w) user_id
              (PushTokenRegister.token token_data)
              (PushTokenRegister.platform token_data)
              (PushTokenRegister.device_id token_data)
              true (func_now w) (func_now w) None in
          push_add (Insert_PushToken new_token);;
          push_commit w;;
          new_token ← push_refresh new_token;
          mret (PushTokenResponse.mk
                  (str (PushToken.id new_token))
                  (PushToken.token new_token)
                  (PushToken.platform new_token)
                  (PushToken.is_active new_token))
      end
  end.

(** The answer of the registration handler, from the row it read back. *)
Definition push_token_response (r : PushToken.t) : PushTokenResponse.t :=
  PushTokenResponse.mk (str (PushToken.id r)) (PushToken.token r)
    (PushToken.platform r) (PushToken.is_active r).

(** *** POST /push-tokens/deactivate *)

Definition deactivate_push_token (w : World) (token_data : gmap string json)
    (user_id : uuid) : MP (list (string * string)) :=
  let token := default JNull (token_data !! "token") in
  if negb (json_truthy token)
  then praise (HTTPException status.HTTP_400_BAD_REQUEST
                 "Token is required" [])
  else
    match token with
    | JString token =>
        push_token ← query_push_token_where token
          (λ r, String.eqb (PushToken.token r) token
                && N.eqb (PushToken.user_id r) user_id);
        match push_token with
        | None => praise (HTTPException 404 "Push token not found" [])
        | Some push_token =>
            push_add (Update_is_active (PushToken.id push_token) false);;
            push_commit w;;
            mret [("message", "Push token deactivated successfully")]
        end
    | _ =>
        (* a value that is no string cannot be compared with the column *)
        dbapi_error "push_tokens.token = %(token_1)s"
    end.

End PushTokens.

(** * Push notifications ([src/services/push_notification_service.py])

    The service sends one message per active push token of a user through
    the messaging SDK and keeps the table up to date.  It is modelled for a
    session with nothing pending, as is the session it opens for itself
    when it is given none: the only changes it commits are its own updates,
    which the store never refuses.  Log lines are not part of the model. *)

Module Message.
(** [messaging.Message] as the service builds it. *)
Record t : Type := mk {
  title : string;
  body : string;
  data : gmap string string;
  token : string;
  android_priority : string;
  apns_priority : string;
  aps_sound : string;
  aps_badge : Z
}.
End Message.

(** What [messaging.send] does with a message: it returns a message id, or
    raises [messaging.UnregisteredError], or raises something else. *)
Inductive send_result : Type :=
| Delivered (message_id : string)
| UnregisteredError
| SendError (message : string).

(** The collaborators of the service: the configured credentials path,
    whether [credentials.Certificate] and [firebase_admin.initialize_app]
    succeed on a path, and the messaging service, which answers a message
    given all the messages it was handed before. *)
Class Firebase : Type := {
  FIREBASE_CREDENTIALS_PATH : option string;
  certificate : string → bool;
  messaging_send : list Message.t → Message.t → send_result
}.

(** The state the service works on: the store, the module's global
    [_firebase_app] (the path it was initialized from, when it was), and
    the messages handed to [messaging.send] so far, oldest first. *)
Record Notifier : Type := mkNotifier {
  database : Database;
  firebase_app : option string;
  outbox : list Message.t
}.

(** A call of the service ends with a value or with an exception of the
    Firebase SDK. *)
Inductive attempt (A : Type) : Type :=
| Finished (a : A)
| Threw (error : string).
Arguments Finished {A} a.
Arguments Threw {A} error.

(** The dict [send_bulk_notification] returns. *)
Record Results : Type := mkResults {
  success : nat;
  failed : nat;
  total : nat
}.

Section Notifications.
Context {E : Env} {F : Firebase}.

(** [initialize_firebase()] *)
Definition initialize_firebase (s : Notifier) : attempt unit * Notifier :=
  match firebase_app s with
  | Some _ => (Finished (), s)
  | None =>
      match FIREBASE_CREDENTIALS_PATH with
      | Some (String _ _ as path) =>
          if certificate path
          then (Finished (), mkNotifier (database s) (Some path) (outbox s))
          else (Threw "Failed to initialize Firebase Admin SDK", s)
      | _ => (Finished (), s)
      end
  end.

(** [get_firebase_app()] *)
Definition get_firebase_app (s : Notifier)
  : attempt (option string) * Notifier :=
  match firebase_app s with
  | None =>
      match initialize_firebase s with
      | (Finished _, s') => (Finished (firebase_app s'), s')
      | (Threw e, s') => (Threw e, s')
      end
  | Some app => (Finished (Some app), s)
  end.

(** An assignment on a loaded row followed by [db.commit()]. *)
Definition commit_change (w : World) (c : push_change) (s : Notifier)
  : Notifier :=
  mkNotifier (run_push (push_add c;; push_commit w) (database s)).2
    (firebase_app s) (outbox s).

Definition hand_over (message : Message.t) (s : Notifier) : Notifier :=
  mkNotifier (database s) (firebase_app s) (outbox s ++ [message]).

(** The loop "Send notifications": [success_count] and [failed_tokens]. *)
Fixpoint send_all (w : World) (messages : list (Message.t * PushToken.t))
    (success_count : nat) (failed_tokens : list string) (s : Notifier)
  : (nat * list string) * Notifier :=
  match messages with
  | [] => ((success_count, failed_tokens), s)
  | (message, token_obj) :: messages =>
      match messaging_send (outbox s) message with
      | Delivered _ =>
          send_all w messages (S success_count) failed_tokens
            (commit_change w
               (Update_last_used_at (PushToken.id token_obj) (utcnow w))
               (hand_over message s))
      | UnregisteredError =>
          send_all w messages success_count
            (failed_tokens ++ [PushToken.token token_obj])
            (commit_change w
               (Update_is_active (PushToken.id token_obj) false)
               (hand_over message s))
      | SendError _ =>
          send_all w messages success_count
            (failed_tokens ++ [PushToken.token token_obj])
            (hand_over message s)
      end
  end.

(** The active push tokens of a user, as the query returns them. *)
Definition active_tokens (db : Database) (user_id : uuid)
  : list PushToken.t :=
  filter (λ r, N.eqb (PushToken.user_id r) user_id && PushToken.is_active r)
    (push_tokens db).

(** [message_data = data or {}] followed by
    [message_data["user_id"] = str(user_id)]: the dict of the messages, and
    the caller's [data] afterwards.  A dict that is true is the caller's own
    object, and the assignment shows in it. *)
Definition message_data (data : option (gmap string string)) (user_id : uuid)
  : gmap string string * option (gmap string string) :=
  match data with
  | Some d =>
      if bool_decide (d = ∅)
      then (<["user_id" := str user_id]> ∅, data)
      else (<["user_id" := str user_id]> d,
            Some (<["user_id" := str user_id]> d))
  | None => (<["user_id" := str user_id]> ∅, None)
  end.

(** [_send_notification_internal]: its result and the caller's [data]. *)
Definition send_notification_internal (w : World) (user_id : uuid)
    (title body : string) (data : option (gmap string string)) (s : Notifier)
  : (bool * option (gmap string string)) * Notifier :=
  (* Get active push tokens for user *)
  match active_tokens (database s) user_id with
  | [] => ((false, data), s)
  | tokens =>
      (* Prepare message data *)
      let (md, data') := message_data data user_id in
      (* Create messages for each token *)
      let messages :=
        map (λ token_obj,
               (Message.mk title body md (PushToken.token token_obj)
                  "high" "10" "default" 1,
                token_obj)) tokens in
      (* Send notifications *)
      let '((success_count, failed_tokens), s') :=
        send_all w messages 0 [] s in
      ((Nat.ltb 0 success_count, data'), s')
  end.

(** [send_push_notification] *)
Definition send_push_notification (w : World) (user_id : uuid)
    (title body : string) (data : option (gmap string string)) (s : Notifier)
  : attempt (bool * option (gmap string string)) * Notifier :=
  match get_firebase_app s with
  | (Threw e, s') => (Threw e, s')
  | (Finished None, s') => (Finished (false, data), s')
  | (Finished (Some _), s') =>
      let (r, s'') := send_notification_internal w user_id title body data s'
      in (Finished r, s'')
  end.

(** [send_bulk_notification]: the loop over [user_ids], then the whole. *)
Fixpoint send_bulk_loop (w : World) (user_ids : list uuid)
    (title body : string) (data : option (gmap string string))
    (results : Results) (s : Notifier)
  : (Results * option (gmap string string)) * Notifier :=
  match user_ids with
  | [] => ((results, data), s)
  | user_id :: user_ids =>
      match send_push_notification w user_id title body data s with
      | (Finished (true, data'), s') =>
          send_bulk_loop w user_ids title body data'
            (mkResults (S (success results)) (failed results) (total results))
            s'
      | (Finished (false, data'), s') =>
          send_bulk_loop w user_ids title body data'
            (mkResults (success results) (S (failed results)) (total results))
            s'
      | (Threw _, s') =>
          send_bulk_loop w user_ids title body data
            (mkResults (success results) (S (failed results)) (total results))
            s'
      end
  end.

Definition send_bulk_notification (w : World) (user_ids : list uuid)
    (title body : string) (data : option (gmap string string)) (s : Notifier)
  : (Results * option (gmap string string)) * Notifier :=
  send_bulk_loop w user_ids title body data
    (mkResults 0 0 (length user_ids)) s.

End Notifications.

(** What a row may have become after any number of sends: it is the same
    row but for its activity, its last use and its time stamp, and it has
    not become active. *)
Definition aged (r r' : PushToken.t) : Prop :=
  PushToken.id r' = PushToken.id r
  ∧ PushToken.user_id r' = PushToken.user_id r
  ∧ PushToken.token r' = PushToken.token r
  ∧ PushToken.platform r' = PushToken.platform r
  ∧ PushToken.device_id r' = PushToken.device_id r
  ∧ PushToken.created_at r' = PushToken.created_at r
  ∧ (PushToken.is_active r' = true → PushToken.is_active r = true).

(** ** Concrete push tokens and a messaging service

    Alice has two active tokens and bob one that is inactive.  The
    messaging service of the example delivers to alice's phone and reports
    her tablet as unregistered. *)

Module PushDemo.

Definition phone : PushToken.t :=
  PushToken.mk 1%N 161%N "fcm-alice-phone" "ios" (Some "iphone") true 0 0 None.

Definition tablet : PushToken.t :=
  PushToken.mk 2%N 161%N "fcm-alice-tablet" "android" None true 0 0 None.

Definition old_phone : PushToken.t :=
  PushToken.mk 3%N 178%N "fcm-bob-phone" "android" None false 0 0 None.

Definition db : Database := mkDatabase Demo.db0 [phone; tablet; old_phone].

Definition firebase : Firebase := {|
  FIREBASE_CREDENTIALS_PATH := Some "/etc/firebase.json";
  certificate := λ path, String.eqb path "/etc/firebase.json";
  messaging_send := λ sent message,
    if String.eqb (Message.token message) "fcm-alice-phone"
    then Delivered "projects/demo/messages/1"
    else if String.eqb (Message.token message) "fcm-alice-tablet"
    then UnregisteredError
    else SendError "unavailable"
|}.

(** The same service without a credentials path. *)
Definition unconfigured : Firebase := {|
  FIREBASE_CREDENTIALS_PATH := None;
  certificate := λ path, true;
  messaging_send := λ sent message, Delivered "projects/demo/messages/1"
|}.

(** The same service with credentials that do not load. *)
Definition broken : Firebase := {|
  FIREBASE_CREDENTIALS_PATH := Some "/etc/firebase.json";
  certificate := λ path, false;
  messaging_send := λ sent message, Delivered "projects/demo/messages/1"
|}.

Definition start : Notifier := mkNotifier db None [].

Definition ready : Notifier :=
  mkNotifier db (Some "/etc/firebase.json") [].

Definition watch : PushTokenRegister.t :=
  PushTokenRegister.mk "fcm-alice-watch" "ios" (Some "watch").

End PushDemo.

(** * Properties *)

Ltac unfold_M :=
  unfold run, mbind, M_bind, mret, M_ret, raise, query_first, add in *.

(** An operation answered with [HTTPException] of status 401, whatever the
    detail. *)
Definition Unauthorized {A} (r : outcome A) : Prop :=
  ∃ detail headers,
    r = Raise (HTTPException status.HTTP_401_UNAUTHORIZED detail headers).

Section Refresh.
Context {E : Env}.

(** The handler never touches the session it is given, and its outcome
    does not depend on it. *)
Lemma refresh_token_session w rq s :
  refresh_token w rq s = ((run (refresh_token w rq) empty_store).1, s).
Proof.
  unfold refresh_token, run. unfold_M.
  destruct (nonempty _) as [p|]; [|done].
  destruct (negb _); [done|].
  destruct (Payload.sub p) as [[|c u]|]; done.
Qed.

Lemma run_refresh_token w rq db :
  run (refresh_token w rq) db
  = ((run (refresh_token w rq) empty_store).1, db).
Proof. unfold run at 1. by rewrite refresh_token_session. Qed.

Lemma nonempty_Some p q : nonempty (Some p) = Some q → q = p.
Proof. simpl. destruct (Payload.is_empty p); congruence. Qed.

Lemma nonempty_typed p kind :
  Payload.type p = Some kind → nonempty (Some p) = Some p.
Proof.
  intros Hk. simpl. unfold Payload.is_empty. rewrite Hk.
  destruct (Payload.sub p); done.
Qed.

Lemma nonempty_sub p u :
  Payload.sub p = Some u → nonempty (Some p) = Some p.
Proof. intros Hu. simpl. unfold Payload.is_empty. rewrite Hu. done. Qed.

(** The successful path of the handler. *)
Lemma refresh_token_Return w rq db p user_id :
  decode_token w (RefreshTokenRequest.refresh_token rq) = Some p →
  Payload.type p = Some "refresh" →
  Payload.sub p = Some user_id → user_id ≠ "" →
  (run (refresh_token w rq) db).1
  = Return (TokenResponse.mk
              (create_access_token w [("sub", user_id)])
              (RefreshTokenRequest.refresh_token rq) "bearer").
Proof.
  intros Hp Hk Hu Hne. rewrite run_refresh_token. simpl.
  unfold refresh_token. unfold_M. rewrite Hp.
  rewrite (nonempty_typed p _ Hk).
  rewrite bool_decide_eq_true_2 by done. simpl. rewrite Hu.
  destruct user_id; done.
Qed.

(** C9. The refresh operation performs no write to the persistent store.
    For every world, request and session the handler hands the session back
    as it found it: nothing added, nothing committed.  So for every store,
    whether the request returns or raises, the store after it (credential
    records and revocation entries) is the store before it. *)
Theorem refresh_token_writes_nothing w rq :
  (∀ s, (refresh_token w rq s).2 = s)
  ∧ (∀ db, (run (refresh_token w rq) db).2 = db).
Proof.
  split.
  - intros s. by rewrite refresh_token_session.
  - intros db. by rewrite run_refresh_token.
Qed.

(** C5, as amended.  The refresh operation answers 401 for every token
    whose decoded [type] claim is not ["refresh"].  For every token that
    decodes with [type] ["refresh"] and a [sub] claim that is present and
    not the empty string, it returns a new access token issued for that
    same [sub], and the refresh token of the request unchanged.  A [sub]
    claim that is absent or empty is answered 401. *)
Theorem refresh_token_kind_and_subject w rq db :
  let token := RefreshTokenRequest.refresh_token rq in
  let r := (run (refresh_token w rq) db).1 in
  (∀ p, decode_token w token = Some p →
        Payload.type p ≠ Some "refresh" → Unauthorized r)
  ∧ (∀ p user_id,
        decode_token w token = Some p →
        Payload.type p = Some "refresh" →
        Payload.sub p = Some user_id → user_id ≠ "" →
        r = Return (TokenResponse.mk
                      (create_access_token w [("sub", user_id)])
                      token "bearer"))
  ∧ (∀ p,
        decode_token w token = Some p →
        Payload.sub p = None ∨ Payload.sub p = Some "" →
        Unauthorized r).
Proof.
  intros token r. subst r. rewrite run_refresh_token. simpl.
  unfold refresh_token. unfold_M. fold token.
  split; [|split].
  - intros p Hp Hk. rewrite Hp.
    destruct (nonempty (Some p)) as [q|] eqn:Hq; [|by eexists _, _].
    apply nonempty_Some in Hq as ->.
    rewrite bool_decide_eq_false_2 by done. simpl. by eexists _, _.
  - intros p user_id Hp Hk Hu Hne.
    pose proof (refresh_token_Return w rq db p user_id Hp Hk Hu Hne) as Hr.
    rewrite run_refresh_token in Hr. exact Hr.
  - intros p Hp Hu. rewrite Hp.
    destruct (nonempty (Some p)) as [q|] eqn:Hq; [|by eexists _, _].
    apply nonempty_Some in Hq as ->.
    destruct (negb _); [by eexists _, _|].
    destruct Hu as [-> | ->]; by eexists _, _.
Qed.

End Refresh.

Section Authenticate.
Context {E : Env}.

(** C6. For every bearer credential the request authenticator answers 401
    if the token fails to decode, if the decoded payload has no [sub]
    claim, or if the [sub] claim does not parse as a UUID; in every other
    case it returns the UUID parsed from the [sub] claim.  The four cases
    are exhaustive, so there is no other reason to reject.  ([uuid.UUID]
    raises [ValueError] on the empty string: hypothesis [Hempty].) *)
Theorem get_current_user_id_rejects_exactly
    (Hempty : UUID "" = None) w credentials db :
  let r := (run (get_current_user_id w credentials) db).1 in
  (decode_token w credentials = None → Unauthorized r)
  ∧ (∀ p, decode_token w credentials = Some p →
          Payload.sub p = None → Unauthorized r)
  ∧ (∀ p user_id, decode_token w credentials = Some p →
          Payload.sub p = Some user_id → UUID user_id = None →
          Unauthorized r)
  ∧ (∀ p user_id id, decode_token w credentials = Some p →
          Payload.sub p = Some user_id → UUID user_id = Some id →
          r = Return id).
Proof.
  intros r. subst r. unfold get_current_user_id. unfold_M.
  repeat split.
  - intros ->. simpl. by eexists _, _.
  - intros p -> Hsub.
    destruct (nonempty (Some p)) as [q|] eqn:Hq; simpl;
      [|by eexists _, _].
    apply nonempty_Some in Hq as ->. rewrite Hsub. by eexists _, _.
  - intros p user_id -> Hsub Hbad.
    rewrite (nonempty_sub p _ Hsub), Hsub.
    destruct user_id as [|c u]; simpl; [by eexists _, _|].
    rewrite Hbad. by eexists _, _.
  - intros p user_id id -> Hsub Hid.
    rewrite (nonempty_sub p _ Hsub), Hsub.
    destruct user_id as [|c u]; [congruence|].
    simpl. by rewrite Hid.
Qed.

End Authenticate.

Section Login.
Context {E : Env}.

Lemma find_existsb {A} (p : A → bool) (l : list A) :
  existsb p l = match find p l with Some _ => true | None => false end.
Proof. induction l as [|x l IH]; simpl; [done|]. by destruct (p x). Qed.

(** How a login request is answered before anything is written. *)
Lemma run_login w rq db :
  run (login w rq) db =
  match user_by_email db (LoginRequest.email rq) with
  | None =>
      (Raise (HTTPException status.HTTP_401_UNAUTHORIZED
                "Invalid email or password" []), db)
  | Some user =>
      if negb (verify_password (LoginRequest.password rq)
                 (User.hashed_password user))
      then (Raise (HTTPException status.HTTP_401_UNAUTHORIZED
                     "Invalid email or password" []), db)
      else if negb (User.is_active user)
      then (Raise (HTTPException status.HTTP_403_FORBIDDEN
                     "User account is disabled" []), db)
      else run (add (Update_last_login (User.id user) (utcnow w));;
                commit;;
                mret (TokenResponse.mk
                        (create_access_token w [("sub", str (User.id user))])
                        (create_refresh_token w [("sub", str (User.id user))])
                        "bearer")) db
  end.
Proof.
  unfold login, user_by_email. unfold_M. simpl.
  destruct (find _ _) as [user|]; [|done].
  destruct (negb (verify_password _ _)); [done|].
  destruct (negb (User.is_active user)); done.
Qed.

(** C4. A login request for an email with no account, and a login request
    with a wrong password for an existing account, are answered with the
    identical error: [HTTPException] 401 with detail "Invalid email or
    password" and no headers.  The two outcomes are equal, whatever the
    stores, worlds and requests. *)
Theorem login_failures_indistinguishable w1 rq1 db1 w2 rq2 db2 user :
  user_by_email db1 (LoginRequest.email rq1) = None →
  user_by_email db2 (LoginRequest.email rq2) = Some user →
  verify_password (LoginRequest.password rq2) (User.hashed_password user)
    = false →
  (run (login w1 rq1) db1).1
    = Raise (HTTPException status.HTTP_401_UNAUTHORIZED
               "Invalid email or password" [])
  ∧ (run (login w2 rq2) db2).1 = (run (login w1 rq1) db1).1.
Proof.
  intros Hnone Hsome Hwrong.
  rewrite !run_login, Hnone, Hsome, Hwrong. done.
Qed.

(** C7. When the email of a login request has an account and the
    password matches its stored hash, an account whose active flag is
    false is answered 403 "User account is disabled".  Conversely a 403
    is only ever answered after the account was found and the password
    verified: the active flag is looked at last. *)
Theorem login_disabled_account w rq db :
  let r := (run (login w rq) db).1 in
  (∀ user,
      user_by_email db (LoginRequest.email rq) = Some user →
      verify_password (LoginRequest.password rq)
        (User.hashed_password user) = true →
      User.is_active user = false →
      r = Raise (HTTPException status.HTTP_403_FORBIDDEN
                   "User account is disabled" []))
  ∧ (∀ detail headers,
      r = Raise (HTTPException status.HTTP_403_FORBIDDEN detail headers) →
      ∃ user,
        user_by_email db (LoginRequest.email rq) = Some user
        ∧ verify_password (LoginRequest.password rq)
            (User.hashed_password user) = true
        ∧ User.is_active user = false).
Proof.
  intros r. subst r. rewrite run_login. split.
  - intros user -> -> ->. done.
  - intros detail headers.
    destruct (user_by_email _ _) as [user|]; [|by inversion 1].
    destruct (verify_password _ _) eqn:Hv; simpl; [|by inversion 1].
    destruct (User.is_active user) eqn:Ha; simpl.
    + unfold_M. unfold commit. simpl. inversion 1.
    + intros _. by exists user.
Qed.

End Login.

Section Register.
Context {E : Env}.

Lemma find_None_elem {A} (p : A → bool) (l : list A) :
  find p l = None ↔ ∀ x, x ∈ l → p x = false.
Proof.
  induction l as [|y l IH]; simpl.
  - split; [|done]. intros _ x Hx. by apply not_elem_of_nil in Hx.
  - destruct (p y) eqn:Hy.
    + split; [done|]. intros Hall.
      specialize (Hall y (list_elem_of_here _ _)). congruence.
    + rewrite IH. split.
      * intros Hall x [->|Hx]%elem_of_cons; auto.
      * intros Hall x Hx. apply Hall. by apply list_elem_of_further.
Qed.

Lemma find_snoc_fresh {A} (p : A → bool) (l : list A) x :
  find p l = None → p x = true → find p (l ++ [x]) = Some x.
Proof.
  induction l as [|y l IH]; simpl; intros Hnone Hp.
  - by rewrite Hp.
  - destruct (p y); [done|]. by apply IH.
Qed.

Lemma find_Some_elem {A} (p : A → bool) (l : list A) x :
  find p l = Some x → x ∈ l ∧ p x = true.
Proof.
  induction l as [|y l IH]; simpl; [done|].
  destruct (p y) eqn:Hy.
  - intros [= <-]. split; [apply list_elem_of_here|done].
  - intros [Hx Hp]%IH. split; [by apply list_elem_of_further|done].
Qed.

Lemma find_elem_is_Some {A} (p : A → bool) (l : list A) x :
  x ∈ l → p x = true → is_Some (find p l).
Proof.
  intros Hx Hp. destruct (find p l) eqn:Hf; [done|].
  rewrite find_None_elem in Hf. specialize (Hf x Hx). congruence.
Qed.

Lemma user_has_nul_username u :
  has_nul (User.username u) = true → user_has_nul u = true.
Proof.
  unfold user_has_nul. intros ->. by rewrite orb_true_r.
Qed.

(** How a registration request is answered. *)
Lemma run_register w rq db :
  run (register w rq) db =
  match find (λ u, String.eqb (User.email u) (RegisterRequest.email rq))
          (users db) with
  | Some _ =>
      (Raise (HTTPException status.HTTP_400_BAD_REQUEST
                "Email already registered" []), db)
  | None =>
      match find (λ u, String.eqb (User.username u)
                         (RegisterRequest.username rq)) (users db) with
      | Some _ =>
          (Raise (HTTPException status.HTTP_400_BAD_REQUEST
                    "Username already taken" []), db)
      | None =>
          if user_has_nul (new_user w rq)
          then (Raise NUL_refused, db)
          else if has_user db (uuid4 w)
          then (Raise (IntegrityError "users_pkey"), db)
          else (Return (user_summary w rq),
                mkStore (users db ++ [new_user w rq]) (token_blacklist db))
      end
  end.
Proof.
  unfold register. unfold_M. unfold query_first_where. simpl.
  destruct (find (λ u, String.eqb (User.email u) _) _) eqn:Hemail; [done|].
  simpl.
  destruct (find (λ u, String.eqb (User.username u) _) _) eqn:Hname; [done|].
  fold (new_user w rq).
  destruct (has_nul (RegisterRequest.username rq)) eqn:Hnul.
  { by rewrite (user_has_nul_username (new_user w rq) Hnul). }
  unfold commit, refresh. cbn -[user_has_nul new_user].
  destruct (user_has_nul (new_user w rq)); [done|].
  unfold new_user, user_summary. simpl.
  destruct (has_user db (uuid4 w)) eqn:Hid; [done|].
  unfold has_email, has_username. rewrite !find_existsb.
  simpl. rewrite Hemail, Hname. simpl.
  unfold has_user in Hid. rewrite find_existsb in Hid.
  destruct (find (λ u, N.eqb (User.id u) (uuid4 w)) (users db)) eqn:Hfind;
    [done|].
  rewrite (find_snoc_fresh _ _ _ Hfind) by apply N.eqb_refl.
  done.
Qed.

(** C8.  What the code does with a registration request.

    A request whose email or whose username is already that of a user
    record is answered 400 and leaves the store as it was: no record is
    created.

    A request whose email and username are both new, but whose username
    or full name holds a NUL character, creates no record either: the
    database driver refuses the string and raises [ValueError], which the
    handler does not catch.  The request is answered 500 and the store is
    as it was, where the claim has a new record and 201.

    A request whose email and username are both new and whose strings (the
    email, the username, the full name and the password hash) hold no NUL
    creates exactly one user record, appended to the table, leaves the
    revocation ledger alone and returns the summary of that record, which
    the route sends with status 201.  (The primary key drawn by
    [uuid.uuid4] is taken not to collide with an existing one.) *)
Theorem register_duplicate_created_or_nul w rq db :
  ((∃ u, u ∈ users db
         ∧ (User.email u = RegisterRequest.email rq
            ∨ User.username u = RegisterRequest.username rq)) →
     ∃ detail,
       run (register w rq) db
       = (Raise (HTTPException status.HTTP_400_BAD_REQUEST detail []), db))
  ∧ ((∀ u, u ∈ users db →
           User.email u ≠ RegisterRequest.email rq
           ∧ User.username u ≠ RegisterRequest.username rq) →
     has_nul (RegisterRequest.username rq) = true
     ∨ has_nul_opt (RegisterRequest.full_name rq) = true →
     run (register w rq) db = (Raise NUL_refused, db)
     ∧ status_code_of status.HTTP_201_CREATED (run (register w rq) db).1
       = 500)
  ∧ ((∀ u, u ∈ users db →
           User.email u ≠ RegisterRequest.email rq
           ∧ User.username u ≠ RegisterRequest.username rq) →
     has_nul (RegisterRequest.email rq) = false →
     has_nul (RegisterRequest.username rq) = false →
     has_nul_opt (RegisterRequest.full_name rq) = false →
     has_nul (get_password_hash w (RegisterRequest.password rq)) = false →
     (∀ u, u ∈ users db → User.id u ≠ uuid4 w) →
     run (register w rq) db
     = (Return (UserResponse.mk
                  (str (uuid4 w))
                  (RegisterRequest.email rq)
                  (RegisterRequest.username rq)
                  (RegisterRequest.full_name rq)
                  true
                  (Some (isoformat (func_now w)))),
        mkStore (users db ++ [new_user w rq]) (token_blacklist db))
     ∧ length (users (run (register w rq) db).2) = S (length (users db))).
Proof.
  assert (Hfresh : (∀ u, u ∈ users db →
                      User.email u ≠ RegisterRequest.email rq
                      ∧ User.username u ≠ RegisterRequest.username rq) →
            find (λ v, String.eqb (User.email v) (RegisterRequest.email rq))
              (users db) = None
            ∧ find (λ v, String.eqb (User.username v)
                           (RegisterRequest.username rq)) (users db) = None).
  { intros Hnew. split; apply find_None_elem; intros u Hu;
      apply String.eqb_neq; by apply Hnew. }
  rewrite run_register. split; [|split].
  - intros (u & Hu & Hdup).
    destruct (find (λ v, String.eqb (User.email v) _) _) eqn:Hemail;
      [by eexists|].
    destruct (find (λ v, String.eqb (User.username v) _) _) eqn:Hname;
      [by eexists|].
    exfalso. destruct Hdup as [Hdup|Hdup].
    + rewrite find_None_elem in Hemail. specialize (Hemail u Hu).
      simpl in Hemail. apply String.eqb_neq in Hemail. done.
    + rewrite find_None_elem in Hname. specialize (Hname u Hu).
      simpl in Hname. apply String.eqb_neq in Hname. done.
  - intros [-> ->]%Hfresh Hnul.
    assert (user_has_nul (new_user w rq) = true) as ->; [|done].
    unfold user_has_nul. simpl.
    destruct Hnul as [-> | ->]; by rewrite ?orb_true_r.
  - intros [-> ->]%Hfresh Hemail Hname Hfull Hhash Hid.
    assert (user_has_nul (new_user w rq) = false) as ->.
    { unfold user_has_nul. simpl. by rewrite Hemail, Hname, Hfull, Hhash. }
    assert (has_user db (uuid4 w) = false) as ->.
    { unfold has_user. rewrite find_existsb.
      assert (find (λ v, N.eqb (User.id v) (uuid4 w)) (users db) = None)
        as ->; [|done].
      apply find_None_elem. intros u Hu. apply N.eqb_neq. by apply Hid. }
    split; [done|]. simpl. rewrite length_app. simpl. lia.
Qed.

End Register.

Section Logout.
Context {E : Env}.

(** *** Flushing revocation entries *)

Lemma flush_change_blacklist db e db' :
  flush_change db (Insert_TokenBlacklist e) = Return db' →
  is_Some (uuid_in (TokenBlacklist.user_id e))
  ∧ token_blacklist db !! TokenBlacklist.jti e = None
  ∧ db' = mkStore (users db)
            (<[TokenBlacklist.jti e := e]> (token_blacklist db)).
Proof.
  unfold flush_change. destruct (uuid_in _) as [uid|]; [|done].
  unfold is_revoked.
  destruct (token_blacklist db !! TokenBlacklist.jti e) eqn:Hj; [done|].
  destruct (negb _); [done|].
  intros [= <-]. done.
Qed.

Lemma flush_blacklist es : ∀ db db',
  flush db (Insert_TokenBlacklist <$> es) = Return db' →
  users db' = users db
  ∧ (∀ j x, token_blacklist db !! j = Some x →
            token_blacklist db' !! j = Some x)
  ∧ (∀ e, e ∈ es →
          token_blacklist db' !! TokenBlacklist.jti e = Some e
          ∧ is_Some (uuid_in (TokenBlacklist.user_id e)))
  ∧ (∀ j x, token_blacklist db' !! j = Some x →
            token_blacklist db !! j = Some x ∨ x ∈ es).
Proof.
  induction es as [|e es IH]; intros db db'.
  - simpl. intros [= <-]. split; [done|]. split; [auto|].
    split; [|auto]. intros e He. by apply not_elem_of_nil in He.
  - rewrite fmap_cons. cbn [flush].
    destruct (flush_change db (Insert_TokenBlacklist e)) as [db1|]
      eqn:Hstep; [|done].
    apply flush_change_blacklist in Hstep as (Huuid & Hnew & ->).
    intros (Husers & Hmono & Hin & Hout)%IH. simpl in *.
    assert (Hkeep : ∀ j x, token_blacklist db !! j = Some x →
              <[TokenBlacklist.jti e := e]> (token_blacklist db) !! j
              = Some x).
    { intros j x Hj. rewrite lookup_insert_ne; [done|].
      intros <-. congruence. }
    split; [done|]. split; [|split].
    + intros j x Hj. by apply Hmono, Hkeep.
    + intros e' [->|He]%elem_of_cons.
      * split; [|done]. apply Hmono. by rewrite lookup_insert_eq.
      * by apply Hin.
    + intros j x Hj. apply Hout in Hj as [Hj|Hj].
      * destruct (decide (TokenBlacklist.jti e = j)) as [<-|Hne].
        -- rewrite lookup_insert_eq in Hj. injection Hj as <-.
           right. apply list_elem_of_here.
        -- rewrite lookup_insert_ne in Hj by done. by left.
      * right. by apply list_elem_of_further.
Qed.

(** How a logout request is answered. *)
Lemma run_logout w rq db :
  run (logout w rq) db =
  match nonempty (decode_token w (LogoutRequest.access_token rq)),
        nonempty (decode_token w (LogoutRequest.refresh_token rq)) with
  | Some pa, Some pr =>
      match py_or (Payload.sub pa) (Payload.sub pr) with
      | Some (String c u) =>
          match flush db (Insert_TokenBlacklist
                            <$> logout_entries w rq pa pr (String c u)) with
          | Return db' =>
              (Return [("message", "Successfully logged out")], db')
          | Raise e => (Raise e, db)
          end
      | _ => (Raise (HTTPException status.HTTP_400_BAD_REQUEST
                       "Invalid token payload" []), db)
      end
  | _, _ => (Raise (HTTPException status.HTTP_400_BAD_REQUEST
                      "Invalid tokens" []), db)
  end.
Proof.
  unfold logout.
  destruct (nonempty (decode_token w (LogoutRequest.access_token rq)))
    as [pa|]; [|done].
  destruct (nonempty (decode_token w (LogoutRequest.refresh_token rq)))
    as [pr|]; [|done].
  destruct (py_or _ _) as [[|c u]|]; [done| |done].
  unfold logout_entries, blacklist, commit. unfold_M.
  destruct (blacklist_entry w (LogoutRequest.access_token rq) _ _ _)
    as [ea|];
    destruct (blacklist_entry w (LogoutRequest.refresh_token rq) _ _ _)
      as [er|]; cbn -[flush_change];
    repeat match goal with
           | |- context [flush_change ?d ?c] =>
               destruct (flush_change d c); cbn -[flush_change]; try done
           end;
    done.
Qed.

(** A successful logout, taken apart. *)
Lemma run_logout_Return w rq db msg db' :
  run (logout w rq) db = (Return msg, db') →
  ∃ pa pr user_id,
    nonempty (decode_token w (LogoutRequest.access_token rq)) = Some pa
    ∧ nonempty (decode_token w (LogoutRequest.refresh_token rq)) = Some pr
    ∧ py_or (Payload.sub pa) (Payload.sub pr) = Some user_id
    ∧ user_id ≠ ""
    ∧ flush db (Insert_TokenBlacklist
                  <$> logout_entries w rq pa pr user_id) = Return db'.
Proof.
  rewrite run_logout.
  destruct (nonempty (decode_token w (LogoutRequest.access_token rq)))
    as [pa|]; [|done].
  destruct (nonempty (decode_token w (LogoutRequest.refresh_token rq)))
    as [pr|]; [|done].
  destruct (py_or _ _) as [[|c u]|] eqn:Hsub; [done| |done].
  destruct (flush _ _) as [db1|] eqn:Hflush; [|done].
  intros [= <- <-]. by exists pa, pr, (String c u).
Qed.

Lemma nonempty_decoded o p : nonempty o = Some p → o = Some p.
Proof.
  destruct o as [q|]; [|done]. intros Hq.
  by rewrite (nonempty_Some _ _ Hq).
Qed.

Lemma blacklist_entry_jti w token p user_id kind e :
  blacklist_entry w token p user_id kind = Some e →
  py_or (get_jti_from_token w token) (Payload.jti p)
    = Some (TokenBlacklist.jti e)
  ∧ TokenBlacklist.jti e ≠ ""
  ∧ TokenBlacklist.user_id e = user_id
  ∧ TokenBlacklist.token_type e = kind.
Proof.
  unfold blacklist_entry.
  destruct (py_or _ _) as [[|c j]|]; [done| |done].
  intros [= <-]. done.
Qed.

Lemma elem_of_option_list {A} (o : option A) (x : A) :
  x ∈ option_list o ↔ o = Some x.
Proof.
  destruct o as [y|]; simpl.
  - rewrite list_elem_of_singleton. split; congruence.
  - split; [|done]. intros Hx. by apply not_elem_of_nil in Hx.
Qed.

Lemma logout_entries_user_id w rq pa pr user_id e :
  e ∈ logout_entries w rq pa pr user_id →
  TokenBlacklist.user_id e = user_id.
Proof.
  unfold logout_entries. rewrite elem_of_app.
  intros [He|He]; apply elem_of_option_list in He;
    by apply blacklist_entry_jti in He as (_ & _ & ? & _).
Qed.

(** C2, as amended.  Logout needs both tokens: as soon as the access
    token or the refresh token fails to decode, the call is answered 400
    "Invalid tokens" and the store is left as it was, so no revocation
    entry is written for the other token.  A call that returns normally
    had both tokens decoded. *)
Theorem logout_requires_both_tokens w rq db :
  ((decode_token w (LogoutRequest.access_token rq) = None
    ∨ decode_token w (LogoutRequest.refresh_token rq) = None) →
     run (logout w rq) db
     = (Raise (HTTPException status.HTTP_400_BAD_REQUEST
                 "Invalid tokens" []), db))
  ∧ (∀ msg db', run (logout w rq) db = (Return msg, db') →
       is_Some (decode_token w (LogoutRequest.access_token rq))
       ∧ is_Some (decode_token w (LogoutRequest.refresh_token rq))).
Proof.
  split.
  - rewrite run_logout. intros [-> | ->]; simpl; [done|].
    by destruct (nonempty _).
  - intros msg db' (pa & pr & _ & Ha & Hr & _)%run_logout_Return.
    apply nonempty_decoded in Ha, Hr. rewrite Ha, Hr. done.
Qed.

(** C1, as amended.  After a successful logout with an access and refresh
    token pair, a refresh request presenting that same refresh token is
    answered as it would have been without the logout: the refresh
    operation does not read the revocation ledger.  The jti of the
    refresh token, when the logout call found one, does have a
    revocation entry in the store after logout; all the same the refresh
    request returns a new access token whenever the token still decodes
    with [type] ["refresh"] and a non-empty [sub]. *)
Theorem refresh_ignores_revocation w rq db msg db' w' :
  run (logout w rq) db = (Return msg, db') →
  let token := LogoutRequest.refresh_token rq in
  let after := (run (refresh_token w' (RefreshTokenRequest.mk token)) db').1 in
  after = (run (refresh_token w' (RefreshTokenRequest.mk token)) db).1
  ∧ (∀ p jti, decode_token w token = Some p →
        py_or (get_jti_from_token w token) (Payload.jti p) = Some jti →
        jti ≠ "" → is_revoked db' jti = true)
  ∧ (∀ p user_id, decode_token w' token = Some p →
        Payload.type p = Some "refresh" →
        Payload.sub p = Some user_id → user_id ≠ "" →
        after = Return (TokenResponse.mk
                          (create_access_token w' [("sub", user_id)])
                          token "bearer")).
Proof.
  intros Hlogout token after. subst after.
  split.
  { by rewrite (run_refresh_token _ _ db'), (run_refresh_token _ _ db). }
  split.
  - intros p jti Hp Hjti Hne.
    apply run_logout_Return in Hlogout
      as (pa & pr & user_id & _ & Hr & _ & _ & Hflush).
    apply nonempty_decoded in Hr. fold token in Hr.
    rewrite Hp in Hr. injection Hr as <-.
    apply flush_blacklist in Hflush as (_ & _ & Hin & _).
    pose (e := TokenBlacklist.mk jti user_id "refresh"
                 (default 0 (Payload.exp p)) "logout").
    destruct (Hin e) as [Hlookup _].
    { unfold logout_entries. apply elem_of_app. right.
      apply elem_of_option_list. unfold blacklist_entry.
      fold token. rewrite Hjti. by destruct jti. }
    unfold is_revoked. simpl in Hlookup. by rewrite Hlookup.
  - intros p user_id Hp Hk Hu Hne.
    by apply (refresh_token_Return w' (RefreshTokenRequest.mk token) db'
                p user_id).
Qed.

(** C10, as amended.  Every revocation entry written by one logout call,
    for the access token and for the refresh token alike, carries the
    same [user_id]: the access token's [sub] claim when that is present
    and not the empty string, and the refresh token's [sub] claim
    otherwise, whether or not the two tokens name the same subject. *)
Theorem logout_entries_share_user_id w rq db msg db' pa pr :
  run (logout w rq) db = (Return msg, db') →
  decode_token w (LogoutRequest.access_token rq) = Some pa →
  decode_token w (LogoutRequest.refresh_token rq) = Some pr →
  ∃ user_id,
    (∀ jti e, token_blacklist db' !! jti = Some e →
              token_blacklist db !! jti = None →
              TokenBlacklist.user_id e = user_id)
    ∧ (∀ s, Payload.sub pa = Some s → s ≠ "" → user_id = s)
    ∧ (Payload.sub pa = None ∨ Payload.sub pa = Some "" →
       Payload.sub pr = Some user_id).
Proof.
  intros (pa' & pr' & user_id & Ha & Hr & Hsub & _ & Hflush)%run_logout_Return
    Hpa Hpr.
  apply nonempty_decoded in Ha, Hr.
  rewrite Hpa in Ha. rewrite Hpr in Hr.
  injection Ha as <-. injection Hr as <-.
  exists user_id. split; [|split].
  - intros jti e Hafter Hbefore.
    apply flush_blacklist in Hflush as (_ & _ & _ & Hout).
    apply Hout in Hafter as [Hold|Hnew]; [congruence|].
    by apply logout_entries_user_id in Hnew.
  - intros s Hs Hne. unfold py_or in Hsub. rewrite Hs in Hsub.
    destruct s; [done|]. simpl in Hsub. congruence.
  - unfold py_or in Hsub. by intros [Hs|Hs]; rewrite Hs in Hsub.
Qed.

(** C3.  What the code does on a repeated logout.  When a logout call
    returned normally and wrote at least one revocation entry, a second
    call with the same token pair, decoded to the same claims, does not
    return: the session raises [IntegrityError] on the unique index of
    [token_blacklist.jti], the request is answered 500, and the store is
    left as the first call left it. *)
Theorem logout_twice_raises w rq db msg db' w' :
  run (logout w rq) db = (Return msg, db') →
  db' ≠ db →
  decode_token w' (LogoutRequest.access_token rq)
    = decode_token w (LogoutRequest.access_token rq) →
  decode_token w' (LogoutRequest.refresh_token rq)
    = decode_token w (LogoutRequest.refresh_token rq) →
  get_jti_from_token w' (LogoutRequest.access_token rq)
    = get_jti_from_token w (LogoutRequest.access_token rq) →
  get_jti_from_token w' (LogoutRequest.refresh_token rq)
    = get_jti_from_token w (LogoutRequest.refresh_token rq) →
  run (logout w' rq) db'
    = (Raise (IntegrityError "ix_token_blacklist_jti"), db')
  ∧ status_code_of status.HTTP_200_OK (run (logout w' rq) db').1 = 500.
Proof.
  intros (pa & pr & user_id & Ha & Hr & Hsub & Hne & Hflush)%run_logout_Return
    Hwritten Hda Hdr Hja Hjr.
  assert (Hrun : run (logout w' rq) db'
                 = (Raise (IntegrityError "ix_token_blacklist_jti"), db')).
  { rewrite run_logout. rewrite Hda, Hdr, Ha, Hr, Hsub.
    destruct user_id as [|c u]; [done|].
    assert (Hsame : logout_entries w' rq pa pr (String c u)
                    = logout_entries w rq pa pr (String c u)).
    { unfold logout_entries, blacklist_entry. by rewrite Hja, Hjr. }
    rewrite Hsame.
    destruct (logout_entries w rq pa pr (String c u)) as [|e es] eqn:Hes.
    { simpl in Hflush. congruence. }
    apply flush_blacklist in Hflush as (_ & _ & Hin & _).
    destruct (Hin e) as [Hlookup [uid Huuid]]; [apply list_elem_of_here|].
    rewrite fmap_cons. cbn [flush]. unfold flush_change, is_revoked.
    by rewrite Huuid, Hlookup. }
  by rewrite Hrun.
Qed.

End Logout.

(** * The properties on the concrete environment *)

(** C1, counterexample to the claim as stated.  Alice logs out with her
    token pair at time 100: the call returns and the jti of her refresh
    token is in the ledger.  At time 200 she presents the same refresh
    token to the refresh operation, which returns a new access token; the
    answer is not a 401. *)
Lemma refresh_after_logout_counterexample :
  run (logout (E:=Demo.env) 100 Demo.alice_pair) Demo.db0
    = (Return Demo.logged_out, Demo.db1)
  ∧ is_revoked Demo.db1 "jti-r1" = true
  ∧ (run (refresh_token (E:=Demo.env) 200
            (RefreshTokenRequest.mk "alice.refresh")) Demo.db1).1
    = Return (TokenResponse.mk
                "00000000-0000-0000-0000-0000000000a1.access"
                "alice.refresh" "bearer")
  ∧ ¬ Unauthorized
        (run (refresh_token (E:=Demo.env) 200
                (RefreshTokenRequest.mk "alice.refresh")) Demo.db1).1.
Proof.
  split; [by vm_compute|]. split; [by vm_compute|].
  split; [by vm_compute|].
  intros (detail & headers & Hr). vm_compute in Hr. discriminate.
Qed.

Lemma refresh_ignores_revocation_witness :
  (run (refresh_token (E:=Demo.env) 200
          (RefreshTokenRequest.mk "alice.refresh")) Demo.db1).1
  = Return (TokenResponse.mk
              (create_access_token (Env:=Demo.env) 200
                 [("sub", Demo.alice_id)])
              "alice.refresh" "bearer").
Proof.
  refine (proj2 (proj2 (refresh_ignores_revocation (E:=Demo.env)
                          100 Demo.alice_pair Demo.db0 Demo.logged_out
                          Demo.db1 200 _))
            (Payload.mk (Some Demo.alice_id) (Some "refresh")
               (Some "jti-r1") (Some 604800) [])
            Demo.alice_id _ _ _ _).
  - vm_compute. reflexivity.
  - vm_compute. reflexivity.
  - reflexivity.
  - reflexivity.
  - discriminate.
Defined.

(** C2, counterexample to the claim as stated.  The access token decodes,
    the refresh token does not: exactly one of the two decodes.  Logout does
    not succeed: it is answered 400 "Invalid tokens", and no revocation
    entry is written for the access token, which did decode. *)
Lemma logout_one_token_counterexample :
  is_Some (decode_token (Env:=Demo.env) 100 "alice.access")
  ∧ decode_token (Env:=Demo.env) 100 "garbage" = None
  ∧ run (logout (E:=Demo.env) 100
           (LogoutRequest.mk "alice.access" "garbage")) Demo.db0
    = (Raise (HTTPException 400 "Invalid tokens" []), Demo.db0)
  ∧ is_revoked Demo.db0 "jti-a1" = false.
Proof.
  split; [by eexists|]. split; [by vm_compute|].
  split; by vm_compute.
Qed.

Lemma logout_requires_both_tokens_witness :
  run (logout (E:=Demo.env) 100
         (LogoutRequest.mk "alice.access" "garbage")) Demo.db0
  = (Raise (HTTPException status.HTTP_400_BAD_REQUEST "Invalid tokens" []),
     Demo.db0).
Proof.
  apply (proj1 (logout_requires_both_tokens (E:=Demo.env) 100
                  (LogoutRequest.mk "alice.access" "garbage") Demo.db0)).
  right. vm_compute. reflexivity.
Defined.

(** C3, on the failing input.  Alice logs out twice with the same token
    pair; both tokens still decode at the second call.  The first call
    returns, the second raises [IntegrityError] and is answered 500. *)
Lemma logout_twice_raises_witness :
  run (logout (E:=Demo.env) 200 Demo.alice_pair) Demo.db1
    = (Raise (IntegrityError "ix_token_blacklist_jti"), Demo.db1)
  ∧ status_code_of status.HTTP_200_OK
      (run (logout (E:=Demo.env) 200 Demo.alice_pair) Demo.db1).1 = 500.
Proof.
  apply (logout_twice_raises (E:=Demo.env) 100 Demo.alice_pair Demo.db0
           Demo.logged_out Demo.db1 200).
  - vm_compute. reflexivity.
  - intros Hsame.
    apply (f_equal (λ db, is_revoked db "jti-r1")) in Hsame.
    vm_compute in Hsame. discriminate.
  - vm_compute. reflexivity.
  - vm_compute. reflexivity.
  - vm_compute. reflexivity.
  - vm_compute. reflexivity.
Defined.

Lemma login_failures_indistinguishable_witness :
  (run (login (E:=Demo.env) 100
          (LoginRequest.mk "nobody@x.com" "password123")) Demo.db0).1
    = Raise (HTTPException status.HTTP_401_UNAUTHORIZED
               "Invalid email or password" [])
  ∧ (run (login (E:=Demo.env) 100
            (LoginRequest.mk "a@x.com" "not-her-password")) Demo.db0).1
    = (run (login (E:=Demo.env) 100
              (LoginRequest.mk "nobody@x.com" "password123")) Demo.db0).1.
Proof.
  apply (login_failures_indistinguishable (E:=Demo.env)
           100 (LoginRequest.mk "nobody@x.com" "password123") Demo.db0
           100 (LoginRequest.mk "a@x.com" "not-her-password") Demo.db0
           Demo.alice).
  - vm_compute. reflexivity.
  - vm_compute. reflexivity.
  - vm_compute. reflexivity.
Defined.

(** C5, counterexample to the claim as stated.  The token decodes with
    [type] ["refresh"] and its [sub] claim is present, with the empty
    string as value.  The refresh operation does not return an access
    token: it is answered 401 "Invalid token payload". *)
Lemma refresh_blank_subject_counterexample :
  decode_token (Env:=Demo.env) 100 "blank.refresh"
    = Some (Payload.mk (Some "") (Some "refresh") (Some "jti-r3")
              (Some 604800) [])
  ∧ run (refresh_token (E:=Demo.env) 100
           (RefreshTokenRequest.mk "blank.refresh")) Demo.db0
    = (Raise (HTTPException 401 "Invalid token payload" []), Demo.db0).
Proof. split; by vm_compute. Qed.

Lemma refresh_token_kind_and_subject_witness :
  (run (refresh_token (E:=Demo.env) 100
          (RefreshTokenRequest.mk "bob.refresh")) Demo.db0).1
  = Return (TokenResponse.mk
              (create_access_token (Env:=Demo.env) 100 [("sub", Demo.bob_id)])
              "bob.refresh" "bearer").
Proof.
  refine (proj1 (proj2 (refresh_token_kind_and_subject (E:=Demo.env) 100
                          (RefreshTokenRequest.mk "bob.refresh") Demo.db0))
            (Payload.mk (Some Demo.bob_id) (Some "refresh") (Some "jti-r2")
               (Some 604800) [])
            Demo.bob_id _ _ _ _).
  - vm_compute. reflexivity.
  - reflexivity.
  - reflexivity.
  - discriminate.
Defined.

Lemma get_current_user_id_rejects_exactly_witness :
  (run (get_current_user_id (E:=Demo.env) 100 "alice.access") Demo.db0).1
    = Return 161%N
  ∧ Unauthorized
      (run (get_current_user_id (E:=Demo.env) 100 "badsub.access")
         Demo.db0).1.
Proof.
  split.
  - refine (proj2 (proj2 (proj2
              (get_current_user_id_rejects_exactly (E:=Demo.env) _
                 100 "alice.access" Demo.db0)))
              (Payload.mk (Some Demo.alice_id) (Some "access")
                 (Some "jti-a1") (Some 1800) [])
              Demo.alice_id 161%N _ _ _).
    + reflexivity.
    + vm_compute. reflexivity.
    + reflexivity.
    + vm_compute. reflexivity.
  - refine (proj1 (proj2 (proj2
              (get_current_user_id_rejects_exactly (E:=Demo.env) _
                 100 "badsub.access" Demo.db0)))
              (Payload.mk (Some "alice") (Some "access")
                 (Some "jti-a5") (Some 1800) [])
              "alice" _ _ _).
    + reflexivity.
    + vm_compute. reflexivity.
    + reflexivity.
    + vm_compute. reflexivity.
Defined.

Lemma login_disabled_account_witness :
  (run (login (E:=Demo.env) 100
          (LoginRequest.mk "b@x.com" "hunter2hunter2")) Demo.db0).1
  = Raise (HTTPException status.HTTP_403_FORBIDDEN
             "User account is disabled" []).
Proof.
  apply (proj1 (login_disabled_account (E:=Demo.env) 100
                  (LoginRequest.mk "b@x.com" "hunter2hunter2") Demo.db0)
           Demo.bob).
  - vm_compute. reflexivity.
  - vm_compute. reflexivity.
  - reflexivity.
Defined.

(** C8, on the failing input.  No user of the store has the email or the
    username of the request, and the username, six characters long, holds
    a NUL.  The request is answered 500 and the store is as it was.  The
    same email with the username "carol" is registered, and alice's email
    is answered 400. *)
Lemma register_duplicate_created_or_nul_witness :
  (String.length (RegisterRequest.username Demo.carol_nul) = 6%nat
   ∧ run (register (E:=Demo.env) 100 Demo.carol_nul) Demo.db0
     = (Raise NUL_refused, Demo.db0)
   ∧ status_code_of status.HTTP_201_CREATED
       (run (register (E:=Demo.env) 100 Demo.carol_nul) Demo.db0).1 = 500)
  ∧ (∃ detail,
       run (register (E:=Demo.env) 100
              (RegisterRequest.mk "a@x.com" "alice2" "password123" None))
         Demo.db0
       = (Raise (HTTPException status.HTTP_400_BAD_REQUEST detail []),
          Demo.db0))
  ∧ run (register (E:=Demo.env) 100 Demo.carol) Demo.db0
    = (Return (UserResponse.mk "00000000-0000-0000-0000-000000000064"
                 "c@x.com" "carol" None true (Some "100")),
       mkStore [Demo.alice; Demo.bob; new_user (E:=Demo.env) 100 Demo.carol]
         ∅).
Proof.
  assert (Hfresh : ∀ username u, u ∈ users Demo.db0 →
            username ≠ "alice" → username ≠ "bob" →
            User.email u ≠ "c@x.com" ∧ User.username u ≠ username).
  { intros username u Hu Ha Hb. simpl in Hu. rewrite !elem_of_cons in Hu.
    destruct Hu as [->|[->|Hu]]; [by split|by split|].
    by apply not_elem_of_nil in Hu. }
  split; [|split].
  - split; [reflexivity|].
    refine (proj1 (proj2 (register_duplicate_created_or_nul (E:=Demo.env) 100
                            Demo.carol_nul Demo.db0)) _ _).
    + intros u Hu. by apply Hfresh.
    + left. reflexivity.
  - apply (proj1 (register_duplicate_created_or_nul (E:=Demo.env) 100
                    (RegisterRequest.mk "a@x.com" "alice2" "password123" None)
                    Demo.db0)).
    exists Demo.alice. split; [apply list_elem_of_here|]. left. reflexivity.
  - refine (proj1 (proj2 (proj2 (register_duplicate_created_or_nul
                                   (E:=Demo.env) 100 Demo.carol Demo.db0))
                     _ _ _ _ _ _)).
    + intros u Hu. by apply Hfresh.
    + reflexivity.
    + reflexivity.
    + reflexivity.
    + reflexivity.
    + intros u Hu. simpl in Hu. rewrite !elem_of_cons in Hu.
      destruct Hu as [->|[->|Hu]]; [done|done|].
      by apply not_elem_of_nil in Hu.
Defined.

(** C10, counterexample to the claim as stated.  The access token's [sub]
    claim is present, with the empty string as value; the refresh token is
    alice's.  Logout returns, and the entry it writes for the access token
    carries alice's id, the refresh token's [sub], not the [sub] of the
    access token. *)
Lemma logout_blank_subject_counterexample :
  Payload.sub <$> decode_token (Env:=Demo.env) 100 "blank.access"
    = Some (Some "")
  ∧ (run (logout (E:=Demo.env) 100
            (LogoutRequest.mk "blank.access" "alice.refresh")) Demo.db0).1
    = Return Demo.logged_out
  ∧ is_revoked Demo.db0 "jti-a3" = false
  ∧ TokenBlacklist.user_id
      <$> (token_blacklist
             (run (logout (E:=Demo.env) 100
                     (LogoutRequest.mk "blank.access" "alice.refresh"))
                Demo.db0).2 !! "jti-a3")
    = Some Demo.alice_id.
Proof. repeat split; by vm_compute. Qed.

Lemma logout_entries_share_user_id_witness :
  ∃ user_id,
    (∀ jti e, token_blacklist Demo.db_mixed !! jti = Some e →
              token_blacklist Demo.db0 !! jti = None →
              TokenBlacklist.user_id e = user_id)
    ∧ (∀ s, Payload.sub Demo.alice_access = Some s → s ≠ "" → user_id = s)
    ∧ (Payload.sub Demo.alice_access = None
       ∨ Payload.sub Demo.alice_access = Some "" →
       Payload.sub Demo.bob_refresh = Some user_id).
Proof.
  apply (logout_entries_share_user_id (E:=Demo.env) 100 Demo.mixed_pair
           Demo.db0 Demo.logged_out Demo.db_mixed
           Demo.alice_access Demo.bob_refresh).
  - vm_compute. reflexivity.
  - vm_compute. reflexivity.
  - vm_compute. reflexivity.
Defined.

(** * Further properties of the handlers *)

Section LoginWrites.
Context {E : Env}.

Lemma find_map_stable {A} (p : A → bool) (f : A → A) (l : list A) :
  (∀ x, p (f x) = p x) → find p (map f l) = option_map f (find p l).
Proof.
  intros Hp. induction l as [|x l IH]; simpl; [done|].
  rewrite Hp. by destruct (p x).
Qed.

(** The successful path of [login]: the answer and the store it leaves. *)
Lemma run_login_Return w rq db user :
  user_by_email db (LoginRequest.email rq) = Some user →
  verify_password (LoginRequest.password rq) (User.hashed_password user)
    = true →
  User.is_active user = true →
  run (login w rq) db
  = (Return (TokenResponse.mk
               (create_access_token w [("sub", str (User.id user))])
               (create_refresh_token w [("sub", str (User.id user))])
               "bearer"),
     mkStore (map (λ u, if N.eqb (User.id u) (User.id user)
                        then User.set_last_login (utcnow w) u else u)
                (users db))
       (token_blacklist db)).
Proof.
  intros Hfound Hpw Hactive.
  rewrite run_login, Hfound, Hpw, Hactive. simpl.
  unfold_M. unfold commit. simpl. done.
Qed.

(** X1. A login with the right password for an active account returns an
    access and a refresh token, both issued for the string form of the
    account's id, with token type "bearer".  It records the time of the
    login: looking the email up afterwards finds the same account with
    [last_login] set to the clock of the request.  The revocation ledger is
    not touched. *)
Theorem login_issues_pair_and_records_time w rq db user :
  user_by_email db (LoginRequest.email rq) = Some user →
  verify_password (LoginRequest.password rq) (User.hashed_password user)
    = true →
  User.is_active user = true →
  (run (login w rq) db).1
    = Return (TokenResponse.mk
                (create_access_token w [("sub", str (User.id user))])
                (create_refresh_token w [("sub", str (User.id user))])
                "bearer")
  ∧ user_by_email (run (login w rq) db).2 (LoginRequest.email rq)
    = Some (User.set_last_login (utcnow w) user)
  ∧ token_blacklist (run (login w rq) db).2 = token_blacklist db.
Proof.
  intros Hfound Hpw Hactive.
  rewrite (run_login_Return w rq db user Hfound Hpw Hactive). simpl.
  split; [done|]. split; [|done].
  unfold user_by_email in *. simpl.
  rewrite find_map_stable.
  - rewrite Hfound. simpl. by rewrite N.eqb_refl.
  - intros u. by destruct (N.eqb _ _).
Qed.

(** X2. Whatever the request, login writes nothing but [last_login]: the
    revocation ledger is the same afterwards, no user row is added or
    removed, and every row keeps its id, email, username, full name,
    password hash, active and verified flags and creation time.  (The
    column [updated_at], which the ORM refreshes on every update, is not
    among the columns of the model.)  A login that raises leaves the store
    exactly as it was. *)
Theorem login_changes_last_login_only w rq db :
  token_blacklist (run (login w rq) db).2 = token_blacklist db
  ∧ (∀ t, map (User.set_last_login t) (users (run (login w rq) db).2)
          = map (User.set_last_login t) (users db))
  ∧ (∀ e, (run (login w rq) db).1 = Raise e → (run (login w rq) db).2 = db).
Proof.
  rewrite run_login.
  destruct (user_by_email _ _) as [user|] eqn:Hfound; [|done].
  destruct (verify_password _ _) eqn:Hpw; simpl; [|done].
  destruct (User.is_active user) eqn:Hactive; simpl; [|done].
  unfold_M. unfold commit. simpl.
  split; [done|]. split; [|done].
  intros t. rewrite map_map. apply map_ext.
  intros u. by destruct (N.eqb _ _).
Qed.

End LoginWrites.

Section RegisterMore.
Context {E : Env}.

(** X3. Which of the two 400 answers a registration gets.  An email that
    is already that of a user is answered "Email already registered",
    whether or not the username is taken too; a new email with a username
    that is already taken is answered "Username already taken".  Either way
    the store is left as it was. *)
Theorem register_reports_email_first w rq db :
  ((∃ u, u ∈ users db ∧ User.email u = RegisterRequest.email rq) →
     run (register w rq) db
     = (Raise (HTTPException status.HTTP_400_BAD_REQUEST
                 "Email already registered" []), db))
  ∧ ((∀ u, u ∈ users db → User.email u ≠ RegisterRequest.email rq) →
     (∃ u, u ∈ users db ∧ User.username u = RegisterRequest.username rq) →
     run (register w rq) db
     = (Raise (HTTPException status.HTTP_400_BAD_REQUEST
                 "Username already taken" []), db)).
Proof.
  rewrite run_register. split.
  - intros (u & Hu & Hemail).
    destruct (find_elem_is_Some
                (λ v, String.eqb (User.email v) (RegisterRequest.email rq))
                (users db) u Hu) as [v ->]; [|done].
    simpl. by apply String.eqb_eq.
  - intros Hnew (u & Hu & Hname).
    assert (find (λ v, String.eqb (User.email v) (RegisterRequest.email rq))
              (users db) = None) as ->.
    { apply find_None_elem. intros v Hv. apply String.eqb_neq.
      by apply Hnew. }
    destruct (find_elem_is_Some
                (λ v, String.eqb (User.username v)
                        (RegisterRequest.username rq))
                (users db) u Hu) as [v ->]; [|done].
    simpl. by apply String.eqb_eq.
Qed.

(** A registration that returned appended its row and answered with the
    summary of that row: the email was new and the row was accepted. *)
Lemma run_register_Return w rq db r db' :
  run (register w rq) db = (Return r, db') →
  db' = mkStore (users db ++ [new_user w rq]) (token_blacklist db)
  ∧ find (λ u, String.eqb (User.email u) (RegisterRequest.email rq))
      (users db) = None
  ∧ r = user_summary w rq.
Proof.
  rewrite run_register.
  destruct (find (λ u, String.eqb (User.email u) _) _); [done|].
  destruct (find (λ u, String.eqb (User.username u) _) _); [done|].
  destruct (user_has_nul (new_user w rq)); [done|].
  destruct (has_user db (uuid4 w)); [done|].
  by intros [= <- <-].
Qed.

(** X4. Registering twice.  After a registration that returned, any further
    registration with the same email, in any world and with any username
    and password, is answered 400 "Email already registered" and writes
    nothing; one with another email, not registered either, and the same
    username is answered 400 "Username already taken". *)
Theorem register_twice_is_refused w rq db r db' w' rq' :
  run (register w rq) db = (Return r, db') →
  (RegisterRequest.email rq' = RegisterRequest.email rq →
     run (register w' rq') db'
     = (Raise (HTTPException status.HTTP_400_BAD_REQUEST
                 "Email already registered" []), db'))
  ∧ (RegisterRequest.email rq' ≠ RegisterRequest.email rq →
     RegisterRequest.username rq' = RegisterRequest.username rq →
     (∀ u, u ∈ users db → User.email u ≠ RegisterRequest.email rq') →
     run (register w' rq') db'
     = (Raise (HTTPException status.HTTP_400_BAD_REQUEST
                 "Username already taken" []), db')).
Proof.
  intros (-> & _ & _)%run_register_Return. split.
  - intros Hsame. rewrite run_register. simpl.
    destruct (find_elem_is_Some
                (λ v, String.eqb (User.email v) (RegisterRequest.email rq'))
                (users db ++ [new_user w rq]) (new_user w rq))
      as [v ->]; [| |done].
    + apply elem_of_app. right. apply list_elem_of_here.
    + simpl. by apply String.eqb_eq.
  - intros Hother Hname Hnew. rewrite run_register. simpl.
    assert (find (λ v, String.eqb (User.email v) (RegisterRequest.email rq'))
              (users db ++ [new_user w rq]) = None) as ->.
    { apply find_None_elem. intros v [Hv|Hv]%elem_of_app.
      - apply String.eqb_neq. by apply Hnew.
      - apply list_elem_of_singleton in Hv as ->. simpl.
        apply String.eqb_neq. congruence. }
    destruct (find_elem_is_Some
                (λ v, String.eqb (User.username v)
                        (RegisterRequest.username rq'))
                (users db ++ [new_user w rq]) (new_user w rq))
      as [v ->]; [| |done].
    + apply elem_of_app. right. apply list_elem_of_here.
    + simpl. by apply String.eqb_eq.
Qed.

(** X5. Register, then log in.  When the password hasher and verifier agree
    on the password of the request, a registration that returned can be
    followed, in any later world, by a login with the same email and
    password: it returns a token pair issued for the id the registration
    answered with, the id of the row it created. *)
Theorem register_then_login w rq db r db' w' :
  run (register w rq) db = (Return r, db') →
  verify_password (RegisterRequest.password rq)
    (get_password_hash w (RegisterRequest.password rq)) = true →
  (run (login w'
          (LoginRequest.mk (RegisterRequest.email rq)
             (RegisterRequest.password rq))) db').1
  = Return (TokenResponse.mk
              (create_access_token w' [("sub", UserResponse.id r)])
              (create_refresh_token w' [("sub", UserResponse.id r)])
              "bearer")
  ∧ UserResponse.id r = str (uuid4 w)
  ∧ user_by_email db' (RegisterRequest.email rq) = Some (new_user w rq).
Proof.
  intros (-> & Hemail & ->)%run_register_Return Hverify.
  assert (Hrow : user_by_email
                   (mkStore (users db ++ [new_user w rq])
                      (token_blacklist db))
                   (RegisterRequest.email rq) = Some (new_user w rq)).
  { unfold user_by_email. simpl.
    apply find_snoc_fresh; [done|]. simpl. apply String.eqb_refl. }
  split; [|done].
  by rewrite (run_login_Return w' _ _ (new_user w rq)).
Qed.

End RegisterMore.

Section LogoutMore.
Context {E : Env}.

(** X6. Logout is all or nothing and touches the ledger only.  Whatever the
    request, the user rows are the same afterwards and every revocation
    entry that was in the ledger is still there, unchanged.  A logout that
    raises, be it a 400 of the handler or an error of the store on the
    second of its two rows, leaves the store exactly as it was. *)
Theorem logout_all_or_nothing w rq db :
  users (run (logout w rq) db).2 = users db
  ∧ (∀ jti e, token_blacklist db !! jti = Some e →
              token_blacklist (run (logout w rq) db).2 !! jti = Some e)
  ∧ (∀ e, (run (logout w rq) db).1 = Raise e →
          (run (logout w rq) db).2 = db).
Proof.
  rewrite run_logout.
  destruct (nonempty (decode_token w (LogoutRequest.access_token rq)))
    as [pa|]; [|done].
  destruct (nonempty (decode_token w (LogoutRequest.refresh_token rq)))
    as [pr|]; [|done].
  destruct (py_or _ _) as [[|c u]|]; [done| |done].
  destruct (flush _ _) as [db'|] eqn:Hflush; [|done].
  apply flush_blacklist in Hflush as (Husers & Hmono & _ & _).
  simpl. split; [done|]. split; [done|]. intros e [=].
Qed.

Lemma blacklist_entry_shape w token p user_id kind e :
  blacklist_entry w token p user_id kind = Some e →
  e = TokenBlacklist.mk (TokenBlacklist.jti e) user_id kind
        (default 0 (Payload.exp p)) "logout".
Proof.
  unfold blacklist_entry.
  destruct (py_or _ _) as [[|c j]|]; [done| |done].
  by intros [= <-].
Qed.

(** X7. What a successful logout leaves in the ledger.  For each of the two
    tokens for which the call finds a jti, the ledger then maps that jti to
    an entry with the user id of the call, the kind of the token ("access"
    for the first, "refresh" for the second), the token's [exp] claim as
    expiry, 0 when the claim is absent, and the reason "logout".  Every
    entry that was not in the ledger before is one of these two. *)
Theorem logout_entries_written w rq db msg db' pa pr :
  run (logout w rq) db = (Return msg, db') →
  decode_token w (LogoutRequest.access_token rq) = Some pa →
  decode_token w (LogoutRequest.refresh_token rq) = Some pr →
  ∃ user_id,
    py_or (Payload.sub pa) (Payload.sub pr) = Some user_id
    ∧ (∀ jti,
         py_or (get_jti_from_token w (LogoutRequest.access_token rq))
           (Payload.jti pa) = Some jti → jti ≠ "" →
         token_blacklist db' !! jti
         = Some (TokenBlacklist.mk jti user_id "access"
                   (default 0 (Payload.exp pa)) "logout"))
    ∧ (∀ jti,
         py_or (get_jti_from_token w (LogoutRequest.refresh_token rq))
           (Payload.jti pr) = Some jti → jti ≠ "" →
         token_blacklist db' !! jti
         = Some (TokenBlacklist.mk jti user_id "refresh"
                   (default 0 (Payload.exp pr)) "logout"))
    ∧ (∀ jti e, token_blacklist db' !! jti = Some e →
                token_blacklist db !! jti = None →
                TokenBlacklist.reason e = "logout"
                ∧ (TokenBlacklist.token_type e = "access"
                   ∨ TokenBlacklist.token_type e = "refresh")).
Proof.
  intros (pa' & pr' & user_id & Ha & Hr & Hsub & _ & Hflush)%run_logout_Return
    Hpa Hpr.
  apply nonempty_decoded in Ha, Hr.
  rewrite Hpa in Ha. rewrite Hpr in Hr.
  injection Ha as <-. injection Hr as <-.
  apply flush_blacklist in Hflush as (_ & _ & Hin & Hout).
  exists user_id. split; [done|]. split; [|split].
  - intros jti Hjti Hne.
    pose (e := TokenBlacklist.mk jti user_id "access"
                 (default 0 (Payload.exp pa)) "logout").
    destruct (Hin e) as [Hlookup _]; [|done].
    unfold logout_entries. apply elem_of_app. left.
    apply elem_of_option_list. unfold blacklist_entry.
    rewrite Hjti. by destruct jti.
  - intros jti Hjti Hne.
    pose (e := TokenBlacklist.mk jti user_id "refresh"
                 (default 0 (Payload.exp pr)) "logout").
    destruct (Hin e) as [Hlookup _]; [|done].
    unfold logout_entries. apply elem_of_app. right.
    apply elem_of_option_list. unfold blacklist_entry.
    rewrite Hjti. by destruct jti.
  - intros jti e Hafter Hbefore.
    apply Hout in Hafter as [Hold|Hnew]; [congruence|].
    unfold logout_entries in Hnew. apply elem_of_app in Hnew.
    destruct Hnew as [Hnew|Hnew]; apply elem_of_option_list in Hnew;
      apply blacklist_entry_shape in Hnew; rewrite Hnew; simpl; auto.
Qed.

(** X8. One jti for both tokens.  When both tokens decode to a non-empty
    payload, a subject is found and the call finds the same jti for the
    access token and for the refresh token, as it does when one token
    string is sent in both fields, it builds two rows for one unique key:
    the commit raises, the request is answered 500 and nothing is
    written. *)
Theorem logout_same_jti_raises w rq db pa pr user_id jti :
  nonempty (decode_token w (LogoutRequest.access_token rq)) = Some pa →
  nonempty (decode_token w (LogoutRequest.refresh_token rq)) = Some pr →
  py_or (Payload.sub pa) (Payload.sub pr) = Some user_id → user_id ≠ "" →
  py_or (get_jti_from_token w (LogoutRequest.access_token rq))
    (Payload.jti pa) = Some jti →
  py_or (get_jti_from_token w (LogoutRequest.refresh_token rq))
    (Payload.jti pr) = Some jti →
  jti ≠ "" →
  status_code_of status.HTTP_200_OK (run (logout w rq) db).1 = 500
  ∧ (run (logout w rq) db).2 = db.
Proof.
  intros Hpa Hpr Hsub Hne Hja Hjr Hjne.
  rewrite run_logout, Hpa, Hpr, Hsub.
  destruct user_id as [|c u]; [done|].
  unfold logout_entries, blacklist_entry. rewrite Hja, Hjr.
  destruct jti as [|cj j]; [done|]. cbn -[flush_change].
  destruct (flush_change db _) as [db1|e] eqn:Hfirst.
  - apply flush_change_blacklist in Hfirst as ([uid Huuid] & _ & ->).
    unfold flush_change, is_revoked. simpl in *.
    rewrite Huuid, lookup_insert_eq. done.
  - unfold flush_change in Hfirst. simpl in Hfirst.
    destruct (uuid_in _); [|by injection Hfirst as <-].
    destruct (is_revoked _ _); [by injection Hfirst as <-|].
    destruct (negb _); [by injection Hfirst as <-|done].
Qed.

(** X9. No jti, nothing to revoke.  When both tokens decode to a non-empty
    payload and a subject is found, but the call finds a jti for neither
    token, logout returns its message and the store is left as it was. *)
Theorem logout_without_jti_writes_nothing w rq db pa pr user_id :
  nonempty (decode_token w (LogoutRequest.access_token rq)) = Some pa →
  nonempty (decode_token w (LogoutRequest.refresh_token rq)) = Some pr →
  py_or (Payload.sub pa) (Payload.sub pr) = Some user_id → user_id ≠ "" →
  truthy (py_or (get_jti_from_token w (LogoutRequest.access_token rq))
            (Payload.jti pa)) = false →
  truthy (py_or (get_jti_from_token w (LogoutRequest.refresh_token rq))
            (Payload.jti pr)) = false →
  run (logout w rq) db
  = (Return [("message", "Successfully logged out")], db).
Proof.
  intros Hpa Hpr Hsub Hne Hja Hjr.
  rewrite run_logout, Hpa, Hpr, Hsub.
  destruct user_id as [|c u]; [done|].
  unfold logout_entries, blacklist_entry.
  destruct (py_or (get_jti_from_token w (LogoutRequest.access_token rq)) _)
    as [[|? ?]|]; [|done|];
    destruct (py_or (get_jti_from_token w (LogoutRequest.refresh_token rq)) _)
      as [[|? ?]|]; done.
Qed.

(** X10. The two 400 answers of logout.  Every [HTTPException] logout raises
    has status 400 and no headers.  Its detail is "Invalid tokens" exactly
    when one of the tokens fails to decode or decodes to the empty payload,
    and "Invalid token payload" exactly when both decode and neither
    carries a non-empty [sub] claim. *)
Theorem logout_bad_request_reasons w rq db code detail headers :
  (run (logout w rq) db).1 = Raise (HTTPException code detail headers) →
  code = 400 ∧ headers = []
  ∧ ((detail = "Invalid tokens"
      ∧ (nonempty (decode_token w (LogoutRequest.access_token rq)) = None
         ∨ nonempty (decode_token w (LogoutRequest.refresh_token rq)) = None))
     ∨ (detail = "Invalid token payload"
        ∧ ∃ pa pr,
            nonempty (decode_token w (LogoutRequest.access_token rq))
              = Some pa
            ∧ nonempty (decode_token w (LogoutRequest.refresh_token rq))
              = Some pr
            ∧ truthy (Payload.sub pa) = false
            ∧ truthy (Payload.sub pr) = false)).
Proof.
  rewrite run_logout.
  destruct (nonempty (decode_token w (LogoutRequest.access_token rq)))
    as [pa|] eqn:Ha.
  2:{ intros [= <- <- <-]. split; [done|]. split; [done|]. left. auto. }
  destruct (nonempty (decode_token w (LogoutRequest.refresh_token rq)))
    as [pr|] eqn:Hr.
  2:{ intros [= <- <- <-]. split; [done|]. split; [done|]. left. auto. }
  destruct (py_or _ _) as [[|c u]|] eqn:Hsub.
  - intros [= <- <- <-]. split; [done|]. split; [done|]. right.
    split; [done|]. exists pa, pr. unfold py_or in Hsub.
    destruct (truthy (Payload.sub pa)) eqn:Hta.
    + rewrite Hsub in Hta. done.
    + by rewrite Hsub.
  - destruct (flush _ _) as [db'|e] eqn:Hflush; simpl; [done|].
    intros [= ->]. exfalso.
    revert Hflush. generalize (logout_entries w rq pa pr (String c u)).
    intros es. revert db. induction es as [|e es IH]; intros db; simpl;
      [done|].
    destruct (uuid_in _); [|done].
    destruct (is_revoked _ _); [done|].
    destruct (negb _); [done|]. apply IH.
  - intros [= <- <- <-]. split; [done|]. split; [done|]. right.
    split; [done|]. exists pa, pr. unfold py_or in Hsub.
    destruct (truthy (Payload.sub pa)) eqn:Hta.
    + rewrite Hsub in Hta. done.
    + by rewrite Hsub.
Qed.

End LogoutMore.

Section Invariant.
Context {E : Env}.

Lemma NoDup_map_snoc {A B} (f : A → B) (l : list A) (x : A) :
  NoDup (map f l) → (∀ y, y ∈ l → f y ≠ f x) → NoDup (map f (l ++ [x])).
Proof.
  intros Hl Hx. rewrite map_app. simpl. apply NoDup_app.
  split; [done|]. split; [|apply NoDup_singleton].
  intros b Hb ->%list_elem_of_singleton.
  apply list_elem_of_In, in_map_iff in Hb as (y & Hfy & Hy).
  apply list_elem_of_In in Hy. by apply (Hx y).
Qed.

Lemma map_map_stable {A B} (g : A → B) (f : A → A) (l : list A) :
  (∀ x, g (f x) = g x) → map g (map f l) = map g l.
Proof. intros Hg. rewrite map_map. by apply map_ext. Qed.

Lemma existsb_false_elem {A} (p : A → bool) (l : list A) :
  existsb p l = false → ∀ y, y ∈ l → p y = false.
Proof.
  rewrite find_existsb. destruct (find p l) eqn:Hf; [done|].
  intros _. by apply find_None_elem.
Qed.

(** X11. The unique indexes of [users] as an invariant.  On a store in which
    no two users share an id, an email or a username, every handler, on
    every request and in every world, and whether it returns or raises,
    leaves a store in which that still holds. *)
Theorem handlers_keep_users_unique w db :
  unique_users db →
  (∀ rq, unique_users (run (login w rq) db).2)
  ∧ (∀ rq, unique_users (run (register w rq) db).2)
  ∧ (∀ rq, unique_users (run (refresh_token w rq) db).2)
  ∧ (∀ rq, unique_users (run (logout w rq) db).2).
Proof.
  intros Hu. pose proof Hu as (Hid & Hemail & Hname).
  split; [|split; [|split]].
  - intros rq. rewrite run_login.
    destruct (user_by_email _ _) as [user|]; [|exact Hu].
    destruct (negb (verify_password _ _)); [exact Hu|].
    destruct (negb (User.is_active user)); [exact Hu|].
    unfold_M. unfold commit, unique_users. simpl.
    rewrite (map_map_stable User.id), (map_map_stable User.email),
      (map_map_stable User.username); [exact Hu|..];
      intros u; by destruct (N.eqb _ _).
  - intros rq. rewrite run_register.
    destruct (find (λ u, String.eqb (User.email u) _) _) eqn:Hfe; [exact Hu|].
    destruct (find (λ u, String.eqb (User.username u) _) _) eqn:Hfn; [exact Hu|].
    destruct (user_has_nul (new_user w rq)); [exact Hu|].
    destruct (has_user db (uuid4 w)) eqn:Hfi; [exact Hu|].
    unfold unique_users. simpl. split; [|split]; apply NoDup_map_snoc;
      try done; intros y Hy; simpl.
    + apply N.eqb_neq. by apply (existsb_false_elem _ _ Hfi).
    + apply String.eqb_neq. by apply (proj1 (find_None_elem _ _) Hfe).
    + apply String.eqb_neq. by apply (proj1 (find_None_elem _ _) Hfn).
  - intros rq. by rewrite run_refresh_token.
  - intros rq. rewrite run_logout.
    destruct (nonempty (decode_token w (LogoutRequest.access_token rq)))
      as [pa|]; [|exact Hu].
    destruct (nonempty (decode_token w (LogoutRequest.refresh_token rq)))
      as [pr|]; [|exact Hu].
    destruct (py_or _ _) as [[|c u]|]; [done| |done].
    destruct (flush _ _) as [db'|] eqn:Hflush; [|exact Hu].
    apply flush_blacklist in Hflush as (Husers & _). simpl.
    unfold unique_users. by rewrite Husers.
Qed.

End Invariant.

Section AuthenticateMore.
Context {E : Env}.

(** The authenticator never touches the session it is given, and its
    outcome does not depend on it. *)
Lemma get_current_user_id_session w credentials s :
  get_current_user_id w credentials s
  = ((run (get_current_user_id w credentials) empty_store).1, s).
Proof.
  unfold get_current_user_id, run. unfold_M.
  destruct (nonempty _) as [p|]; [|done].
  destruct (Payload.sub p) as [[|c u]|]; [done| |done].
  by destruct (UUID _).
Qed.

(** X12. The request authenticator reads and writes no stored state: it
    hands the session back as it found it, and it answers the same on any
    two stores.  In particular the revocation ledger has no say: after a
    logout that returned, with the jti of the access token revoked, that
    access token still authenticates as its subject for as long as it
    decodes. *)
Theorem get_current_user_id_ignores_store w credentials :
  (∀ s, (get_current_user_id w credentials s).2 = s)
  ∧ (∀ db db', (run (get_current_user_id w credentials) db).1
               = (run (get_current_user_id w credentials) db').1)
  ∧ (∀ w0 rq db msg db' p jti user_id id,
       run (logout w0 rq) db = (Return msg, db') →
       credentials = LogoutRequest.access_token rq →
       decode_token w0 credentials = Some p →
       py_or (get_jti_from_token w0 credentials) (Payload.jti p)
         = Some jti →
       jti ≠ "" →
       decode_token w credentials = Some p →
       Payload.sub p = Some user_id → UUID user_id = Some id →
       user_id ≠ "" →
       is_revoked db' jti = true
       ∧ (run (get_current_user_id w credentials) db').1 = Return id).
Proof.
  split; [|split].
  - intros s. by rewrite get_current_user_id_session.
  - intros db db'. unfold run.
    by rewrite !(get_current_user_id_session w credentials (mkSession _ _)).
  - intros w0 rq db msg db' p jti user_id id Hlogout -> Hp0 Hjti Hjne Hp
      Hsub Hid Hne. split.
    + apply run_logout_Return in Hlogout
        as (pa & pr & uid & Ha & _ & _ & _ & Hflush).
      apply nonempty_decoded in Ha. rewrite Hp0 in Ha. injection Ha as <-.
      apply flush_blacklist in Hflush as (_ & _ & Hin & _).
      pose (e := TokenBlacklist.mk jti uid "access"
                   (default 0 (Payload.exp p)) "logout").
      destruct (Hin e) as [Hlookup _].
      { unfold logout_entries. apply elem_of_app. left.
        apply elem_of_option_list. unfold blacklist_entry.
        rewrite Hjti. by destruct jti. }
      unfold is_revoked. simpl in Hlookup. by rewrite Hlookup.
    + unfold run. rewrite get_current_user_id_session. simpl.
      unfold run, get_current_user_id. unfold_M. rewrite Hp.
      rewrite (nonempty_sub p _ Hsub), Hsub.
      destruct user_id; [done|]. simpl. by rewrite Hid.
Qed.

(** X13. What a rejection by the authenticator looks like.  Every exception
    it raises is an [HTTPException] with status 401 and the single header
    WWW-Authenticate: Bearer.  The detail is "Invalid token" when the token
    does not decode or decodes to the empty payload, "Invalid token
    payload" when the payload has no [sub] claim or an empty one, and
    "Invalid user ID in token" when the claim does not parse as a UUID. *)
Theorem get_current_user_id_rejections w credentials db e :
  (run (get_current_user_id w credentials) db).1 = Raise e →
  ∃ detail,
    e = HTTPException status.HTTP_401_UNAUTHORIZED detail
          [("WWW-Authenticate", "Bearer")]
    ∧ ((detail = "Invalid token"
        ∧ nonempty (decode_token w credentials) = None)
       ∨ (detail = "Invalid token payload"
          ∧ ∃ p, nonempty (decode_token w credentials) = Some p
                 ∧ truthy (Payload.sub p) = false)
       ∨ (detail = "Invalid user ID in token"
          ∧ ∃ p user_id,
              nonempty (decode_token w credentials) = Some p
              ∧ Payload.sub p = Some user_id ∧ user_id ≠ ""
              ∧ UUID user_id = None)).
Proof.
  unfold run, get_current_user_id. unfold_M.
  destruct (nonempty _) as [p|] eqn:Hp; simpl.
  2:{ intros [= <-]. eexists. split; [done|]. by left. }
  destruct (Payload.sub p) as [[|c u]|] eqn:Hsub; simpl.
  - intros [= <-]. eexists. split; [done|]. right. left.
    split; [done|]. exists p. by rewrite Hsub.
  - destruct (UUID _) eqn:Hid; simpl; [done|].
    intros [= <-]. eexists. split; [done|]. right. right.
    split; [done|]. by exists p, (String c u).
  - intros [= <-]. eexists. split; [done|]. right. left.
    split; [done|]. exists p. by rewrite Hsub.
Qed.

End AuthenticateMore.

Section RefreshMore.
Context {E : Env}.


End RefreshMore.

Section RoundTrips.
Context {E : Env}.

(** X15. Log in, then authenticate.  Given a codec that decodes the access
    token it issued for a subject to a payload carrying that subject, and a
    UUID parser that reads the string form of an id back, the access token
    returned by a successful login authenticates, on the store the login
    left, as the account that logged in. *)
Theorem login_then_authenticate w rq db user w' p :
  user_by_email db (LoginRequest.email rq) = Some user →
  verify_password (LoginRequest.password rq) (User.hashed_password user)
    = true →
  User.is_active user = true →
  decode_token w' (create_access_token w [("sub", str (User.id user))])
    = Some p →
  Payload.sub p = Some (str (User.id user)) →
  str (User.id user) ≠ "" →
  UUID (str (User.id user)) = Some (User.id user) →
  ∃ tokens,
    (run (login w rq) db).1 = Return tokens
    ∧ (run (get_current_user_id w' (TokenResponse.access_token tokens))
         (run (login w rq) db).2).1
      = Return (User.id user).
Proof.
  intros Hfound Hpw Hactive Hp Hsub Hne Hid.
  rewrite (run_login_Return w rq db user Hfound Hpw Hactive).
  eexists. split; [done|]. simpl.
  unfold run. rewrite get_current_user_id_session. simpl.
  unfold run, get_current_user_id. unfold_M. rewrite Hp.
  rewrite (nonempty_sub p _ Hsub), Hsub.
  destruct (str (User.id user)); [done|]. simpl. by rewrite Hid.
Qed.

(** X16. Log in, then refresh.  Given a codec that decodes the refresh
    token it issued for a subject to a payload of type "refresh" carrying
    that subject, the refresh token returned by a successful login is
    accepted by the refresh operation, which returns a new access token
    issued for the id of the account that logged in together with the same
    refresh token. *)
Theorem login_then_refresh w rq db user w' p :
  user_by_email db (LoginRequest.email rq) = Some user →
  verify_password (LoginRequest.password rq) (User.hashed_password user)
    = true →
  User.is_active user = true →
  decode_token w' (create_refresh_token w [("sub", str (User.id user))])
    = Some p →
  Payload.type p = Some "refresh" →
  Payload.sub p = Some (str (User.id user)) →
  str (User.id user) ≠ "" →
  ∃ tokens,
    (run (login w rq) db).1 = Return tokens
    ∧ (run (refresh_token w'
              (RefreshTokenRequest.mk (TokenResponse.refresh_token tokens)))
         (run (login w rq) db).2).1
      = Return (TokenResponse.mk
                  (create_access_token w' [("sub", str (User.id user))])
                  (TokenResponse.refresh_token tokens)
                  "bearer").
Proof.
  intros Hfound Hpw Hactive Hp Hk Hsub Hne.
  rewrite (run_login_Return w rq db user Hfound Hpw Hactive).
  eexists. split; [done|]. simpl.
  by apply (refresh_token_Return w'
              (RefreshTokenRequest.mk
                 (create_refresh_token w [("sub", str (User.id user))]))
              _ p (str (User.id user))).
Qed.

End RoundTrips.

(** * The further properties on the concrete environments *)

Lemma login_issues_pair_and_records_time_witness :
  (run (login (E:=Demo.env) 100 (LoginRequest.mk "a@x.com" "password123"))
     Demo.db0).1
    = Return (TokenResponse.mk
                (create_access_token (Env:=Demo.env) 100
                   [("sub", str (Env:=Demo.env) (User.id Demo.alice))])
                (create_refresh_token (Env:=Demo.env) 100
                   [("sub", str (Env:=Demo.env) (User.id Demo.alice))])
                "bearer")
  ∧ user_by_email
      (run (login (E:=Demo.env) 100
              (LoginRequest.mk "a@x.com" "password123")) Demo.db0).2
      "a@x.com"
    = Some (User.set_last_login 100 Demo.alice)
  ∧ token_blacklist
      (run (login (E:=Demo.env) 100
              (LoginRequest.mk "a@x.com" "password123")) Demo.db0).2
    = token_blacklist Demo.db0.
Proof.
  apply (login_issues_pair_and_records_time (E:=Demo.env) 100
           (LoginRequest.mk "a@x.com" "password123") Demo.db0 Demo.alice).
  - vm_compute. reflexivity.
  - vm_compute. reflexivity.
  - reflexivity.
Defined.

Lemma register_reports_email_first_witness :
  run (register (E:=Demo.env) 100
         (RegisterRequest.mk "a@x.com" "bob" "password123" None)) Demo.db0
  = (Raise (HTTPException status.HTTP_400_BAD_REQUEST
              "Email already registered" []), Demo.db0).
Proof.
  apply (proj1 (register_reports_email_first (E:=Demo.env) 100
                  (RegisterRequest.mk "a@x.com" "bob" "password123" None)
                  Demo.db0)).
  exists Demo.alice. split; [apply list_elem_of_here|reflexivity].
Defined.

Lemma register_twice_is_refused_witness :
  run (register (E:=Demo.env) 200
         (RegisterRequest.mk "c@x.com" "carol2" "another-password" None))
    (mkStore [Demo.alice; Demo.bob; new_user (E:=Demo.env) 100 Demo.carol] ∅)
  = (Raise (HTTPException status.HTTP_400_BAD_REQUEST
              "Email already registered" []),
     mkStore [Demo.alice; Demo.bob; new_user (E:=Demo.env) 100 Demo.carol] ∅).
Proof.
  refine (proj1 (register_twice_is_refused (E:=Demo.env) 100 Demo.carol
                   Demo.db0
                   (UserResponse.mk "00000000-0000-0000-0000-000000000064"
                      "c@x.com" "carol" None true (Some "100"))
                   _ 200
                   (RegisterRequest.mk "c@x.com" "carol2" "another-password"
                      None) _) _).
  - vm_compute. reflexivity.
  - reflexivity.
Defined.

Lemma register_then_login_witness :
  (run (login (E:=Demo.env) 200 (LoginRequest.mk "c@x.com" "password123"))
     (mkStore [Demo.alice; Demo.bob; new_user (E:=Demo.env) 100 Demo.carol]
        ∅)).1
  = Return (TokenResponse.mk
              "00000000-0000-0000-0000-000000000064.access"
              "00000000-0000-0000-0000-000000000064.refresh"
              "bearer").
Proof.
  refine (proj1 (register_then_login (E:=Demo.env) 100 Demo.carol Demo.db0
                   (UserResponse.mk "00000000-0000-0000-0000-000000000064"
                      "c@x.com" "carol" None true (Some "100"))
                   (mkStore [Demo.alice; Demo.bob;
                             new_user (E:=Demo.env) 100 Demo.carol] ∅)
                   200 _ _)).
  - vm_compute. reflexivity.
  - vm_compute. reflexivity.
Defined.

Lemma logout_entries_written_witness :
  ∃ user_id,
    py_or (Payload.sub Demo.alice_access)
      (Payload.sub (Payload.mk (Some Demo.alice_id) (Some "refresh")
                      (Some "jti-r1") (Some 604800) []))
    = Some user_id
    ∧ token_blacklist Demo.db1 !! "jti-a1"
      = Some (TokenBlacklist.mk "jti-a1" user_id "access" 1800 "logout")
    ∧ token_blacklist Demo.db1 !! "jti-r1"
      = Some (TokenBlacklist.mk "jti-r1" user_id "refresh" 604800 "logout").
Proof.
  destruct (logout_entries_written (E:=Demo.env) 100 Demo.alice_pair
              Demo.db0 Demo.logged_out Demo.db1 Demo.alice_access
              (Payload.mk (Some Demo.alice_id) (Some "refresh")
                 (Some "jti-r1") (Some 604800) []))
    as (user_id & Hsub & Haccess & Hrefresh & _).
  - vm_compute. reflexivity.
  - vm_compute. reflexivity.
  - vm_compute. reflexivity.
  - exists user_id. split; [exact Hsub|]. split.
    + apply Haccess; [reflexivity|discriminate].
    + apply Hrefresh; [reflexivity|discriminate].
Defined.

Lemma logout_same_jti_raises_witness :
  status_code_of status.HTTP_200_OK
    (run (logout (E:=Demo.env) 100
            (LogoutRequest.mk "alice.refresh" "alice.refresh")) Demo.db0).1
    = 500
  ∧ (run (logout (E:=Demo.env) 100
            (LogoutRequest.mk "alice.refresh" "alice.refresh")) Demo.db0).2
    = Demo.db0.
Proof.
  apply (logout_same_jti_raises (E:=Demo.env) 100
           (LogoutRequest.mk "alice.refresh" "alice.refresh") Demo.db0
           (Payload.mk (Some Demo.alice_id) (Some "refresh")
              (Some "jti-r1") (Some 604800) [])
           (Payload.mk (Some Demo.alice_id) (Some "refresh")
              (Some "jti-r1") (Some 604800) [])
           Demo.alice_id "jti-r1").
  - vm_compute. reflexivity.
  - vm_compute. reflexivity.
  - reflexivity.
  - discriminate.
  - vm_compute. reflexivity.
  - vm_compute. reflexivity.
  - discriminate.
Defined.

Lemma logout_without_jti_writes_nothing_witness :
  run (logout (E:=Bare.env) 100 Demo.alice_pair) Demo.db0
  = (Return [("message", "Successfully logged out")], Demo.db0).
Proof.
  apply (logout_without_jti_writes_nothing (E:=Bare.env) 100 Demo.alice_pair
           Demo.db0
           (Payload.mk (Some Demo.alice_id) (Some "access") None (Some 1800)
              [])
           (Payload.mk (Some Demo.alice_id) (Some "refresh") None
              (Some 604800) [])
           Demo.alice_id).
  - vm_compute. reflexivity.
  - vm_compute. reflexivity.
  - reflexivity.
  - discriminate.
  - vm_compute. reflexivity.
  - vm_compute. reflexivity.
Defined.

Lemma logout_bad_request_reasons_witness :
  400 = 400 ∧ @nil (string * string) = []
  ∧ (("Invalid tokens" = "Invalid tokens"
      ∧ (nonempty (decode_token (Env:=Demo.env) 100 "alice.access") = None
         ∨ nonempty (decode_token (Env:=Demo.env) 100 "garbage") = None))
     ∨ ("Invalid tokens" = "Invalid token payload"
        ∧ ∃ pa pr,
            nonempty (decode_token (Env:=Demo.env) 100 "alice.access")
              = Some pa
            ∧ nonempty (decode_token (Env:=Demo.env) 100 "garbage") = Some pr
            ∧ truthy (Payload.sub pa) = false
            ∧ truthy (Payload.sub pr) = false)).
Proof.
  apply (logout_bad_request_reasons (E:=Demo.env) 100
           (LogoutRequest.mk "alice.access" "garbage") Demo.db0
           400 "Invalid tokens" []).
  vm_compute. reflexivity.
Defined.

Lemma handlers_keep_users_unique_witness :
  unique_users
    (run (register (E:=Demo.env) 100 Demo.carol) Demo.db0).2
  ∧ unique_users
      (run (login (E:=Demo.env) 100
              (LoginRequest.mk "a@x.com" "password123")) Demo.db0).2.
Proof.
  assert (Hunique : unique_users Demo.db0).
  { unfold unique_users. simpl.
    split; [|split];
      repeat (apply NoDup_cons; split;
              [rewrite ?elem_of_cons, elem_of_nil; intros Hx;
               repeat destruct Hx as [Hx|Hx]; done|]);
      apply NoDup_nil_2. }
  pose proof (handlers_keep_users_unique (E:=Demo.env) 100 Demo.db0 Hunique)
    as (Hlogin & Hregister & _ & _).
  split; [apply Hregister|apply Hlogin].
Defined.

Lemma get_current_user_id_ignores_store_witness :
  is_revoked Demo.db1 "jti-a1" = true
  ∧ (run (get_current_user_id (E:=Demo.env) 200 "alice.access") Demo.db1).1
    = Return 161%N.
Proof.
  refine (proj2 (proj2 (get_current_user_id_ignores_store (E:=Demo.env)
                          200 "alice.access"))
            100 Demo.alice_pair Demo.db0 Demo.logged_out Demo.db1
            Demo.alice_access "jti-a1" Demo.alice_id 161%N
            _ _ _ _ _ _ _ _ _).
  - vm_compute. reflexivity.
  - reflexivity.
  - vm_compute. reflexivity.
  - vm_compute. reflexivity.
  - discriminate.
  - vm_compute. reflexivity.
  - reflexivity.
  - vm_compute. reflexivity.
  - discriminate.
Defined.

Lemma get_current_user_id_rejections_witness :
  ∃ detail,
    HTTPException 401 "Invalid user ID in token"
      [("WWW-Authenticate", "Bearer")]
    = HTTPException status.HTTP_401_UNAUTHORIZED detail
        [("WWW-Authenticate", "Bearer")]
    ∧ ((detail = "Invalid token"
        ∧ nonempty (decode_token (Env:=Demo.env) 100 "badsub.access") = None)
       ∨ (detail = "Invalid token payload"
          ∧ ∃ p, nonempty (decode_token (Env:=Demo.env) 100 "badsub.access")
                 = Some p
                 ∧ truthy (Payload.sub p) = false)
       ∨ (detail = "Invalid user ID in token"
          ∧ ∃ p user_id,
              nonempty (decode_token (Env:=Demo.env) 100 "badsub.access")
              = Some p
              ∧ Payload.sub p = Some user_id ∧ user_id ≠ ""
              ∧ UUID (Env:=Demo.env) user_id = None)).
Proof.
  apply (get_current_user_id_rejections (E:=Demo.env) 100 "badsub.access"
           Demo.db0).
  vm_compute. reflexivity.
Defined.


Lemma login_then_authenticate_witness :
  ∃ tokens,
    (run (login (E:=Codec.env) 100 (LoginRequest.mk "a@x.com" "password123"))
       Demo.db0).1 = Return tokens
    ∧ (run (get_current_user_id (E:=Codec.env) 200
              (TokenResponse.access_token tokens))
         (run (login (E:=Codec.env) 100
                 (LoginRequest.mk "a@x.com" "password123")) Demo.db0).2).1
      = Return (User.id Demo.alice).
Proof.
  apply (login_then_authenticate (E:=Codec.env) 100
           (LoginRequest.mk "a@x.com" "password123") Demo.db0 Demo.alice 200
           (Payload.mk (Some Demo.alice_id) (Some "access")
              (Some ("jti-access|" ++ Demo.alice_id)) (Some 2000) [])).
  - vm_compute. reflexivity.
  - vm_compute. reflexivity.
  - reflexivity.
  - vm_compute. reflexivity.
  - vm_compute. reflexivity.
  - vm_compute. discriminate.
  - vm_compute. reflexivity.
Defined.

Lemma login_then_refresh_witness :
  ∃ tokens,
    (run (login (E:=Codec.env) 100 (LoginRequest.mk "a@x.com" "password123"))
       Demo.db0).1 = Return tokens
    ∧ (run (refresh_token (E:=Codec.env) 200
              (RefreshTokenRequest.mk (TokenResponse.refresh_token tokens)))
         (run (login (E:=Codec.env) 100
                 (LoginRequest.mk "a@x.com" "password123")) Demo.db0).2).1
      = Return (TokenResponse.mk
                  (create_access_token (Env:=Codec.env) 200
                     [("sub", str (Env:=Codec.env) (User.id Demo.alice))])
                  (TokenResponse.refresh_token tokens)
                  "bearer").
Proof.
  apply (login_then_refresh (E:=Codec.env) 100
           (LoginRequest.mk "a@x.com" "password123") Demo.db0 Demo.alice 200
           (Payload.mk (Some Demo.alice_id) (Some "refresh")
              (Some ("jti-refresh|" ++ Demo.alice_id)) (Some 605000) [])).
  - vm_compute. reflexivity.
  - vm_compute. reflexivity.
  - reflexivity.
  - vm_compute. reflexivity.
  - reflexivity.
  - vm_compute. reflexivity.
  - vm_compute. discriminate.
Defined.

(** * Properties of the push token handlers *)

Ltac unfold_MP :=
  unfold run_push, mbind, MP_bind, mret, MP_ret, praise, dbapi_error,
    query_user, query_push_token, query_push_token_where, push_add,
    push_commit, push_refresh in *.

Section PushTokenProperties.
Context {E : Env}.

Lemma Database_eta db : mkDatabase (store db) (push_tokens db) = db.
Proof. by destruct db. Qed.

(** How the registration of a push token is answered. *)
Lemma run_register_push_token w td user_id db :
  run_push (register_push_token w td user_id) db =
  match find (λ u, N.eqb (User.id u) user_id) (users (store db)) with
  | None => (Raises (HTTPException 404 "User not found" []), db)
  | Some _ =>
      let change :=
        match find (λ r, String.eqb (PushToken.token r)
                           (PushTokenRegister.token td)) (push_tokens db) with
        | Some existing =>
            (PushToken.id existing,
             Update_registration (PushToken.id existing) user_id
               (PushTokenRegister.platform td)
               (PushTokenRegister.device_id td) (utcnow w))
        | None =>
            (uuid4 w,
             Insert_PushToken
               (PushToken.mk (uuid4 w) user_id (PushTokenRegister.token td)
                  (PushTokenRegister.platform td)
                  (PushTokenRegister.device_id td)
                  true (func_now w) (func_now w) None))
        end in
      match push_flush_change w (store db) (push_tokens db) change.2 with
      | Raise e => (Raises e, db)
      | Return rows =>
          match find (λ v, N.eqb (PushToken.id v) change.1) rows with
          | Some v =>
              (Returns (push_token_response v), mkDatabase (store db) rows)
          | None =>
              (Raises (InvalidRequestError "Could not refresh instance"),
               mkDatabase (store db) rows)
          end
      end
  end.
Proof.
  destruct db as [st rows0].
  unfold register_push_token. unfold_MP. cbn -[push_flush_change].
  destruct (find (λ u, N.eqb (User.id u) user_id) _); [|done].
  destruct (find (λ r, String.eqb (PushToken.token r) _) _) as [existing|];
    cbn -[push_flush_change];
    (destruct (push_flush_change _ _ _ _) as [rows|e];
     cbn -[push_flush_change]; [|done]);
    by destruct (find _ rows).
Qed.

(** How a deactivation is answered. *)
Lemma run_deactivate_push_token w body user_id db :
  run_push (deactivate_push_token w body user_id) db =
  let token := default JNull (body !! "token") in
  if negb (json_truthy token)
  then (Raises (HTTPException status.HTTP_400_BAD_REQUEST
                  "Token is required" []), db)
  else
    match token with
    | JString t =>
        match find (λ r, String.eqb (PushToken.token r) t
                         && N.eqb (PushToken.user_id r) user_id)
                (push_tokens db) with
        | None =>
            if has_nul t then (Raises NUL_refused, db)
            else (Raises (HTTPException 404 "Push token not found" []), db)
        | Some found =>
            (Returns [("message", "Push token deactivated successfully")],
             mkDatabase (store db)
               (update_rows (PushToken.id found) (deactivated w false)
                  (push_tokens db)))
        end
    | _ => (DBAPIError "push_tokens.token = %(token_1)s", db)
    end.
Proof.
  destruct db as [st rows0].
  unfold deactivate_push_token. unfold_MP. simpl.
  destruct (negb (json_truthy _)); [done|].
  destruct (default JNull (body !! "token")) as [| | |t| |]; try done.
  simpl. destruct (find _ rows0); [done|]. by destruct (has_nul t).
Qed.

Lemma find_by_id (rows : list PushToken.t) (r : PushToken.t) :
  NoDup (map PushToken.id rows) → r ∈ rows →
  find (λ v, N.eqb (PushToken.id v) (PushToken.id r)) rows = Some r.
Proof.
  induction rows as [|x rows IH]; simpl.
  - intros _ Hr. by apply not_elem_of_nil in Hr.
  - intros [Hx Hnd]%NoDup_cons [->|Hr]%elem_of_cons.
    + by rewrite N.eqb_refl.
    + destruct (N.eqb (PushToken.id x) (PushToken.id r)) eqn:Heq.
      * apply N.eqb_eq in Heq. exfalso. apply Hx. rewrite Heq.
        apply list_elem_of_In, in_map. by apply list_elem_of_In.
      * by apply IH.
Qed.

Lemma varchar_fits n s : (String.length s ≤ n)%nat → varchar n s = Some s.
Proof.
  intros Hs. unfold varchar.
  by rewrite (proj2 (Nat.leb_le _ _) Hs).
Qed.

Lemma varchar_opt_fits n o :
  (∀ s, o = Some s → (String.length s ≤ n)%nat) → varchar_opt n o = Some o.
Proof.
  intros Ho. destruct o as [s|]; simpl; [|done].
  by rewrite varchar_fits by auto.
Qed.

Lemma has_user_elem db user_id :
  (∃ u, u ∈ users db ∧ User.id u = user_id) ↔ has_user db user_id = true.
Proof.
  unfold has_user. rewrite find_existsb. split.
  - intros (u & Hu & Hid).
    destruct (find_elem_is_Some (λ v, N.eqb (User.id v) user_id) (users db) u)
      as [v ->]; [done| |done].
    by apply N.eqb_eq.
  - destruct (find _ _) as [u|] eqn:Hf; [|done]. intros _.
    apply find_Some_elem in Hf as [Hu Hid]. exists u. split; [done|].
    by apply N.eqb_eq.
Qed.

Lemma find_user_by_id db user_id :
  has_user db user_id = true →
  is_Some (find (λ u, N.eqb (User.id u) user_id) (users db)).
Proof.
  unfold has_user. rewrite find_existsb. by destruct (find _ _).
Qed.

(** X18. A push token cannot be registered for an id that has no user row:
    the handler answers 404 "User not found" and writes nothing, whether or
    not the token is known. *)
Theorem register_push_token_unknown_user w td user_id db :
  (∀ u, u ∈ users (store db) → User.id u ≠ user_id) →
  run_push (register_push_token w td user_id) db
  = (Raises (HTTPException 404 "User not found" []), db).
Proof.
  intros Hnone. rewrite run_register_push_token.
  assert (find (λ u, N.eqb (User.id u) user_id) (users (store db)) = None)
    as ->; [|done].
  apply find_None_elem. intros u Hu. apply N.eqb_neq. by apply Hnone.
Qed.

(** X19. The first registration of a token.  For a user of the store, a
    token no row carries yet, values that fit their columns and hold no
    NUL character, and an unused primary key, the handler appends one row,
    owned by the caller, active, never used, with the token, platform and
    device of the request, and returns that row's id, token and platform
    with [is_active] true.  The other rows and the auth tables are as
    before. *)
Theorem register_push_token_creates w td user_id db :
  (∃ u, u ∈ users (store db) ∧ User.id u = user_id) →
  (∀ r, r ∈ push_tokens db →
        PushToken.token r ≠ PushTokenRegister.token td
        ∧ PushToken.id r ≠ uuid4 w) →
  (String.length (PushTokenRegister.token td) ≤ 500)%nat →
  (String.length (PushTokenRegister.platform td) ≤ 20)%nat →
  (∀ d, PushTokenRegister.device_id td = Some d →
        (String.length d ≤ 255)%nat) →
  has_nul (PushTokenRegister.token td) = false →
  has_nul (PushTokenRegister.platform td) = false →
  has_nul_opt (PushTokenRegister.device_id td) = false →
  run_push (register_push_token w td user_id) db
  = (Returns (PushTokenResponse.mk (str (uuid4 w))
                (PushTokenRegister.token td)
                (PushTokenRegister.platform td) true),
     mkDatabase (store db)
       (push_tokens db ++
          [PushToken.mk (uuid4 w) user_id (PushTokenRegister.token td)
             (PushTokenRegister.platform td)
             (PushTokenRegister.device_id td)
             true (func_now w) (func_now w) None])%list).
Proof.
  intros Huser Hnew Htoken Hplatform Hdevice Hnt Hnp Hnd.
  apply has_user_elem in Huser.
  rewrite run_register_push_token.
  destruct (find_user_by_id _ _ Huser) as [u ->].
  assert (Hft : find (λ r, String.eqb (PushToken.token r)
                             (PushTokenRegister.token td)) (push_tokens db)
                = None).
  { apply find_None_elem. intros r Hr. apply String.eqb_neq.
    by apply Hnew. }
  assert (Hfi : find (λ r, N.eqb (PushToken.id r) (uuid4 w)) (push_tokens db)
                = None).
  { apply find_None_elem. intros r Hr. apply N.eqb_neq. by apply Hnew. }
  rewrite Hft. simpl.
  rewrite !varchar_fits, varchar_opt_fits by done.
  rewrite Hnt, Hnp, Hnd. simpl.
  unfold has_push_id, has_push_token. rewrite !find_existsb, Hft, Hfi.
  rewrite Huser. simpl.
  rewrite (find_snoc_fresh _ _ _ Hfi) by apply N.eqb_refl.
  done.
Qed.

Lemma find_update_rows_token id f rows token :
  (∀ r, PushToken.token (f r) = PushToken.token r) →
  find (λ r, String.eqb (PushToken.token r) token) (update_rows id f rows)
  = option_map (λ r, if N.eqb (PushToken.id r) id then f r else r)
      (find (λ r, String.eqb (PushToken.token r) token) rows).
Proof.
  intros Hf. unfold update_rows. apply find_map_stable.
  intros r. destruct (N.eqb (PushToken.id r) id); [|done]. by rewrite Hf.
Qed.

Lemma find_update_rows_id id f rows i :
  (∀ r, PushToken.id (f r) = PushToken.id r) →
  find (λ r, N.eqb (PushToken.id r) i) (update_rows id f rows)
  = option_map (λ r, if N.eqb (PushToken.id r) id then f r else r)
      (find (λ r, N.eqb (PushToken.id r) i) rows).
Proof.
  intros Hf. unfold update_rows. apply find_map_stable.
  intros r. destruct (N.eqb (PushToken.id r) id); [|done]. by rewrite Hf.
Qed.

Lemma elem_of_update_rows_other id f rows r :
  r ∈ rows → PushToken.id r ≠ id → r ∈ update_rows id f rows.
Proof.
  intros Hr Hne. unfold update_rows.
  apply list_elem_of_In, in_map_iff. exists r. split.
  - apply N.eqb_neq in Hne. by rewrite Hne.
  - by apply list_elem_of_In.
Qed.

(** X20. Registering a token that is already known moves it to the caller.
    For a platform and a device that fit their columns and hold no NUL
    character: whoever owned the row, and whether or not it was active, the
    handler keeps the row (same id, same creation time, same last use),
    makes the caller its owner, sets platform and device to those of the
    request and activates it.  No row is added, every row with another id
    is as before, the auth tables are untouched, and the answer is the
    row's id, token and platform with [is_active] true. *)
Theorem register_push_token_takes_over w td user_id db existing :
  NoDup (map PushToken.id (push_tokens db)) →
  (∃ u, u ∈ users (store db) ∧ User.id u = user_id) →
  find (λ r, String.eqb (PushToken.token r) (PushTokenRegister.token td))
    (push_tokens db) = Some existing →
  (String.length (PushTokenRegister.platform td) ≤ 20)%nat →
  (∀ d, PushTokenRegister.device_id td = Some d →
        (String.length d ≤ 255)%nat) →
  has_nul (PushTokenRegister.platform td) = false →
  has_nul_opt (PushTokenRegister.device_id td) = false →
  let r := run_push (register_push_token w td user_id) db in
  ∃ row,
    r.1 = Returns (PushTokenResponse.mk (str (PushToken.id existing))
                     (PushTokenRegister.token td)
                     (PushTokenRegister.platform td) true)
    ∧ find (λ v, String.eqb (PushToken.token v) (PushTokenRegister.token td))
        (push_tokens r.2) = Some row
    ∧ PushToken.id row = PushToken.id existing
    ∧ PushToken.user_id row = user_id
    ∧ PushToken.platform row = PushTokenRegister.platform td
    ∧ PushToken.device_id row = PushTokenRegister.device_id td
    ∧ PushToken.is_active row = true
    ∧ PushToken.created_at row = PushToken.created_at existing
    ∧ PushToken.last_used_at row = PushToken.last_used_at existing
    ∧ length (push_tokens r.2) = length (push_tokens db)
    ∧ (∀ v, v ∈ push_tokens db → PushToken.id v ≠ PushToken.id existing →
            v ∈ push_tokens r.2)
    ∧ store r.2 = store db.
Proof.
  intros Hids Huser Hfound Hplatform Hdevice Hnp Hnd r. subst r.
  apply has_user_elem in Huser.
  pose proof (find_Some_elem _ _ _ Hfound) as [Hin Htoken].
  apply String.eqb_eq in Htoken.
  rewrite run_register_push_token.
  destruct (find_user_by_id _ _ Huser) as [u ->].
  rewrite Hfound. simpl.
  rewrite varchar_fits, varchar_opt_fits by done.
  rewrite Hnp, Hnd, Huser. simpl.
  rewrite find_update_rows_id by done.
  rewrite (find_by_id _ _ Hids Hin). simpl. rewrite N.eqb_refl.
  set (row := reregistered w user_id (PushTokenRegister.platform td)
                (PushTokenRegister.device_id td) (utcnow w)
                (PushTokenRegister.platform td)
                (PushTokenRegister.device_id td) existing).
  assert (Hp : PushToken.platform row = PushTokenRegister.platform td).
  { subst row. unfold reregistered. simpl.
    destruct (String.eqb _ _) eqn:Heq; [|done]. by apply String.eqb_eq. }
  assert (Hd : PushToken.device_id row = PushTokenRegister.device_id td).
  { subst row. unfold reregistered. simpl. by case_bool_decide. }
  exists row. simpl. unfold push_token_response.
  rewrite Hp. split; [by rewrite <- Htoken|].
  split.
  { rewrite find_update_rows_token by done. rewrite Hfound. simpl.
    by rewrite N.eqb_refl. }
  do 7 (split; [done|]).
  split; [unfold update_rows; by rewrite length_map|].
  split; [|done].
  intros v Hv Hne. by apply elem_of_update_rows_other.
Qed.


(** X22. What a deactivation refuses, each time without writing.  A body
    without a "token" member, or with one that is false as a condition
    (null, false, 0, the empty string, an empty array or object), is
    answered 400 "Token is required".  A token string that no row of the
    caller carries, be it unknown or registered by another user, is
    answered 404 "Push token not found" when it holds no NUL character;
    when it holds one, the driver refuses it at the query with
    [ValueError] and the request is answered 500.  A value that is true
    and is not a string reaches the query, which the driver cannot run:
    the request is answered 500. *)
Theorem deactivate_push_token_refusals w body user_id db :
  (json_truthy (default JNull (body !! "token")) = false →
     run_push (deactivate_push_token w body user_id) db
     = (Raises (HTTPException status.HTTP_400_BAD_REQUEST
                  "Token is required" []), db))
  ∧ (∀ t, body !! "token" = Some (JString t) → t ≠ "" →
          (∀ r, r ∈ push_tokens db → PushToken.token r = t →
                PushToken.user_id r ≠ user_id) →
          (has_nul t = false →
             run_push (deactivate_push_token w body user_id) db
             = (Raises (HTTPException 404 "Push token not found" []), db))
          ∧ (has_nul t = true →
               run_push (deactivate_push_token w body user_id) db
               = (Raises NUL_refused, db)
               ∧ reply_status status.HTTP_200_OK
                   (run_push (deactivate_push_token w body user_id) db).1
                 = 500))
  ∧ (∀ v, body !! "token" = Some v → json_truthy v = true →
          (∀ t, v ≠ JString t) →
          (run_push (deactivate_push_token w body user_id) db).2 = db
          ∧ reply_status status.HTTP_200_OK
              (run_push (deactivate_push_token w body user_id) db).1 = 500).
Proof.
  rewrite run_deactivate_push_token. cbv zeta. split; [|split].
  - intros ->. done.
  - intros t -> Hne Hnone. simpl.
    rewrite (proj2 (String.eqb_neq _ _) Hne). simpl.
    assert (find (λ r, String.eqb (PushToken.token r) t
                       && N.eqb (PushToken.user_id r) user_id)
              (push_tokens db) = None) as ->.
    { apply find_None_elem. intros r Hr.
      destruct (String.eqb (PushToken.token r) t) eqn:Ht; [|done].
      apply String.eqb_eq in Ht. simpl. apply N.eqb_neq. by apply Hnone. }
    split; by intros ->.
  - intros v -> Htrue Hother. simpl. rewrite Htrue. simpl.
    destruct v; try done. by destruct (Hother s).
Qed.

Lemma deactivated_twice w b r :
  deactivated w b (deactivated w b r) = deactivated w b r.
Proof.
  unfold deactivated.
  destruct (Bool.eqb (PushToken.is_active r) b) eqn:Hb.
  - by rewrite Hb.
  - simpl. by rewrite Bool.eqb_reflx.
Qed.

Lemma update_rows_twice id f rows :
  (∀ r, PushToken.id (f r) = PushToken.id r) → (∀ r, f (f r) = f r) →
  update_rows id f (update_rows id f rows) = update_rows id f rows.
Proof.
  intros Hid Hf. unfold update_rows. rewrite map_map. apply map_ext.
  intros r. destruct (N.eqb (PushToken.id r) id) eqn:Hr.
  - by rewrite Hid, Hr, Hf.
  - by rewrite Hr.
Qed.

Lemma deactivated_id w b r :
  PushToken.id (deactivated w b r) = PushToken.id r.
Proof. unfold deactivated. by destruct (Bool.eqb _ _). Qed.

Lemma elem_of_update_rows_cases id f rows v :
  v ∈ update_rows id f rows →
  ∃ r, r ∈ rows ∧ v = if N.eqb (PushToken.id r) id then f r else r.
Proof.
  unfold update_rows.
  intros (r & Hv & Hr)%list_elem_of_In%in_map_iff.
  apply list_elem_of_In in Hr. by exists r.
Qed.

Lemma elem_of_update_rows id f rows v :
  v ∈ update_rows id f rows → v ∈ rows ∨ ∃ r, r ∈ rows ∧ v = f r.
Proof.
  unfold update_rows.
  intros (r & Hv & Hr)%list_elem_of_In%in_map_iff.
  apply list_elem_of_In in Hr.
  destruct (N.eqb _ _); subst v; eauto.
Qed.

(** X23. What a deactivation does.  For a token string carried by a row of
    the caller, the handler returns its message and that row is inactive
    afterwards, all its other columns but [updated_at] being as before.  No
    row is added or removed, every row with another id is as before, no row
    becomes active, the auth tables are untouched.  A row that was inactive
    already is not written at all, so the same deactivation sent again
    returns the same message and changes nothing. *)
Theorem deactivate_push_token_effect w body user_id db t found :
  NoDup (map PushToken.id (push_tokens db)) →
  body !! "token" = Some (JString t) → t ≠ "" →
  find (λ r, String.eqb (PushToken.token r) t
             && N.eqb (PushToken.user_id r) user_id) (push_tokens db)
    = Some found →
  let r := run_push (deactivate_push_token w body user_id) db in
  r.1 = Returns [("message", "Push token deactivated successfully")]
  ∧ (∃ row,
       find (λ v, N.eqb (PushToken.id v) (PushToken.id found))
         (push_tokens r.2) = Some row
       ∧ PushToken.is_active row = false
       ∧ PushToken.set_is_active false 0 row
         = PushToken.set_is_active false 0 found)
  ∧ length (push_tokens r.2) = length (push_tokens db)
  ∧ (∀ v, v ∈ push_tokens db → PushToken.id v ≠ PushToken.id found →
          v ∈ push_tokens r.2)
  ∧ (∀ v, v ∈ push_tokens r.2 → PushToken.is_active v = true →
          v ∈ push_tokens db)
  ∧ store r.2 = store db
  ∧ (∀ w', run_push (deactivate_push_token w' body user_id) r.2
           = (Returns [("message", "Push token deactivated successfully")],
              r.2)).
Proof.
  intros Hids Hbody Hne Hfound r. subst r.
  pose proof (find_Some_elem _ _ _ Hfound) as [Hin _].
  rewrite run_deactivate_push_token, Hbody. simpl.
  rewrite (proj2 (String.eqb_neq _ _) Hne). simpl.
  rewrite Hfound. simpl.
  split; [done|]. split.
  { exists (deactivated w false found).
    rewrite find_update_rows_id by apply deactivated_id.
    rewrite (find_by_id _ _ Hids Hin). simpl. rewrite N.eqb_refl.
    split; [done|]. unfold deactivated.
    destruct (PushToken.is_active found) eqn:Ha; simpl; [done|].
    split; [done|]. by rewrite <- Ha. }
  split; [unfold update_rows; by rewrite length_map|].
  split; [intros v Hv Hother; by apply elem_of_update_rows_other|].
  split.
  { intros v [Hv|(r & Hr & ->)]%elem_of_update_rows Hactive; [done|].
    unfold deactivated in *.
    destruct (Bool.eqb (PushToken.is_active r) false); [done|].
    simpl in Hactive. done. }
  split; [done|].
  intros w'. rewrite run_deactivate_push_token, Hbody. simpl.
  rewrite (proj2 (String.eqb_neq _ _) Hne). simpl.
  unfold update_rows at 1. rewrite find_map_stable.
  2:{ intros v. destruct (N.eqb (PushToken.id v) _); [|done].
      unfold deactivated. by destruct (Bool.eqb _ _). }
  rewrite Hfound. simpl. rewrite N.eqb_refl, deactivated_id.
  f_equal. f_equal.
  unfold update_rows. rewrite map_map. apply map_ext.
  intros v. destruct (N.eqb (PushToken.id v) (PushToken.id found)) eqn:Hv.
  - rewrite deactivated_id, Hv. unfold deactivated.
    destruct (Bool.eqb (PushToken.is_active v) false) eqn:Hb.
    + by rewrite Hb.
    + simpl. done.
  - by rewrite Hv.
Qed.

Lemma map_update_rows {K} (key : PushToken.t → K) id f rows :
  (∀ r, key (f r) = key r) → map key (update_rows id f rows) = map key rows.
Proof.
  intros Hf. unfold update_rows. apply map_map_stable.
  intros r. by destruct (N.eqb _ _).
Qed.

(** X24. The indexes and the foreign key of [push_tokens] as an invariant.
    On a store in which no two push tokens share an id or a token and every
    push token belongs to a user, both handlers, on every request, for
    every caller and whether they return or raise, leave a store in which
    that still holds. *)
Theorem push_handlers_keep_wf w db :
  push_tokens_wf db →
  (∀ td user_id,
     push_tokens_wf (run_push (register_push_token w td user_id) db).2)
  ∧ (∀ body user_id,
       push_tokens_wf (run_push (deactivate_push_token w body user_id) db).2).
Proof.
  intros Hwf. pose proof Hwf as (Hids & Htokens & Hfk). split.
  - intros td user_id. rewrite run_register_push_token.
    destruct (find (λ u, N.eqb (User.id u) user_id) _); [|exact Hwf].
    assert (Hgoal : ∀ rows,
              push_tokens_wf (mkDatabase (store db) rows) →
              ∀ i, push_tokens_wf
                     (match find (λ v, N.eqb (PushToken.id v) i) rows with
                      | Some v => (Returns (push_token_response v),
                                   mkDatabase (store db) rows)
                      | None =>
                          (Raises (InvalidRequestError
                                     "Could not refresh instance"),
                           mkDatabase (store db) rows)
                      end).2).
    { intros rows Hrows i. by destruct (find _ rows). }
    destruct (find (λ r, String.eqb (PushToken.token r) _) _) as [existing|];
      simpl.
    + destruct (varchar 20 _) as [platform|]; [|exact Hwf].
      destruct (varchar_opt 255 _) as [device_id|]; [|exact Hwf].
      destruct (has_nul _ || has_nul_opt _); [exact Hwf|].
      destruct (has_user (store db) user_id) eqn:Huser; [|exact Hwf].
      simpl. apply Hgoal. unfold push_tokens_wf. simpl.
      rewrite !map_update_rows by done.
      split; [done|]. split; [done|].
      intros v [Hv|(r & Hr & ->)]%elem_of_update_rows; [by apply Hfk|].
      simpl. by apply has_user_elem.
    + destruct (varchar 500 _) as [token|]; [|exact Hwf].
      destruct (varchar 20 _) as [platform|]; [|exact Hwf].
      destruct (varchar_opt 255 _) as [device_id|]; [|exact Hwf].
      destruct (has_nul _ || has_nul _ || has_nul_opt _); [exact Hwf|].
      destruct (has_push_id _ _) eqn:Hid; [exact Hwf|].
      destruct (has_push_token _ _) eqn:Htoken; [exact Hwf|].
      destruct (has_user (store db) user_id) eqn:Huser; [|exact Hwf].
      simpl. apply Hgoal. unfold push_tokens_wf. simpl.
      split; [|split].
      * apply NoDup_map_snoc; [done|]. intros y Hy. simpl.
        apply N.eqb_neq. by apply (existsb_false_elem _ _ Hid).
      * apply NoDup_map_snoc; [done|]. intros y Hy. simpl.
        apply String.eqb_neq. by apply (existsb_false_elem _ _ Htoken).
      * intros v [Hv|Hv]%elem_of_app; [by apply Hfk|].
        apply list_elem_of_singleton in Hv as ->. simpl.
        by apply has_user_elem.
  - intros body user_id. rewrite run_deactivate_push_token. simpl.
    destruct (negb _); [exact Hwf|].
    destruct (default JNull (body !! "token")) as [| | |t| |];
      try exact Hwf.
    destruct (find _ _) as [found|]; [|by destruct (has_nul t)].
    unfold push_tokens_wf. simpl.
    rewrite !map_update_rows by apply deactivated_id || (intros r;
      unfold deactivated; by destruct (Bool.eqb _ _)).
    split; [done|]. split; [done|].
    intros v [Hv|(r & Hr & ->)]%elem_of_update_rows; [by apply Hfk|].
    unfold deactivated. destruct (Bool.eqb _ _); simpl; by apply Hfk.
Qed.

End PushTokenProperties.

(** * Properties of the push notification service *)

Section NotificationProperties.
Context {E : Env} {F : Firebase}.

(** What the two commits of the sending loop do to the store. *)
Lemma commit_change_is_active w id b s :
  commit_change w (Update_is_active id b) s
  = mkNotifier
      (mkDatabase (store (database s))
         (update_rows id (deactivated w b) (push_tokens (database s))))
      (firebase_app s) (outbox s).
Proof. by destruct s as [[st rows] app sent]. Qed.

Lemma commit_change_last_used_at w id at_ s :
  commit_change w (Update_last_used_at id at_) s
  = mkNotifier
      (mkDatabase (store (database s))
         (update_rows id (used w at_) (push_tokens (database s))))
      (firebase_app s) (outbox s).
Proof. by destruct s as [[st rows] app sent]. Qed.

Lemma aged_refl r : aged r r.
Proof. by repeat split. Qed.

Lemma aged_trans r1 r2 r3 : aged r1 r2 → aged r2 r3 → aged r1 r3.
Proof.
  intros (? & ? & ? & ? & ? & ? & ?) (? & ? & ? & ? & ? & ? & ?).
  repeat split; try congruence. auto.
Qed.

Lemma aged_deactivated w r : aged r (deactivated w false r).
Proof.
  unfold deactivated. destruct (Bool.eqb _ _); [apply aged_refl|].
  by repeat split.
Qed.

Lemma aged_used w at_ r : aged r (used w at_ r).
Proof.
  unfold used. case_bool_decide; [apply aged_refl|]. by repeat split.
Qed.

(** A state reached from another by sending: same auth tables, same
    Firebase app, and the push tokens row by row as [aged] allows, the rows
    whose id is not among [ids] being untouched. *)
Lemma update_rows_aged id f rows :
  (∀ r, aged r (f r)) →
  ∃ H, update_rows id f rows = map H rows
       ∧ (∀ r, aged r (H r)) ∧ (∀ r, PushToken.id r ≠ id → H r = r).
Proof.
  intros Hf. exists (λ r, if N.eqb (PushToken.id r) id then f r else r).
  split; [done|]. split.
  - intros r. destruct (N.eqb _ _); [apply Hf|apply aged_refl].
  - intros r Hr. apply N.eqb_neq in Hr. by rewrite Hr.
Qed.

Lemma send_all_frame w messages : ∀ n failed_tokens s,
  let s' := (send_all w messages n failed_tokens s).2 in
  store (database s') = store (database s)
  ∧ firebase_app s' = firebase_app s
  ∧ outbox s' = (outbox s ++ map fst messages)%list
  ∧ ∃ H, push_tokens (database s') = map H (push_tokens (database s))
         ∧ (∀ r, aged r (H r))
         ∧ (∀ r, PushToken.id r ∉ map (λ m, PushToken.id m.2) messages →
                 H r = r).
Proof.
  induction messages as [|[message token_obj] messages IH];
    intros n failed_tokens s; simpl.
  - rewrite app_nil_r. do 3 (split; [done|]).
    exists (λ r, r). split; [by rewrite map_id|]. split; [apply aged_refl|done].
  - assert (Hstep : ∀ s1,
      store (database s1) = store (database s) →
      firebase_app s1 = firebase_app s →
      outbox s1 = (outbox s ++ [message])%list →
      (∃ H, push_tokens (database s1) = map H (push_tokens (database s))
            ∧ (∀ r, aged r (H r))
            ∧ (∀ r, PushToken.id r ≠ PushToken.id token_obj → H r = r)) →
      ∀ k l,
      let s' := (send_all w messages k l s1).2 in
      store (database s') = store (database s)
      ∧ firebase_app s' = firebase_app s
      ∧ outbox s' = (outbox s ++ message :: map fst messages)%list
      ∧ ∃ H, push_tokens (database s') = map H (push_tokens (database s))
             ∧ (∀ r, aged r (H r))
             ∧ (∀ r, PushToken.id r
                       ∉ PushToken.id token_obj
                         :: map (λ m, PushToken.id m.2) messages →
                     H r = r)).
    { intros s1 Hst Happ Hout (H1 & Hrows1 & Haged1 & Hother1) k l.
      destruct (IH k l s1) as (Hst' & Happ' & Hout' & H2 & Hrows2 & Haged2
                               & Hother2).
      simpl. rewrite Hst', Happ', Hout', Hst, Happ, Hout, <- app_assoc.
      do 3 (split; [done|]).
      exists (λ r, H2 (H1 r)). split; [|split].
      - rewrite Hrows2, Hrows1. by rewrite map_map.
      - intros r. by apply (aged_trans _ (H1 r)).
      - intros r Hr. rewrite not_elem_of_cons in Hr. destruct Hr as [Hne Hr].
        rewrite (Hother1 r Hne). by apply Hother2. }
    destruct (messaging_send (outbox s) message).
    + apply Hstep; rewrite ?commit_change_last_used_at; simpl; try done.
      apply update_rows_aged. apply aged_used.
    + apply Hstep; rewrite ?commit_change_is_active; simpl; try done.
      apply update_rows_aged. apply aged_deactivated.
    + apply Hstep; simpl; try done.
      exists (λ r, r). split; [by rewrite map_id|].
      split; [apply aged_refl|done].
Qed.

Lemma send_bulk_loop_counts w title body user_ids : ∀ data results s,
  let r := (send_bulk_loop w user_ids title body data results s).1.1 in
  (success r + failed r = success results + failed results + length user_ids)%nat
  ∧ total r = total results.
Proof.
  induction user_ids as [|user_id user_ids IH]; intros data results s; simpl.
  - split; [lia|done].
  - destruct (send_push_notification w user_id title body data s)
      as [[[[|] data']|e] s'];
      match goal with
      | |- context [send_bulk_loop w user_ids title body ?d ?r ?t] =>
          destruct (IH d r t) as [Hsum Htotal]
      end; simpl in *; split; try done; lia.
Qed.

(** X25. The counts of a bulk send add up.  Whatever the users, the state
    and the messaging service, and whether single sends return true, return
    false or raise, the dict returned has [total] the number of user ids
    given and [success] + [failed] = [total]: every user id is counted
    once. *)
Theorem send_bulk_notification_counts w user_ids title body data s :
  let r := (send_bulk_notification w user_ids title body data s).1.1 in
  total r = length user_ids
  ∧ (success r + failed r = total r)%nat.
Proof.
  unfold send_bulk_notification.
  destruct (send_bulk_loop_counts w title body user_ids data
              (mkResults 0 0 (length user_ids)) s) as [Hsum Htotal].
  simpl in *. split; [done|]. rewrite Htotal. lia.
Qed.

(** A bulk send on a state on which every single send fails and changes
    nothing. *)
Lemma send_bulk_loop_all_fail w title body s user_ids : ∀ data results,
  (∀ user_id data,
     send_push_notification w user_id title body data s
       = (Finished (false, data), s)
     ∨ ∃ e, send_push_notification w user_id title body data s
            = (Threw e, s)) →
  send_bulk_loop w user_ids title body data results s
  = ((mkResults (success results) (failed results + length user_ids)
        (total results), data), s).
Proof.
  intros data results Hfail. revert results.
  induction user_ids as [|user_id user_ids IH]; intros results; simpl.
  - rewrite Nat.add_0_r. by destruct results.
  - destruct (Hfail user_id data) as [->|[e ->]]; rewrite IH; simpl;
      do 3 f_equal; lia.
Qed.

(** X26. Without a credentials path nothing is sent.  While the Firebase
    app is not initialized and [FIREBASE_CREDENTIALS_PATH] is unset or
    empty, a send returns false without touching the store, the caller's
    data or the messaging service, and stays uninitialized; a bulk send
    counts every user as failed. *)
Theorem unconfigured_sends_nothing w s :
  firebase_app s = None →
  FIREBASE_CREDENTIALS_PATH = None ∨ FIREBASE_CREDENTIALS_PATH = Some "" →
  (∀ user_id title body data,
     send_push_notification w user_id title body data s
     = (Finished (false, data), s))
  ∧ (∀ user_ids title body data,
       send_bulk_notification w user_ids title body data s
       = ((mkResults 0 (length user_ids) (length user_ids), data), s)).
Proof.
  intros Happ Hpath.
  assert (Hsingle : ∀ user_id title body data,
            send_push_notification w user_id title body data s
            = (Finished (false, data), s)).
  { intros. unfold send_push_notification, get_firebase_app,
      initialize_firebase. rewrite Happ.
    destruct Hpath as [-> | ->]; by rewrite Happ. }
  split; [done|]. intros user_ids title body data.
  unfold send_bulk_notification.
  rewrite send_bulk_loop_all_fail; [done|]. intros. left. apply Hsingle.
Qed.

(** X27. Credentials that do not load.  While the Firebase app is not
    initialized and the configured path fails to load, every send raises
    after trying to initialize, and nothing is sent or written.  A bulk
    send catches the exception for each user in turn: it returns with
    every user counted as failed, the state as it was. *)
Theorem failing_credentials_fail_every_send w s path :
  firebase_app s = None →
  FIREBASE_CREDENTIALS_PATH = Some path → path ≠ "" →
  certificate path = false →
  (∀ user_id title body data,
     ∃ e, send_push_notification w user_id title body data s = (Threw e, s))
  ∧ (∀ user_ids title body data,
       send_bulk_notification w user_ids title body data s
       = ((mkResults 0 (length user_ids) (length user_ids), data), s)).
Proof.
  intros Happ Hpath Hne Hcert.
  assert (Hsingle : ∀ user_id title body data,
            ∃ e, send_push_notification w user_id title body data s
                 = (Threw e, s)).
  { intros. unfold send_push_notification, get_firebase_app,
      initialize_firebase. rewrite Happ, Hpath.
    destruct path; [done|]. rewrite Hcert. by eexists. }
  split; [done|]. intros user_ids title body data.
  unfold send_bulk_notification.
  rewrite send_bulk_loop_all_fail; [done|]. intros. right. apply Hsingle.
Qed.

(** A send once the app is initialized. *)
Lemma send_push_notification_initialized w user_id title body data s app :
  firebase_app s = Some app →
  send_push_notification w user_id title body data s
  = (Finished (send_notification_internal w user_id title body data s).1,
     (send_notification_internal w user_id title body data s).2).
Proof.
  intros Happ. unfold send_push_notification, get_firebase_app.
  rewrite Happ. by destruct (send_notification_internal _ _ _ _ _ _).
Qed.

(** The messages of one call and what it leaves behind. *)
Lemma send_notification_internal_spec w user_id title body data s :
  let r := send_notification_internal w user_id title body data s in
  let tokens := active_tokens (database s) user_id in
  let messages :=
    map (λ token_obj,
           (Message.mk title body (message_data data user_id).1
              (PushToken.token token_obj) "high" "10" "default" 1,
            token_obj)) tokens in
  r.2 = (send_all w messages 0 [] s).2
  ∧ (tokens = [] → r = ((false, data), s))
  ∧ (tokens ≠ [] → r.1.2 = (message_data data user_id).2).
Proof.
  unfold send_notification_internal.
  destruct (active_tokens (database s) user_id) as [|t tokens] eqn:Htokens.
  - simpl. done.
  - cbv zeta. destruct (message_data data user_id) as [md data'] eqn:Hmd.
    cbn -[send_all].
    destruct (send_all w _ 0 [] s) as [[n failed_tokens] s'] eqn:Hsend.
    cbn -[send_all]. done.
Qed.

Lemma message_data_fst data user_id :
  (message_data data user_id).1
  = <["user_id" := str user_id]> (default ∅ data).
Proof.
  unfold message_data. destruct data as [d|]; [|done].
  case_bool_decide; simpl; [|done]. by subst d.
Qed.

(** X28. The messages of a send.  Once the Firebase app is initialized a
    send never raises.  It hands the messaging service exactly one message
    per active push token of the user, in the order the query returns them
    and after the messages handed over before: each with the title and body
    given,
    high Android priority, APNs priority 10, the default sound, badge 1,
    and as data the caller's data with "user_id" set to the string form of
    the user id.  A user without an active token gets false, and nothing is
    sent or written.  When a token is active, a non-empty dict passed as
    data is the caller's own object and comes back with "user_id" set; an
    absent or empty one comes back as it was. *)
Theorem send_push_notification_messages w user_id title body data s app :
  firebase_app s = Some app →
  let r := send_push_notification w user_id title body data s in
  let md := <["user_id" := str user_id]> (default ∅ data) in
  (∃ result, r.1 = Finished result)
  ∧ outbox r.2
    = (outbox s
       ++ map (λ t, Message.mk title body md (PushToken.token t)
                      "high" "10" "default" 1)
            (active_tokens (database s) user_id))%list
  ∧ (active_tokens (database s) user_id = [] →
     r = (Finished (false, data), s))
  ∧ (active_tokens (database s) user_id ≠ [] →
     (∀ d, data = Some d → d ≠ ∅ →
           ∃ b, r.1 = Finished (b, Some (<["user_id" := str user_id]> d)))
     ∧ (data = None ∨ data = Some ∅ → ∃ b, r.1 = Finished (b, data))).
Proof.
  intros Happ r md. subst r md.
  rewrite (send_push_notification_initialized _ _ _ _ _ _ _ Happ).
  destruct (send_notification_internal_spec w user_id title body data s)
    as (Hstate & Hnone & Hsome).
  simpl. split; [by eexists|]. split.
  { rewrite Hstate.
    destruct (send_all_frame w
                (map (λ token_obj,
                        (Message.mk title body (message_data data user_id).1
                           (PushToken.token token_obj) "high" "10" "default" 1,
                         token_obj))
                   (active_tokens (database s) user_id)) 0 [] s)
      as (_ & _ & Hout & _).
    rewrite Hout, map_map, message_data_fst. done. }
  split.
  { intros Hempty. by rewrite (Hnone Hempty). }
  intros Hactive. specialize (Hsome Hactive).
  destruct (send_notification_internal w user_id title body data s)
    as [[b data'] s'].
  simpl in Hsome. subst data'. split.
  - intros d -> Hd. exists b. unfold message_data.
    by rewrite bool_decide_eq_false_2.
  - intros [-> | ->]; exists b; [done|].
    unfold message_data. by rewrite bool_decide_eq_true_2.
Qed.

Lemma NoDup_map_elem_inj {A B} (f : A → B) (l : list A) x y :
  NoDup (map f l) → x ∈ l → y ∈ l → f x = f y → x = y.
Proof.
  induction l as [|z l IH]; simpl.
  - intros _ Hx. by apply not_elem_of_nil in Hx.
  - intros [Hz Hnd]%NoDup_cons [->|Hx]%elem_of_cons [->|Hy]%elem_of_cons Hf.
    + done.
    + exfalso. apply Hz. rewrite Hf.
      apply list_elem_of_In, in_map. by apply list_elem_of_In.
    + exfalso. apply Hz. rewrite <- Hf.
      apply list_elem_of_In, in_map. by apply list_elem_of_In.
    + by apply IH.
Qed.

Lemma get_firebase_app_state s :
  database (get_firebase_app s).2 = database s
  ∧ outbox (get_firebase_app s).2 = outbox s.
Proof.
  unfold get_firebase_app, initialize_firebase.
  destruct (firebase_app s) eqn:Happ; [done|].
  destruct FIREBASE_CREDENTIALS_PATH as [[|c path]|]; try done.
  by destruct (certificate _).
Qed.

(** The state a send leaves: the state after [get_firebase_app], or what
    the sending loop makes of it. *)
Lemma send_push_notification_state w user_id title body data s :
  (send_push_notification w user_id title body data s).2
    = (get_firebase_app s).2
  ∨ ∃ s0,
      database s0 = database s
      ∧ (send_push_notification w user_id title body data s).2
        = (send_all w
             (map (λ token_obj,
                     (Message.mk title body (message_data data user_id).1
                        (PushToken.token token_obj) "high" "10" "default" 1,
                      token_obj))
                (active_tokens (database s) user_id)) 0 [] s0).2.
Proof.
  unfold send_push_notification.
  destruct (get_firebase_app_state s) as [Hdb _].
  destruct (get_firebase_app s) as [[[app|]|e] s0]; simpl in *; try by left.
  right. exists s0. split; [done|].
  destruct (send_notification_internal_spec w user_id title body data s0)
    as (Hstate & _).
  destruct (send_notification_internal w user_id title body data s0)
    as [r s1].
  simpl in *. by rewrite Hstate, Hdb.
Qed.

(** X29. A send keeps to the sender's own tokens.  Whatever the state, the
    auth tables are as before and the push tokens are the same rows in the
    same order: id, owner, token, platform, device and creation time of
    every row are unchanged, and no row becomes active.  When ids are
    unique, every row that is not an active token of the user given, that
    is, every token of another user and every inactive token, is exactly
    as it was. *)
Theorem send_push_notification_keeps_to_own_tokens
    w user_id title body data s :
  let s' := (send_push_notification w user_id title body data s).2 in
  store (database s') = store (database s)
  ∧ ∃ H,
      push_tokens (database s') = map H (push_tokens (database s))
      ∧ (∀ r, aged r (H r))
      ∧ (NoDup (map PushToken.id (push_tokens (database s))) →
         ∀ r, r ∈ push_tokens (database s) →
              PushToken.user_id r ≠ user_id ∨ PushToken.is_active r = false →
              H r = r).
Proof.
  simpl.
  destruct (send_push_notification_state w user_id title body data s)
    as [-> | (s0 & Hdb & ->)].
  - destruct (get_firebase_app_state s) as [-> _]. split; [done|].
    exists (λ r, r). split; [by rewrite map_id|].
    split; [apply aged_refl|done].
  - match goal with
    | |- context [send_all w ?ms 0 [] s0] =>
        destruct (send_all_frame w ms 0 [] s0)
          as (Hst & _ & _ & H & Hrows & Haged & Hother)
    end.
    rewrite Hst, Hrows, Hdb. split; [done|].
    exists H. split; [done|]. split; [done|].
    intros Hids r Hr Hnot. apply Hother.
    rewrite map_map. simpl.
    intros (t & Hid & Ht)%list_elem_of_In%in_map_iff.
    apply list_elem_of_In in Ht. unfold active_tokens in Ht.
    apply list_elem_of_filter in Ht as [Hactive Ht].
    assert (t = r) as ->
      by (by apply (NoDup_map_elem_inj PushToken.id
                      (push_tokens (database s)))).
    apply andb_prop_elim in Hactive as [Huser Hact].
    apply Is_true_eq_true in Huser, Hact. apply N.eqb_eq in Huser.
    destruct Hnot as [Hnot|Hnot]; congruence.
Qed.

Lemma send_all_unregistered w messages : ∀ n failed_tokens s message t,
  (message, t) ∈ messages →
  (∀ sent, messaging_send sent message = UnregisteredError) →
  ∀ v, v ∈ push_tokens (database (send_all w messages n failed_tokens s).2) →
       PushToken.id v = PushToken.id t → PushToken.is_active v = false.
Proof.
  induction messages as [|[message0 t0] messages IH];
    intros n failed_tokens s message t Hin Hunreg v; simpl.
  - by apply not_elem_of_nil in Hin.
  - apply elem_of_cons in Hin as [[= <- <-]|Hin].
    + rewrite Hunreg. rewrite commit_change_is_active.
      match goal with
      | |- context [send_all w messages ?k ?l ?s1] =>
          destruct (send_all_frame w messages k l s1)
            as (_ & _ & _ & H & Hrows & Haged & _)
      end.
      rewrite Hrows. simpl.
      intros (r1 & <- & Hr1)%list_elem_of_In%in_map_iff Hid.
      apply list_elem_of_In in Hr1.
      destruct (Haged r1) as (Hid1 & _ & _ & _ & _ & _ & Hactive).
      rewrite Hid1 in Hid.
      apply elem_of_update_rows_cases in Hr1 as (r & Hr & ->).
      destruct (N.eqb (PushToken.id r) (PushToken.id t)) eqn:Heq.
      * destruct (PushToken.is_active (H _)) eqn:Hv; [|done].
        specialize (Hactive eq_refl). unfold deactivated in Hactive.
        destruct (PushToken.is_active r) eqn:Hr0; simpl in Hactive;
          congruence.
      * apply N.eqb_neq in Heq. done.
    + destruct (messaging_send (outbox s) message0);
        by apply (IH _ _ _ message t).
Qed.

(** X30. Unregistered tokens are retired.  Once the Firebase app is
    initialized, an active token of the user for which the messaging
    service raises [UnregisteredError] is inactive when the send is over,
    whatever happened to the user's other tokens before and after it. *)
Theorem unregistered_token_is_deactivated
    w user_id title body data s app t :
  firebase_app s = Some app →
  t ∈ active_tokens (database s) user_id →
  (∀ sent message,
     Message.token message = PushToken.token t →
     messaging_send sent message = UnregisteredError) →
  ∀ v, v ∈ push_tokens
             (database
                (send_push_notification w user_id title body data s).2) →
       PushToken.id v = PushToken.id t →
       PushToken.is_active v = false.
Proof.
  intros Happ Ht Hunreg v.
  rewrite (send_push_notification_initialized _ _ _ _ _ _ _ Happ). simpl.
  destruct (send_notification_internal_spec w user_id title body data s)
    as (-> & _).
  apply (send_all_unregistered w _ 0 [] s
           (Message.mk title body (message_data data user_id).1
              (PushToken.token t) "high" "10" "default" 1)).
  - apply list_elem_of_In, in_map_iff. exists t. split; [done|].
    by apply list_elem_of_In.
  - intros sent. by apply Hunreg.
Qed.

End NotificationProperties.

(** * The push token and notification properties on the concrete store *)

Lemma register_push_token_unknown_user_witness :
  run_push (register_push_token (E:=Demo.env) 100 PushDemo.watch 999%N)
    PushDemo.db
  = (Raises (HTTPException 404 "User not found" []), PushDemo.db).
Proof.
  apply (register_push_token_unknown_user (E:=Demo.env) 100 PushDemo.watch
           999%N PushDemo.db).
  intros u Hu. simpl in Hu. rewrite !elem_of_cons in Hu.
  destruct Hu as [->|[->|Hu]]; [done|done|].
  by apply not_elem_of_nil in Hu.
Defined.

Lemma register_push_token_creates_witness :
  run_push (register_push_token (E:=Demo.env) 100 PushDemo.watch 161%N)
    PushDemo.db
  = (Returns (PushTokenResponse.mk (str (Env:=Demo.env) 100%N)
                "fcm-alice-watch" "ios" true),
     mkDatabase Demo.db0
       [PushDemo.phone; PushDemo.tablet; PushDemo.old_phone;
        PushToken.mk 100%N 161%N "fcm-alice-watch" "ios" (Some "watch")
          true 100 100 None]).
Proof.
  apply (register_push_token_creates (E:=Demo.env) 100 PushDemo.watch 161%N
           PushDemo.db).
  - exists Demo.alice. split; [apply list_elem_of_here|reflexivity].
  - intros r Hr. simpl in Hr. rewrite !elem_of_cons in Hr.
    destruct Hr as [->|[->|[->|Hr]]]; [by split|by split|by split|].
    by apply not_elem_of_nil in Hr.
  - vm_compute. lia.
  - vm_compute. lia.
  - intros d [= <-]. vm_compute. lia.
  - reflexivity.
  - reflexivity.
  - reflexivity.
Defined.

Lemma register_push_token_takes_over_witness :
  ∃ row,
    (run_push (register_push_token (E:=Demo.env) 100
                 (PushTokenRegister.mk "fcm-bob-phone" "ios" None) 161%N)
       PushDemo.db).1
    = Returns (PushTokenResponse.mk (str (Env:=Demo.env) 3%N)
                 "fcm-bob-phone" "ios" true)
    ∧ find (λ v, String.eqb (PushToken.token v) "fcm-bob-phone")
        (push_tokens
           (run_push (register_push_token (E:=Demo.env) 100
                        (PushTokenRegister.mk "fcm-bob-phone" "ios" None)
                        161%N) PushDemo.db).2)
      = Some row
    ∧ PushToken.user_id row = 161%N
    ∧ PushToken.is_active row = true.
Proof.
  destruct (register_push_token_takes_over (E:=Demo.env) 100
              (PushTokenRegister.mk "fcm-bob-phone" "ios" None) 161%N
              PushDemo.db PushDemo.old_phone)
    as (row & Hanswer & Hfind & _ & Howner & _ & _ & Hactive & _).
  - simpl.
    repeat (apply NoDup_cons; split;
            [rewrite ?elem_of_cons, elem_of_nil; intros Hx;
             repeat destruct Hx as [Hx|Hx]; done|]).
    apply NoDup_nil_2.
  - exists Demo.alice. split; [apply list_elem_of_here|reflexivity].
  - vm_compute. reflexivity.
  - vm_compute. lia.
  - intros d [=].
  - reflexivity.
  - reflexivity.
  - exists row. split; [exact Hanswer|]. split; [exact Hfind|].
    split; [exact Howner|exact Hactive].
Defined.


Lemma deactivate_push_token_refusals_witness :
  run_push (deactivate_push_token (E:=Demo.env) 100
              {["token" := JString "fcm-bob-phone"]} 161%N) PushDemo.db
  = (Raises (HTTPException 404 "Push token not found" []), PushDemo.db)
  ∧ run_push (deactivate_push_token (E:=Demo.env) 100
                {["token" := JString (String "000"%char "fcm")]} 161%N)
      PushDemo.db
    = (Raises NUL_refused, PushDemo.db).
Proof.
  assert (Hrows : ∀ t r, r ∈ push_tokens PushDemo.db →
            t ≠ "fcm-alice-phone" → t ≠ "fcm-alice-tablet" →
            PushToken.token r = t → PushToken.user_id r ≠ 161%N).
  { intros t r Hr Hphone Htablet. simpl in Hr. rewrite !elem_of_cons in Hr.
    destruct Hr as [->|[->|[->|Hr]]]; [done|done|done|].
    by apply not_elem_of_nil in Hr. }
  split.
  - refine (proj1 (proj1 (proj2 (deactivate_push_token_refusals
                                   (E:=Demo.env) 100
                                   {["token" := JString "fcm-bob-phone"]}
                                   161%N PushDemo.db))
                     "fcm-bob-phone" _ _ _) _).
    + vm_compute. reflexivity.
    + discriminate.
    + intros r Hr. by apply Hrows.
    + reflexivity.
  - refine (proj1 (proj2 (proj1 (proj2 (deactivate_push_token_refusals
                                   (E:=Demo.env) 100
                                   {["token" :=
                                       JString (String "000"%char "fcm")]}
                                   161%N PushDemo.db))
                     (String "000"%char "fcm") _ _ _) _)).
    + vm_compute. reflexivity.
    + discriminate.
    + intros r Hr. by apply Hrows.
    + reflexivity.
Defined.

Lemma deactivate_push_token_effect_witness :
  (run_push (deactivate_push_token (E:=Demo.env) 100
               {["token" := JString "fcm-alice-phone"]} 161%N)
     PushDemo.db).1
  = Returns [("message", "Push token deactivated successfully")]
  ∧ ∃ row,
      find (λ v, N.eqb (PushToken.id v) 1%N)
        (push_tokens
           (run_push (deactivate_push_token (E:=Demo.env) 100
                        {["token" := JString "fcm-alice-phone"]} 161%N)
              PushDemo.db).2)
      = Some row
      ∧ PushToken.is_active row = false.
Proof.
  destruct (deactivate_push_token_effect (E:=Demo.env) 100
              {["token" := JString "fcm-alice-phone"]} 161%N PushDemo.db
              "fcm-alice-phone" PushDemo.phone)
    as (Hanswer & (row & Hfind & Hinactive & _) & _).
  - simpl.
    repeat (apply NoDup_cons; split;
            [rewrite ?elem_of_cons, elem_of_nil; intros Hx;
             repeat destruct Hx as [Hx|Hx]; done|]).
    apply NoDup_nil_2.
  - vm_compute. reflexivity.
  - discriminate.
  - vm_compute. reflexivity.
  - split; [exact Hanswer|]. exists row. by split.
Defined.

Lemma push_handlers_keep_wf_witness :
  push_tokens_wf
    (run_push (register_push_token (E:=Demo.env) 100 PushDemo.watch 161%N)
       PushDemo.db).2.
Proof.
  refine (proj1 (push_handlers_keep_wf (E:=Demo.env) 100 PushDemo.db _)
            PushDemo.watch 161%N).
  unfold push_tokens_wf. simpl. split; [|split].
  - repeat (apply NoDup_cons; split;
            [rewrite ?elem_of_cons, elem_of_nil; intros Hx;
             repeat destruct Hx as [Hx|Hx]; done|]).
    apply NoDup_nil_2.
  - repeat (apply NoDup_cons; split;
            [rewrite ?elem_of_cons, elem_of_nil; intros Hx;
             repeat destruct Hx as [Hx|Hx]; done|]).
    apply NoDup_nil_2.
  - intros r Hr. rewrite !elem_of_cons in Hr.
    destruct Hr as [->|[->|[->|Hr]]].
    + exists Demo.alice. split; [apply list_elem_of_here|reflexivity].
    + exists Demo.alice. split; [apply list_elem_of_here|reflexivity].
    + exists Demo.bob. split; [|reflexivity].
      apply list_elem_of_further, list_elem_of_here.
    + by apply not_elem_of_nil in Hr.
Defined.

Lemma unconfigured_sends_nothing_witness :
  send_bulk_notification (E:=Demo.env) (F:=PushDemo.unconfigured) 100
    [161%N; 178%N] "Hi" "there" None PushDemo.start
  = ((mkResults 0 2 2, None), PushDemo.start).
Proof.
  apply (proj2 (unconfigured_sends_nothing (E:=Demo.env)
                  (F:=PushDemo.unconfigured) 100 PushDemo.start
                  eq_refl (or_introl eq_refl))
           [161%N; 178%N] "Hi" "there" None).
Defined.

Lemma failing_credentials_fail_every_send_witness :
  send_bulk_notification (E:=Demo.env) (F:=PushDemo.broken) 100
    [161%N; 178%N] "Hi" "there" None PushDemo.start
  = ((mkResults 0 2 2, None), PushDemo.start).
Proof.
  refine (proj2 (failing_credentials_fail_every_send (E:=Demo.env)
                   (F:=PushDemo.broken) 100 PushDemo.start
                   "/etc/firebase.json" _ _ _ _)
            [161%N; 178%N] "Hi" "there" None).
  - reflexivity.
  - reflexivity.
  - discriminate.
  - reflexivity.
Defined.

Lemma send_push_notification_messages_witness :
  outbox (send_push_notification (E:=Demo.env) (F:=PushDemo.firebase) 100
            161%N "Hi" "there" None PushDemo.ready).2
  = [Message.mk "Hi" "there"
       (<["user_id" := str (Env:=Demo.env) 161%N]> ∅)
       "fcm-alice-phone" "high" "10" "default" 1;
     Message.mk "Hi" "there"
       (<["user_id" := str (Env:=Demo.env) 161%N]> ∅)
       "fcm-alice-tablet" "high" "10" "default" 1].
Proof.
  apply (proj1 (proj2 (send_push_notification_messages (E:=Demo.env)
                         (F:=PushDemo.firebase) 100 161%N "Hi" "there" None
                         PushDemo.ready "/etc/firebase.json" eq_refl))).
Defined.

Lemma unregistered_token_is_deactivated_witness :
  PushToken.is_active
    (PushToken.set_is_active false 100 PushDemo.tablet) = false.
Proof.
  apply (unregistered_token_is_deactivated (E:=Demo.env)
           (F:=PushDemo.firebase) 100 161%N "Hi" "there" None
           PushDemo.ready "/etc/firebase.json" PushDemo.tablet).
  - reflexivity.
  - vm_compute. apply list_elem_of_further, list_elem_of_here.
  - intros sent message Htoken. simpl. rewrite Htoken. reflexivity.
  - vm_compute. apply list_elem_of_further, list_elem_of_here.
  - reflexivity.
Defined.
